(** * Vendor management backend: balance reconciliation

    A shallow embedding of [src/routes/vendorRoutes.js] (the Express
    router behind [/api/vendors]) and the properties of its
    pending-balance arithmetic.

    Conventions of the embedding.
    - A JavaScript number is a binary64 number, kept as the rational it
      is worth, or an infinity, or [NaN]; every operation rounds its
      exact result to the nearest binary64 number, ties to even. The two
      zeros are one: the router never divides and never prints a zero.
    - A [numeric] column holds an exact decimal, an infinity or [NaN].
      The schema is not part of the repository: the two amounts of a
      vendor and the amount of a transaction are taken as [numeric]
      columns without a declared scale, and the keys as [integer]
      columns. The driver sends a number to the server as the shortest
      decimal that reads back as that number, and hands a column to the
      handler as text, which the handler reads with [parseFloat].
    - The relational store is a pair of tables (lists of rows) with their
      two serial counters; every SQL statement of the router is one
      function on that state, reading its placeholders [$k] from the
      array of values the call site supplies.
    - A handler is a function from the request and the store to the
      response and the new store; [BEGIN]/[ROLLBACK] keep and restore the
      store the handler started from.
    - What the repository leaves to the database server is a parameter:
      the reading of a date text comes with the text, and the order in
      which a [SELECT] without [ORDER BY] returns its rows is an argument
      of the two handlers that list rows. *)

From Stdlib Require Import QArith Qabs Qminmax Qround Qpower Qreduction.
From Stdlib Require Import ZArith List String Ascii Bool Lia Lqa Permutation.
From Stdlib Require Import SpecFloat.
Import ListNotations.

Local Open Scope Q_scope.

(** ** JavaScript numbers and values *)

Module JS.

Inductive num : Type :=
| NaN
| Inf (negative : bool)
| Num (q : Q).

Definition Qlt_bool (x y : Q) : bool := negb (Qle_bool y x).

(** *** Rounding to binary64 *)

(** The position of the leading bit of a positive rational. *)
Definition ilog2 (q : Q) : Z :=
  let k := (Z.log2 (Qnum q) - Z.log2 (Zpos (Qden q)))%Z in
  if Qle_bool (2 ^ k) q then k else (k - 1)%Z.

(** The nearest integer, a tie going to the even one. *)
Definition rne (x : Q) : Z :=
  let f := Qfloor x in
  match Qcompare (x - inject_Z f) (1 # 2) with
  | Lt => f
  | Gt => (f + 1)%Z
  | Eq => if Z.even f then f else (f + 1)%Z
  end.

(** The exponent of the last place of the binary64 numbers around a
    positive [q]: 53 bits, and no exponent below -1074. *)
Definition ulp_exponent (q : Q) : Z := Z.max (ilog2 q - 52) (-1074).

(** The multiple of the last place nearest to a positive [q]. *)
Definition nearest (q : Q) : Q :=
  let e := ulp_exponent q in inject_Z (rne (q / 2 ^ e)) * 2 ^ e.

(** The binary64 number an exact result is rounded to; it overflows to
    an infinity from 2^1024 on. *)
Definition round (q : Q) : num :=
  match Qcompare q 0 with
  | Eq => Num 0
  | Gt => let v := nearest q in
          if Qle_bool (2 ^ 1024) v then Inf false else Num (Qred v)
  | Lt => let v := nearest (- q) in
          if Qle_bool (2 ^ 1024) v then Inf true else Num (Qred (- v))
  end.

(** *** Arithmetic and comparisons *)

Definition isNaN (n : num) : bool :=
  match n with NaN => true | _ => false end.

Definition add (a b : num) : num :=
  match a, b with
  | Num x, Num y => round (x + y)
  | Inf s, Inf s' => if Bool.eqb s s' then Inf s else NaN
  | Inf s, Num _ => Inf s
  | Num _, Inf s => Inf s
  | _, _ => NaN
  end.

Definition sub (a b : num) : num :=
  match a, b with
  | Num x, Num y => round (x - y)
  | Inf s, Inf s' => if Bool.eqb s s' then NaN else Inf s
  | Inf s, Num _ => Inf s
  | Num _, Inf s => Inf (negb s)
  | _, _ => NaN
  end.

(** Comparisons with [NaN] are false, as in the language. *)
Definition lt (a b : num) : bool :=
  match a, b with
  | Num x, Num y => Qlt_bool x y
  | Inf true, Num _ => true
  | Num _, Inf false => true
  | Inf s, Inf s' => (s && negb s')%bool
  | _, _ => false
  end.

Definition le (a b : num) : bool :=
  match a, b with
  | Num x, Num y => Qle_bool x y
  | Inf true, Num _ => true
  | Num _, Inf false => true
  | Inf s, Inf s' => (s || negb s')%bool
  | _, _ => false
  end.

Definition gt (a b : num) : bool := lt b a.
Definition ge (a b : num) : bool := le b a.

(** [a === b] on numbers. *)
Definition strict_eq (a b : num) : bool :=
  match a, b with
  | Num x, Num y => Qeq_bool x y
  | Inf s, Inf s' => Bool.eqb s s'
  | _, _ => false
  end.

(** [Math.max(a, b)] and [Math.abs(a)]. *)
Definition max (a b : num) : num :=
  match a, b with
  | NaN, _ | _, NaN => NaN
  | _, _ => if le a b then b else a
  end.

Definition abs (a : num) : num :=
  match a with
  | Num x => Num (Qabs x)
  | Inf _ => Inf false
  | NaN => NaN
  end.

(** [Number.EPSILON] is 2^-52. *)
Definition EPSILON : num := Num (1 # 4503599627370496).

(** The values a JSON or form body can hold in a field. *)
Inductive value : Type :=
| Undefined
| Null
| Boolean (b : bool)
| Number (n : num)
| Str (s : string).

(** Truthiness, as tested by [!v], [v ? a : b] and [v || d]. *)
Definition truthy_num (n : num) : bool :=
  match n with
  | NaN => false
  | Inf _ => true
  | Num q => negb (Qeq_bool q 0)
  end.

Definition truthy_string (s : string) : bool :=
  match s with EmptyString => false | String _ _ => true end.

Definition truthy (v : value) : bool :=
  match v with
  | Undefined | Null => false
  | Boolean b => b
  | Number n => truthy_num n
  | Str s => truthy_string s
  end.

(** *** Printing a number

    [Number.prototype.toString] prints the decimal with the fewest
    digits that reads back as the number, the closest one when there are
    several. The string is kept as the rational it denotes. *)

Definition same (a b : num) : bool :=
  match a, b with
  | NaN, NaN => true
  | Inf s, Inf s' => Bool.eqb s s'
  | Num x, Num y => Qeq_bool x y
  | _, _ => false
  end.

(** The position of the leading decimal digit of a positive rational. *)
Definition ilog10 (q : Q) : Z :=
  let n := (ilog2 q * 30103 / 100000)%Z in
  if Qle_bool (10 ^ (n + 1)) q then (n + 1)%Z
  else if Qle_bool (10 ^ n) q then n else (n - 1)%Z.

(** The two decimals of [k] digits around a positive [q], the closer one
    first, the even one first on a tie. *)
Definition digits_of (q : Q) (k : nat) : list Q :=
  let scale := 10 ^ (ilog10 q + 1 - Z.of_nat k) in
  let s := Qfloor (q / scale) in
  let lo := inject_Z s * scale in
  let hi := inject_Z (s + 1) * scale in
  match Qcompare (q - lo) (hi - q) with
  | Lt => [lo; hi]
  | Gt => [hi; lo]
  | Eq => if Z.even s then [lo; hi] else [hi; lo]
  end.

Definition reads_as (q c : Q) : bool := same (round c) (Num q).

(** Seventeen digits always suffice; [q] itself stands for a longer
    decimal, which no binary64 number needs. *)
Definition shortest (q : Q) : Q :=
  hd q (filter (reads_as q) (flat_map (digits_of q) (seq 1 17))).

Definition to_decimal (q : Q) : Q :=
  match Qcompare q 0 with
  | Eq => 0
  | Gt => Qred (shortest q)
  | Lt => Qred (- shortest (- q))
  end.

(** What the text of a number is worth: ["NaN"], ["Infinity"],
    ["-Infinity"] or a decimal. *)
Definition printed (n : num) : num :=
  match n with
  | Num q => Num (to_decimal q)
  | Inf s => Inf s
  | NaN => NaN
  end.

(** *** Reading decimal literals *)

Definition is_space (c : ascii) : bool :=
  let n := nat_of_ascii c in
  (Nat.eqb n 32 || Nat.eqb n 9 || Nat.eqb n 10 || Nat.eqb n 11
   || Nat.eqb n 12 || Nat.eqb n 13)%bool.

Definition digit_of (c : ascii) : option Z :=
  let n := nat_of_ascii c in
  if (Nat.leb 48 n && Nat.leb n 57)%bool then Some (Z.of_nat (n - 48)) else None.

Fixpoint skip_spaces (s : string) : string :=
  match s with
  | String c r => if is_space c then skip_spaces r else s
  | EmptyString => s
  end.

(** The longest run of digits at the head of [s]: its value on top of
    [acc], how many digits were read, and what follows. *)
Fixpoint digits (s : string) (acc : Z) (count : nat) : Z * nat * string :=
  match s with
  | String c r =>
      match digit_of c with
      | Some d => digits r (10 * acc + d)%Z (S count)
      | None => (acc, count, s)
      end
  | EmptyString => (acc, count, s)
  end.

(** An optional sign: [true] for a leading minus. *)
Definition sign (s : string) : bool * string :=
  match s with
  | String "-" r => (true, r)
  | String "+" r => (false, r)
  | _ => (false, s)
  end.

Definition pow10 (e : Z) : Q :=
  if (0 <=? e)%Z then inject_Z (10 ^ e) else / inject_Z (10 ^ (- e)).

(** The exponent part [e±ddd], taken only when a digit follows, and what
    comes after it. *)
Definition exponent (s : string) : Z * string :=
  match s with
  | String c r =>
      if (Ascii.eqb c "e" || Ascii.eqb c "E")%bool then
        let '(neg, r1) := sign r in
        let '(e, n, rest) := digits r1 0%Z 0%nat in
        match n with
        | O => (0%Z, s)
        | S _ => (if neg then (- e)%Z else e, rest)
        end
      else (0%Z, s)
  | EmptyString => (0%Z, s)
  end.

(** An unsigned decimal literal at the head of [s]: digits with an
    optional fraction and exponent. Its exact value and what follows. *)
Definition literal (s : string) : option (Q * string) :=
  let '(ip, ni, s2) := digits s 0%Z 0%nat in
  let '(fp, nf, s3) :=
    match s2 with
    | String "." r => digits r 0%Z 0%nat
    | _ => (0%Z, 0%nat, s2)
    end in
  match (ni + nf)%nat with
  | O => None
  | S _ =>
      let m := inject_Z ip + inject_Z fp * pow10 (- Z.of_nat nf) in
      let '(e, rest) := exponent s3 in
      Some (m * pow10 e, rest)
  end.

(** [parseFloat] on a string: leading blanks, a sign, then [Infinity] or
    a decimal literal, rounded to binary64; what follows is ignored and
    a string with neither at its head reads as [NaN]. *)
Definition parseFloat_string (s : string) : num :=
  let '(neg, s1) := sign (skip_spaces s) in
  if String.prefix "Infinity" s1 then Inf neg
  else
    match literal s1 with
    | Some (v, _) => round (if neg then - v else v)
    | None => NaN
    end.

(** [parseFloat(v)]: the argument is first turned into a string, so a
    number is printed and read back, and the other non-strings read as
    [NaN]. *)
Definition parseFloat (v : value) : num :=
  match v with
  | Number (Num q) => round (to_decimal q)
  | Number n => n
  | Str s => parseFloat_string s
  | Undefined | Null | Boolean _ => NaN
  end.

(** [parseInt(s, 10)] followed by [Number.isInteger]: the integer read is
    rounded to binary64, and [None] stands for the [NaN] or the infinity
    that fails the test. *)
Definition parseInt (s : string) : option Z :=
  let '(neg, s1) := sign (skip_spaces s) in
  let '(n, k, _) := digits s1 0%Z 0%nat in
  match k with
  | O => None
  | S _ =>
      match round (inject_Z (if neg then (- n)%Z else n)) with
      | Num q => Some (Qfloor q)
      | _ => None
      end
  end.

End JS.

Import JS.

(** ** The relational store *)

Module Sql.

(** A statement either returns or raises, which the handlers catch. *)
Inductive result (A : Type) : Type :=
| Ok (a : A)
| Throw.
Arguments Ok {A} a.
Arguments Throw {A}.

Definition bind {A B : Type} (r : result A) (k : A -> result B) : result B :=
  match r with Ok a => k a | Throw => Throw end.

Notation "x <- r ;; k" := (bind r (fun x => k))
  (at level 61, r at next level, right associativity).

(** A text sent where the server expects a timestamp. The repository has
    no code that reads a date: the text travels to the server, whose
    datetime input takes it for a timestamp or raises. What the server
    makes of the text comes with it. *)
Record timestamp_text : Type := mkTimestampText {
  sent : string;
  read : result string
}.

(** The values the driver sends for the placeholders of a statement. *)
Inductive param : Type :=
| PNull
| PNum (n : num)
| PInt (z : Z)
| PText (s : string)
| PTimestamp (t : timestamp_text).

(** A statement that mentions the placeholders [used] is prepared with as
    many parameters as its highest placeholder; preparing fails when one
    of them is never mentioned (its type cannot be determined) and binding
    fails unless exactly that many values are supplied. *)
Definition highest (used : list nat) : nat := fold_right Nat.max 0%nat used.

Definition prepared (used : list nat) (args : list param) : bool :=
  (Nat.eqb (List.length args) (highest used)
   && forallb (fun k => existsb (Nat.eqb k) used) (seq 1 (highest used)))%bool.

Definition prepare (used : list nat) (args : list param) : result unit :=
  if prepared used args then Ok tt else Throw.

(** The value bound to [$k]. *)
Definition arg (k : nat) (args : list param) : param :=
  nth (pred k) args PNull.

(** The range of the type [integer], which the keys of both tables have
    (the schema is not part of the repository; a [SERIAL] key is an
    [integer]). *)
Definition int4 (z : Z) : bool := ((-2147483648 <=? z) && (z <=? 2147483647))%Z.

(** Text sent for an integer column: blanks, a sign, decimal digits,
    blanks, and a value within the range of the type. *)
Definition integer_of_text (s : string) : result Z :=
  let '(neg, s1) := sign (skip_spaces s) in
  let '(n, k, rest) := digits s1 0%Z 0%nat in
  let z := if neg then (- n)%Z else n in
  match k, skip_spaces rest with
  | S _, EmptyString => if int4 z then Ok z else Throw
  | _, _ => Throw
  end.

Definition is_integer (q : Q) : bool := (Z.eqb (Qnum q mod Zpos (Qden q)) 0)%Z.

(** Coercion of a bound value to the type of the column it meets; [None]
    is SQL [NULL]. A number reaches the server as its text: an integer
    within the range of the type is taken, anything else raises. *)
Definition to_integer (p : param) : result (option Z) :=
  match p with
  | PNull => Ok None
  | PInt z => if int4 z then Ok (Some z) else Throw
  | PNum (Num q) =>
      if (is_integer q && int4 (Qfloor q))%bool then Ok (Some (Qfloor q)) else Throw
  | PNum _ => Throw
  | PText s => z <- integer_of_text s ;; Ok (Some z)
  | PTimestamp _ => Throw
  end.

(** Text sent for a [numeric] column: a signed decimal literal between
    blanks, taken exactly. The router sends numbers only. *)
Definition numeric_of_text (s : string) : result num :=
  let '(neg, s1) := sign (skip_spaces s) in
  match literal s1 with
  | Some (v, rest) =>
      match skip_spaces rest with
      | EmptyString => Ok (Num (Qred (if neg then - v else v)))
      | _ => Throw
      end
  | None => Throw
  end.

(** A number reaches a [numeric] column as the decimal it prints as. *)
Definition to_numeric (p : param) : result (option num) :=
  match p with
  | PNull => Ok None
  | PNum n => Ok (Some (printed n))
  | PInt z => Ok (Some (printed (Num (inject_Z z))))
  | PText s => n <- numeric_of_text s ;; Ok (Some n)
  | PTimestamp _ => Throw
  end.

(** The router only ever binds strings and [null] to text columns. *)
Definition to_text (p : param) : result (option string) :=
  match p with
  | PNull => Ok None
  | PText s => Ok (Some s)
  | PNum _ | PInt _ | PTimestamp _ => Throw
  end.

(** A parameter the statement types as a timestamp. *)
Definition to_timestamptz (p : param) : result (option string) :=
  match p with
  | PNull => Ok None
  | PTimestamp t => s <- read t ;; Ok (Some s)
  | PNum _ | PInt _ | PText _ => Throw
  end.

Definition not_null {A : Type} (o : option A) : result A :=
  match o with Some a => Ok a | None => Throw end.

(** [numeric] arithmetic is exact. [NaN] is a value of the type, equal to
    itself and greater than every other value, the infinities included. *)
Definition numeric_le (a b : num) : bool :=
  match a, b with
  | _, NaN => true
  | NaN, _ => false
  | Num x, Num y => Qle_bool x y
  | Inf s, Inf s' => (s || negb s')%bool
  | Inf s, Num _ => s
  | Num _, Inf s => negb s
  end.

Definition numeric_add (a b : num) : num :=
  match a, b with
  | Num x, Num y => Num (Qred (x + y))
  | NaN, _ | _, NaN => NaN
  | Inf s, Inf s' => if Bool.eqb s s' then Inf s else NaN
  | Inf s, Num _ => Inf s
  | Num _, Inf s => Inf s
  end.

Definition GREATEST (a b : num) : num := if numeric_le a b then b else a.
Definition LEAST (a b : num) : num := if numeric_le a b then a else b.

Definition COALESCE {A : Type} (o : option A) (d : A) : A :=
  match o with Some a => a | None => d end.

(** *** Tables *)

Record vendor : Type := mkVendor {
  vendor_id : Z;
  vendor_name : option string;
  vendor_contact_number : option string;
  vendor_address : option string;
  vendor_bill : option string;
  total_amount : num;
  pending_amount : option num
}.

(** The [vendor_id] column of [transactions] is [tx_vendor_id] here. *)
Record transaction : Type := mkTransaction {
  transaction_id : Z;
  tx_vendor_id : Z;
  transaction_date : string;
  amount : num;
  note : option string;
  status : option string
}.

Record db : Type := mkDb {
  vendors : list vendor;
  transactions : list transaction;
  next_vendor_id : Z;
  next_transaction_id : Z;
  NOW : string
}.

Definition with_vendors (d : db) (vs : list vendor) : db :=
  mkDb vs (transactions d) (next_vendor_id d) (next_transaction_id d) (NOW d).

Definition with_transactions (d : db) (ts : list transaction) : db :=
  mkDb (vendors d) ts (next_vendor_id d) (next_transaction_id d) (NOW d).

(** [column = $k]: never true of [NULL]. *)
Definition id_is (k : option Z) (z : Z) : bool :=
  match k with Some i => Z.eqb z i | None => false end.

Definition set_pending_amount (v : vendor) (p : option num) : vendor :=
  mkVendor (vendor_id v) (vendor_name v) (vendor_contact_number v)
           (vendor_address v) (vendor_bill v) (total_amount v) p.

End Sql.

Import Sql.

(** ** The SQL statements of the router

    One function per statement text; the list given to [prepare] is the
    set of placeholders the text mentions. *)

Module Statements.

(** [INSERT INTO vendors (vendor_name, vendor_contact_number,
    vendor_address, vendor_bill, total_amount, pending_amount)
    VALUES ($1, $2, $3, $4, $5, $6) RETURNING *] *)
Definition INSERT_vendor (args : list param) (d : db)
  : result (list vendor * db) :=
  _ <- prepare [1; 2; 3; 4; 5; 6]%nat args ;;
  name <- to_text (arg 1 args) ;;
  contact <- to_text (arg 2 args) ;;
  address <- to_text (arg 3 args) ;;
  bill <- to_text (arg 4 args) ;;
  total <- (n <- to_numeric (arg 5 args) ;; not_null n) ;;
  pending <- to_numeric (arg 6 args) ;;
  let row := mkVendor (next_vendor_id d) name contact address bill total pending in
  Ok ([row],
      mkDb (vendors d ++ [row]) (transactions d)
           (next_vendor_id d + 1)%Z (next_transaction_id d) (NOW d)).

(** [SELECT transaction_id, vendor_id, amount FROM transactions
    WHERE transaction_id = $1 FOR UPDATE] *)
Definition SELECT_transaction_FOR_UPDATE (args : list param) (d : db)
  : result (list transaction) :=
  _ <- prepare [1]%nat args ;;
  id <- to_integer (arg 1 args) ;;
  Ok (filter (fun t => id_is id (transaction_id t)) (transactions d)).

(** [SELECT vendor_id, total_amount, pending_amount FROM vendors
    WHERE vendor_id = $1 FOR UPDATE], and [SELECT * FROM vendors
    WHERE vendor_id = $1]. *)
Definition SELECT_vendor (args : list param) (d : db) : result (list vendor) :=
  _ <- prepare [1]%nat args ;;
  id <- to_integer (arg 1 args) ;;
  Ok (filter (fun v => id_is id (vendor_id v)) (vendors d)).

(** [UPDATE transactions SET amount = $1,
    transaction_date = COALESCE($2, transaction_date), note = $3
    WHERE transaction_id = $5 RETURNING *] *)
Definition SET_transaction (amt : num) (date nt : option string)
           (t : transaction) : transaction :=
  mkTransaction (transaction_id t) (tx_vendor_id t)
                (COALESCE date (transaction_date t)) amt nt (status t).

Definition UPDATE_transaction (args : list param) (d : db)
  : result (list transaction * db) :=
  _ <- prepare [1; 2; 3; 5]%nat args ;;
  amt <- (n <- to_numeric (arg 1 args) ;; not_null n) ;;
  date <- to_timestamptz (arg 2 args) ;;
  nt <- to_text (arg 3 args) ;;
  id <- to_integer (arg 5 args) ;;
  let set t :=
    if id_is id (transaction_id t) then SET_transaction amt date nt t else t in
  let rows := map set (transactions d) in
  Ok (filter (fun t => id_is id (transaction_id t)) rows,
      with_transactions d rows).

(** [UPDATE vendors SET pending_amount = $1 WHERE vendor_id = $2
    RETURNING vendor_id, vendor_name, ..., total_amount, pending_amount] *)
Definition UPDATE_vendor_pending (args : list param) (d : db)
  : result (list vendor * db) :=
  _ <- prepare [1; 2]%nat args ;;
  pending <- to_numeric (arg 1 args) ;;
  id <- to_integer (arg 2 args) ;;
  let set v :=
    if id_is id (vendor_id v) then set_pending_amount v pending else v in
  let rows := map set (vendors d) in
  Ok (filter (fun v => id_is id (vendor_id v)) rows, with_vendors d rows).

(** [INSERT INTO transactions (vendor_id, transaction_date, amount, note,
    status) VALUES ($1, COALESCE($2, NOW()), $3, $4, $5) RETURNING *].
    Next to [NOW()], [$2] is a timestamp. *)
Definition INSERT_transaction (args : list param) (d : db)
  : result (list transaction * db) :=
  _ <- prepare [1; 2; 3; 4; 5]%nat args ;;
  vid <- (z <- to_integer (arg 1 args) ;; not_null z) ;;
  date <- to_timestamptz (arg 2 args) ;;
  amt <- (n <- to_numeric (arg 3 args) ;; not_null n) ;;
  nt <- to_text (arg 4 args) ;;
  st <- to_text (arg 5 args) ;;
  let row := mkTransaction (next_transaction_id d) vid
                           (COALESCE date (NOW d)) amt nt st in
  Ok ([row],
      mkDb (vendors d) (transactions d ++ [row])
           (next_vendor_id d) (next_transaction_id d + 1)%Z (NOW d)).

(** [INSERT INTO transactions (vendor_id, transaction_date, amount, note,
    status) VALUES ($1, NOW(), $2, $3, $4)] *)
Definition INSERT_payment (args : list param) (d : db) : result db :=
  _ <- prepare [1; 2; 3; 4]%nat args ;;
  vid <- (z <- to_integer (arg 1 args) ;; not_null z) ;;
  amt <- (n <- to_numeric (arg 2 args) ;; not_null n) ;;
  nt <- to_text (arg 3 args) ;;
  st <- to_text (arg 4 args) ;;
  let row := mkTransaction (next_transaction_id d) vid (NOW d) amt nt st in
  Ok (mkDb (vendors d) (transactions d ++ [row])
           (next_vendor_id d) (next_transaction_id d + 1)%Z (NOW d)).

(** [SELECT amount FROM transactions
    WHERE transaction_id = $1 AND vendor_id = $2] *)
Definition SELECT_transaction_amount (args : list param) (d : db)
  : result (list transaction) :=
  _ <- prepare [1; 2]%nat args ;;
  id <- to_integer (arg 1 args) ;;
  vid <- to_integer (arg 2 args) ;;
  Ok (filter (fun t => id_is id (transaction_id t) && id_is vid (tx_vendor_id t))%bool
             (transactions d)).

(** [DELETE FROM transactions WHERE transaction_id = $1] *)
Definition DELETE_transaction (args : list param) (d : db) : result db :=
  _ <- prepare [1]%nat args ;;
  id <- to_integer (arg 1 args) ;;
  Ok (with_transactions d
        (filter (fun t => negb (id_is id (transaction_id t))) (transactions d))).

(** [UPDATE vendors SET pending_amount =
      LEAST(GREATEST(COALESCE(pending_amount, total_amount) + $1, 0),
            total_amount)
    WHERE vendor_id = $2] *)
Definition restored_pending (v : vendor) (amt : num) : num :=
  LEAST (GREATEST (numeric_add (COALESCE (pending_amount v) (total_amount v)) amt)
                  (Num 0))
        (total_amount v).

Definition UPDATE_vendor_restore (args : list param) (d : db) : result db :=
  _ <- prepare [1; 2]%nat args ;;
  amt <- to_numeric (arg 1 args) ;;
  id <- to_integer (arg 2 args) ;;
  let set v :=
    if id_is id (vendor_id v) then
      set_pending_amount v
        (match amt with
         | Some a => Some (restored_pending v a)
         | None => None
         end)
    else v in
  Ok (with_vendors d (map set (vendors d))).

(** [SELECT * FROM vendors]. The statement has no [ORDER BY]: the rows
    come in the order [scan] in which the server finds them. *)
Definition SELECT_vendors (scan : list vendor -> list vendor) (d : db)
  : result (list vendor) :=
  Ok (scan (vendors d)).

(** [UPDATE vendors SET vendor_name=$1, vendor_contact_number=$2,
    vendor_address=$3, vendor_bill=$4, total_amount=$5, pending_amount=$6
    WHERE vendor_id=$7 RETURNING *] *)
Definition UPDATE_vendor (args : list param) (d : db)
  : result (list vendor * db) :=
  _ <- prepare [1; 2; 3; 4; 5; 6; 7]%nat args ;;
  name <- to_text (arg 1 args) ;;
  contact <- to_text (arg 2 args) ;;
  address <- to_text (arg 3 args) ;;
  bill <- to_text (arg 4 args) ;;
  total <- (n <- to_numeric (arg 5 args) ;; not_null n) ;;
  pending <- to_numeric (arg 6 args) ;;
  id <- to_integer (arg 7 args) ;;
  let set v :=
    if id_is id (vendor_id v) then
      mkVendor (vendor_id v) name contact address bill total pending
    else v in
  let rows := map set (vendors d) in
  Ok (filter (fun v => id_is id (vendor_id v)) rows, with_vendors d rows).

End Statements.

Import Statements.

(** ** Requests and responses *)

Module Req.

(** The fields the handlers read from [req.body]. The text fields are
    strings when present; the amounts are kept as raw values, because the
    handlers test and parse them; the date is a text for the server. *)
Record body : Type := mkBody {
  vendor_name : option string;
  vendor_contact_number : option string;
  vendor_address : option string;
  total_amount : value;
  new_paid_amount : value;
  amount : value;
  note : option string;
  transaction_date : option timestamp_text
}.

(** [req.file]: where the upload middleware left the file, and what the
    media store answers when the file is sent to it. *)
Record file : Type := mkFile {
  path : string;
  secure_url : result string
}.

End Req.

Inductive payment_status : Type := Pending | Partial | Paid.

Definition status_text (st : payment_status) : string :=
  match st with
  | Pending => "Pending"
  | Partial => "Partial"
  | Paid => "Paid"
  end.

Inductive json : Type :=
| error (msg : string)
| vendor_added (vendor : option vendor) (status : payment_status)
| transaction_updated (transaction : option transaction) (vendor : option vendor)
                      (status : option payment_status)
| transaction_added (transaction : option transaction) (vendor : option vendor)
                    (status : payment_status) (overpayment : num)
| transaction_deleted
| vendor_list (vendors : list (vendor * payment_status))
| vendor_updated (vendor : option vendor) (paid_amount : num)
                 (status : payment_status).

Record response : Type := mkResponse {
  code : nat;
  payload : json
}.

Definition server_error : response := mkResponse 500 (error "Server error").

(** ** The route handlers *)

Module Router.

(** [s || null] and [s || t] on an optional string. *)
Definition or_null (s : option string) : param :=
  match s with
  | Some t => if truthy_string t then PText t else PNull
  | None => PNull
  end.

(** [transaction_date || null] *)
Definition date_or_null (s : option timestamp_text) : param :=
  match s with
  | Some t => if truthy_string (sent t) then PTimestamp t else PNull
  | None => PNull
  end.

Definition text_param (s : option string) : param :=
  match s with Some t => PText t | None => PNull end.

Definition or_stored (s : option string) (stored : option string) : param :=
  match s with
  | Some t => if truthy_string t then PText t else text_param stored
  | None => text_param stored
  end.

Definition falsy_text (s : option string) : bool :=
  match s with Some t => negb (truthy_string t) | None => true end.

(** [parseFloat] of a [numeric] column: the driver returns the column as
    its text, and [null] for [NULL]. *)
Definition parseFloat_numeric (n : num) : num :=
  match n with
  | Num q => round q
  | Inf s => Inf s
  | NaN => NaN
  end.

Definition parseFloat_column (c : option num) : num :=
  match c with Some n => parseFloat_numeric n | None => NaN end.

(** *** [POST /] — create a vendor (lines 14-76) *)
Definition post_vendor (b : Req.body) (file : option Req.file) (d : db)
  : response * db :=
  if (falsy_text (Req.vendor_name b) || falsy_text (Req.vendor_contact_number b)
      || negb (truthy (Req.total_amount b)))%bool
  then (mkResponse 400 (error "Name, contact, and total amount are required"), d)
  else
    let total := parseFloat (Req.total_amount b) in
    if (isNaN total || lt total (Num 0))%bool
    then (mkResponse 400 (error "Invalid total_amount"), d)
    else
      let uploaded :=
        match file with
        | Some f => url <- Req.secure_url f ;; Ok (PText url)
        | None => Ok PNull
        end in
      let status := Pending in
      let pending_amount := total in
      match
        vendor_bill <- uploaded ;;
        INSERT_vendor [text_param (Req.vendor_name b);
                       text_param (Req.vendor_contact_number b);
                       text_param (Req.vendor_address b);
                       vendor_bill; PNum total; PNum pending_amount] d
      with
      | Ok (rows, d') => (mkResponse 201 (vendor_added (hd_error rows) status), d')
      | Throw => (server_error, d)
      end.

(** *** [PUT /transactions/:transactionId] — edit a payment (lines 79-173) *)

(** Lines 133-135. *)
Definition edited_pending (currentPending oldAmount amt total : num) : num :=
  let newPending := sub (add currentPending oldAmount) amt in
  let newPending := if lt newPending (Num 0) then Num 0 else newPending in
  if gt newPending total then total else newPending.

(** Lines 129-130 and 210-211. *)
Definition current_pending (vendor : vendor) : num :=
  match pending_amount vendor with
  | Some p => parseFloat_numeric p
  | None => parseFloat_numeric (total_amount vendor)
  end.

Definition put_transaction (transactionId_param : string) (b : Req.body) (d : db)
  : response * db :=
  match parseInt transactionId_param with
  | None => (mkResponse 400 (error "Invalid transactionId in URL"), d)
  | Some transactionId =>
      let amt := parseFloat (Req.amount b) in
      if (isNaN amt || le amt (Num 0))%bool
      then (mkResponse 400
              (error "amount is required and must be a positive number"), d)
      else
        (* BEGIN: [d] is what ROLLBACK returns to *)
        match
          txQ <- SELECT_transaction_FOR_UPDATE [PInt transactionId] d ;;
          match txQ with
          | [] => Ok (mkResponse 404 (error "Transaction not found"), d)
          | transaction :: _ =>
              let vendorId := tx_vendor_id transaction in
              let oldAmount := parseFloat_numeric (amount transaction) in
              vendorQ <- SELECT_vendor [PInt vendorId] d ;;
              match vendorQ with
              | [] => Ok (mkResponse 404 (error "Vendor not found"), d)
              | vendor :: _ =>
                  let total := parseFloat_numeric (total_amount vendor) in
                  let currentPending := current_pending vendor in
                  let newPending :=
                    edited_pending currentPending oldAmount amt total in
                  let status : option payment_status := None in
                  txUpdate <- UPDATE_transaction
                                [PNum amt; date_or_null (Req.transaction_date b);
                                 or_null (Req.note b); PInt transactionId] d ;;
                  vendorUpdate <- UPDATE_vendor_pending
                                    [PNum newPending; PInt vendorId]
                                    (snd txUpdate) ;;
                  (* COMMIT *)
                  Ok (mkResponse 200
                        (transaction_updated (hd_error (fst txUpdate))
                           (hd_error (fst vendorUpdate)) status),
                      snd vendorUpdate)
              end
          end
        with
        | Ok r => r
        | Throw => (server_error, d)
        end
  end.

(** *** [POST /:vendorId/transactions] — add a payment (lines 176-259) *)

(** Lines 214-223. *)
Definition paid_pending (currentPending amt total : num) : num * payment_status :=
  let newPending := sub currentPending amt in
  if le newPending (Num 0) then (Num 0, Paid)
  else if lt (abs (sub newPending total)) EPSILON then (newPending, Pending)
  else (newPending, Partial).

(** Line 250. *)
Definition overpaid (amt currentPending : num) : num :=
  if gt amt currentPending then sub amt currentPending else Num 0.

Definition post_transaction (vendorId_param : string) (b : Req.body) (d : db)
  : response * db :=
  match parseInt vendorId_param with
  | None => (mkResponse 400 (error "Invalid vendorId in URL"), d)
  | Some vendorId =>
      let amt := parseFloat (Req.amount b) in
      if (isNaN amt || le amt (Num 0))%bool
      then (mkResponse 400
              (error "amount is required and must be a positive number"), d)
      else
        (* BEGIN *)
        match
          vendorQ <- SELECT_vendor [PInt vendorId] d ;;
          match vendorQ with
          | [] => Ok (mkResponse 404 (error "Vendor not found"), d)
          | vendor :: _ =>
              let total := parseFloat_numeric (total_amount vendor) in
              let currentPending := current_pending vendor in
              let '(newPending, status) := paid_pending currentPending amt total in
              txInsert <- INSERT_transaction
                            [PInt vendorId; date_or_null (Req.transaction_date b);
                             PNum amt; or_null (Req.note b);
                             PText (status_text status)] d ;;
              vendorUpdate <- UPDATE_vendor_pending
                                [PNum newPending; PInt vendorId] (snd txInsert) ;;
              (* COMMIT *)
              Ok (mkResponse 201
                    (transaction_added (hd_error (fst txInsert))
                       (hd_error (fst vendorUpdate)) status
                       (overpaid amt currentPending)),
                  snd vendorUpdate)
          end
        with
        | Ok r => r
        | Throw => (server_error, d)
        end
  end.

(** *** [DELETE /:vendorId/transactions/:transactionId] — remove a payment
    (lines 261-305). No [BEGIN]: each statement commits on its own. *)
Definition delete_transaction (vendorId_param transactionId_param : string) (d : db)
  : response * db :=
  match parseInt vendorId_param, parseInt transactionId_param with
  | Some vendorId, Some transactionId =>
      match SELECT_transaction_amount [PInt transactionId; PInt vendorId] d with
      | Throw => (server_error, d)
      | Ok [] => (mkResponse 404 (error "Transaction not found"), d)
      | Ok (row :: _) =>
          let txAmount := parseFloat_numeric (amount row) in
          match DELETE_transaction [PInt transactionId] d with
          | Throw => (server_error, d)
          | Ok d1 =>
              match UPDATE_vendor_restore [PNum txAmount; PInt vendorId] d1 with
              | Throw => (server_error, d1)
              | Ok d2 => (mkResponse 200 transaction_deleted, d2)
              end
          end
      end
  | _, _ => (mkResponse 400 (error "Invalid vendorId or transactionId"), d)
  end.

(** *** [GET /] — list the vendors (lines 308-331) *)

(** Lines 315-321. *)
Definition listed_status (pendingAmount totalAmount : num) : payment_status :=
  if strict_eq pendingAmount (Num 0) then Paid
  else if lt pendingAmount totalAmount then Partial
  else Pending.

Definition get_vendors (scan : list vendor -> list vendor) (d : db)
  : response * db :=
  match SELECT_vendors scan d with
  | Ok rows =>
      (mkResponse 200
         (vendor_list
            (map (fun vendor =>
                    let totalAmount := parseFloat_numeric (total_amount vendor) in
                    let pendingAmount := parseFloat_column (pending_amount vendor) in
                    (vendor, listed_status pendingAmount totalAmount))
                 rows)), d)
  | Throw => (server_error, d)
  end.

(** *** [PUT /:id] — update a vendor (lines 376-442) *)

(** Lines 398-408: the total, the paid amount of the request, the total
    paid, the status and the new pending amount. *)
Record recomputed : Type := mkRecomputed {
  total : num;
  alreadyPaid : num;
  paid : num;
  totalPaid : num;
  new_status : payment_status;
  new_pending_amount : num
}.

Definition recompute (total_amount new_paid_amount : value) (vendor : vendor)
  : recomputed :=
  let total :=
    if truthy total_amount then parseFloat total_amount
    else parseFloat_numeric (Sql.total_amount vendor) in
  let alreadyPaid := sub total (parseFloat_column (pending_amount vendor)) in
  let paid :=
    let p := parseFloat new_paid_amount in
    if truthy_num p then p else Num 0 in
  let totalPaid := add alreadyPaid paid in
  let status :=
    if strict_eq totalPaid (Num 0) then Pending
    else if ge totalPaid total then Paid
    else Partial in
  let pending_amount := max (sub total totalPaid) (Num 0) in
  mkRecomputed total alreadyPaid paid totalPaid status pending_amount.

(** [new_paid_amount = 0] in the destructuring of line 384. *)
Definition defaulted (new_paid_amount : value) : value :=
  match new_paid_amount with
  | Undefined => Number (Num 0)
  | v => v
  end.

Definition put_vendor (id : string) (b : Req.body) (file : option Req.file) (d : db)
  : response * db :=
  let vendorId := id in
  let new_paid_amount := defaulted (Req.new_paid_amount b) in
  match SELECT_vendor [PText vendorId] d with
  | Throw => (server_error, d)
  | Ok [] => (mkResponse 404 (error "Vendor not found"), d)
  | Ok (vendor :: _) =>
      let updatedVendorBill :=
        match file with
        | Some f => PText (Req.path f)
        | None => text_param (vendor_bill vendor)
        end in
      let r := recompute (Req.total_amount b) new_paid_amount vendor in
      match
        UPDATE_vendor
          [or_stored (Req.vendor_name b) (vendor_name vendor);
           or_stored (Req.vendor_contact_number b) (vendor_contact_number vendor);
           or_stored (Req.vendor_address b) (vendor_address vendor);
           updatedVendorBill; PNum (total r); PNum (new_pending_amount r);
           PText vendorId] d
      with
      | Throw => (server_error, d)
      | Ok (rows, d1) =>
          let inserted :=
            if gt (paid r) (Num 0) then
              INSERT_payment [PText vendorId; PNum (paid r);
                              PText "Payment update";
                              PText (status_text (new_status r))] d1
            else Ok d1 in
          match inserted with
          | Throw => (server_error, d1)
          | Ok d2 =>
              (mkResponse 200
                 (vendor_updated (hd_error rows) (totalPaid r) (new_status r)),
               d2)
          end
      end
  end.

End Router.

Import Router.

(** ** Two add-transaction requests in flight

    Each request runs on a connection of its own and yields at every
    [await]: the statements of the two handlers interleave in any order
    the server allows. The handler opens a transaction and its first
    statement is [SELECT ... FOR UPDATE] on the vendor row (lines
    191-200); what the server does with that clause is its part, not the
    repository's, and is taken here as documented for PostgreSQL: the
    statement waits while another open transaction holds the lock of the
    row, then reads the row as committed; [COMMIT] and [ROLLBACK] give
    the lock back. *)

Module Concurrent.

(** Where a handler stands between two statements. *)
Inductive session : Type :=
| Begun (vendorId : Z) (amt : num) (b : Req.body)
| Locked (vendorId : Z) (amt : num) (b : Req.body) (vendor : vendor)
| Inserted (vendorId : Z) (amt currentPending newPending : num)
           (status : payment_status) (txInsert : list transaction)
| Updated (vendorId : Z) (r : response)
| Answered (r : response).

(** Lines 177-191: up to [BEGIN]. *)
Definition accept (vendorId_param : string) (b : Req.body) : session :=
  match parseInt vendorId_param with
  | None => Answered (mkResponse 400 (error "Invalid vendorId in URL"))
  | Some vendorId =>
      let amt := parseFloat (Req.amount b) in
      if (isNaN amt || le amt (Num 0))%bool
      then Answered (mkResponse 400
                       (error "amount is required and must be a positive number"))
      else Begun vendorId amt b
  end.

(** [ROLLBACK] after the insert: the inserted rows go. *)
Definition without (rows : list transaction) (d : db) : db :=
  with_transactions d
    (filter (fun t => negb (existsb (fun r => Z.eqb (transaction_id r) (transaction_id t))
                                    rows))
            (transactions d)).

(** The next statement of a handler (lines 194-251), on the store as it
    is now. *)
Definition advance (s : session) (d : db) : session * db :=
  match s with
  | Begun vendorId amt b =>
      match SELECT_vendor [PInt vendorId] d with
      | Throw => (Answered server_error, d)
      | Ok [] => (Answered (mkResponse 404 (error "Vendor not found")), d)
      | Ok (vendor :: _) => (Locked vendorId amt b vendor, d)
      end
  | Locked vendorId amt b vendor =>
      let total := parseFloat_numeric (total_amount vendor) in
      let currentPending := current_pending vendor in
      let '(newPending, status) := paid_pending currentPending amt total in
      match INSERT_transaction
              [PInt vendorId; date_or_null (Req.transaction_date b);
               PNum amt; or_null (Req.note b); PText (status_text status)] d with
      | Throw => (Answered server_error, d)
      | Ok (txInsert, d1) =>
          (Inserted vendorId amt currentPending newPending status txInsert, d1)
      end
  | Inserted vendorId amt currentPending newPending status txInsert =>
      match UPDATE_vendor_pending [PNum newPending; PInt vendorId] d with
      | Throw => (Answered server_error, without txInsert d)
      | Ok (vendorUpdate, d2) =>
          (Updated vendorId
             (mkResponse 201
                (transaction_added (hd_error txInsert) (hd_error vendorUpdate)
                   status (overpaid amt currentPending))),
           d2)
      end
  | Updated _ r => (Answered r, d)
  | Answered _ => (s, d)
  end.

(** The vendor row whose lock the next statement of a handler asks for:
    its first statement, the [SELECT ... FOR UPDATE], and no other. *)
Definition asks_for (s : session) : option Z :=
  match s with
  | Begun v _ _ => Some v
  | _ => None
  end.

(** The vendor row whose lock a handler holds: from that statement to
    its [COMMIT] or [ROLLBACK]. *)
Definition locked_row (s : session) : option Z :=
  match s with
  | Locked v _ _ _ | Inserted v _ _ _ _ _ | Updated v _ => Some v
  | Begun _ _ _ | Answered _ => None
  end.

(** The server lets the next statement of a handler through unless it
    asks for a row the other one holds. A handler that has answered has
    no next statement. *)
Definition enabled (me other : session) : bool :=
  match me with
  | Answered _ => false
  | _ =>
      match asks_for me, locked_row other with
      | Some v, Some v' => negb (Z.eqb v v')
      | _, _ => true
      end
  end.

Record world : Type := mkWorld {
  store : db;
  first : session;
  second : session
}.

(** The scheduler gives a turn to the first ([true]) or to the second
    ([false]) handler: it sends its next statement, or goes on waiting. *)
Definition step (who : bool) (w : world) : world :=
  if who then
    if enabled (first w) (second w) then
      let '(s, d) := advance (first w) (store w) in mkWorld d s (second w)
    else w
  else
    if enabled (second w) (first w) then
      let '(s, d) := advance (second w) (store w) in mkWorld d (first w) s
    else w.

Fixpoint run (schedule : list bool) (w : world) : world :=
  match schedule with
  | [] => w
  | who :: rest => run rest (step who w)
  end.

Definition answered (s : session) : bool :=
  match s with Answered _ => true | _ => false end.

Definition finished (w : world) : bool := (answered (first w) && answered (second w))%bool.

(** A handler run on its own to its answer: four statements at most. *)
Definition finish (s : session) (d : db) : session * db :=
  let '(s1, d1) := advance s d in
  let '(s2, d2) := advance s1 d1 in
  let '(s3, d3) := advance s2 d2 in
  advance s3 d3.

End Concurrent.

Import Concurrent.

(** ** Reading and removing one vendor

    The schema is not part of the repository. A foreign key from
    [transactions] to [vendors] would make the [DELETE] below fail, or
    cascade, while the vendor has rows in [transactions]; the store here
    has none, and what is proved of the removal is stated for vendors
    without transactions, where the three readings agree. *)

Module Single.

(** [SELECT * FROM transactions WHERE vendor_id = $1], the rows that
    match in the order [scan] in which the server returns them. *)
Definition SELECT_transactions_of_vendor
           (scan : list transaction -> list transaction)
           (args : list param) (d : db)
  : result (list transaction) :=
  _ <- prepare [1]%nat args ;;
  id <- to_integer (arg 1 args) ;;
  Ok (scan (filter (fun t => id_is id (tx_vendor_id t)) (transactions d))).

(** [DELETE FROM vendors WHERE vendor_id = $1 RETURNING *] *)
Definition DELETE_vendor (args : list param) (d : db)
  : result (list vendor * db) :=
  _ <- prepare [1]%nat args ;;
  id <- to_integer (arg 1 args) ;;
  Ok (filter (fun v => id_is id (vendor_id v)) (vendors d),
      with_vendors d (filter (fun v => negb (id_is id (vendor_id v))) (vendors d))).

(** The bodies of the two handlers: the first answers [{ error }] on
    failure, the second [{ message }]. *)
Inductive vendor_json : Type :=
| error_body (msg : string)
| message_body (msg : string)
| vendor_with_transactions (vendor : vendor) (transactions : list transaction)
| vendor_deleted (vendor : option vendor).

Record vendor_response : Type := mkVendorResponse {
  vendor_code : nat;
  vendor_payload : vendor_json
}.

(** *** [GET /:id] — a vendor and its transactions (lines 337-371) *)
Definition get_vendor (scan : list transaction -> list transaction)
           (id : string) (d : db) : vendor_response * db :=
  match SELECT_vendor [PText id] d with
  | Throw => (mkVendorResponse 500 (error_body "Server error"), d)
  | Ok [] => (mkVendorResponse 404 (error_body "Vendor not found"), d)
  | Ok (vendor :: _) =>
      match SELECT_transactions_of_vendor scan [PText id] d with
      | Throw => (mkVendorResponse 500 (error_body "Server error"), d)
      | Ok rows =>
          (mkVendorResponse 200 (vendor_with_transactions vendor rows), d)
      end
  end.

(** *** [DELETE /:id] — remove a vendor (lines 446-464) *)
Definition delete_vendor (id : string) (d : db) : vendor_response * db :=
  match DELETE_vendor [PText id] d with
  | Throw => (mkVendorResponse 500 (message_body "Server error"), d)
  | Ok ([], d') => (mkVendorResponse 404 (message_body "Vendor not found"), d')
  | Ok (rows, d') =>
      (mkVendorResponse 200 (vendor_deleted (hd_error rows)), d')
  end.

End Single.

Import Single.

(** ** Vocabulary of the specification *)

Definition clamp (x lo hi : Q) : Q := Qmin (Qmax x lo) hi.

(** The same clamp on numbers, with [Math.max] and [Math.min]. *)
Definition clamp_number (x lo hi : num) : num :=
  match max x lo, hi with
  | NaN, _ | _, NaN => NaN
  | m, _ => if le m hi then m else hi
  end.

(** The balance invariant of a vendor row: [0 <= pending <= total]. *)
Definition balanced (v : vendor) : Prop :=
  match pending_amount v, total_amount v with
  | Some (Num p), Num t => 0 <= p /\ p <= t
  | _, _ => False
  end.

(** Status as the specification derives it from a pair of amounts. *)
Definition derived_status (pending total : Q) : payment_status :=
  if Qeq_bool pending 0 then Paid
  else if Qeq_bool pending total then Pending
  else Partial.

(** The status of lines 312-321 for a row of [vendors]. *)
Definition listed (v : vendor) : payment_status :=
  listed_status (parseFloat_column (pending_amount v))
                (parseFloat_numeric (total_amount v)).

Definition find_vendor (id : Z) (d : db) : option vendor :=
  find (fun v => Z.eqb (vendor_id v) id) (vendors d).

Definition find_transaction (id : Z) (d : db) : option transaction :=
  find (fun t => Z.eqb (transaction_id t) id) (transactions d).

(** Reading the answer of a handler. *)
Definition reported_status (r : response) : option payment_status :=
  match payload r with
  | vendor_added _ st | transaction_added _ _ st _ | vendor_updated _ _ st => Some st
  | transaction_updated _ _ st => st
  | _ => None
  end.

Definition reported_overpayment (r : response) : option num :=
  match payload r with
  | transaction_added _ _ _ o => Some o
  | _ => None
  end.

(** What [$k || null] stores in a text column. *)
Definition stored_text (s : option string) : option string :=
  match s with
  | Some t => if truthy_string t then Some t else None
  | None => None
  end.

(** The date [COALESCE($2, NOW())] stores for the date of a request: what
    the server reads in the text, its clock when no text is sent, and an
    error when it cannot read the text. *)
Definition stored_date (date : option timestamp_text) (d : db) : result string :=
  match date with
  | Some t => if truthy_string (sent t) then read t else Ok (NOW d)
  | None => Ok (NOW d)
  end.

(** A column as the handler reads it and the driver sends it back. The
    amounts the router has stored read back as themselves. *)
Definition read_back (n : num) : num := printed (parseFloat_numeric n).

(** What a payment of [a] leaves of [x], on numbers. *)
Definition pay (x a : num) : num := max (sub x a) (Num 0).

(** The row [UPDATE vendors SET pending_amount = $1 WHERE vendor_id = $2]
    writes. *)
Definition pay_row (vid : Z) (newPending : num) (v : vendor) : vendor :=
  if Z.eqb (vendor_id v) vid then set_pending_amount v (Some newPending) else v.

(** The row the delete path writes back for vendor [vid]. *)
Definition restore_row (vid : Z) (txAmount : num) (v : vendor) : vendor :=
  if Z.eqb (vendor_id v) vid
  then set_pending_amount v (Some (restored_pending v txAmount))
  else v.

(** What [s || stored] leaves in a text column. *)
Definition merged_text (s stored : option string) : option string :=
  match s with
  | Some t => if truthy_string t then Some t else stored
  | None => stored
  end.

(** What the update-vendor path writes on a row [x] of vendor [vid], from
    the request, the row [v] it selected and the amounts [r] it
    recomputed; and the payment row it may add. *)
Definition edited_row (vid : Z) (b : Req.body) (file : option Req.file)
           (r : recomputed) (v x : vendor) : vendor :=
  if Z.eqb (vendor_id x) vid then
    mkVendor (vendor_id x)
             (merged_text (Req.vendor_name b) (vendor_name v))
             (merged_text (Req.vendor_contact_number b) (vendor_contact_number v))
             (merged_text (Req.vendor_address b) (vendor_address v))
             (match file with
              | Some f => Some (Req.path f)
              | None => vendor_bill v
              end)
             (printed (total r)) (Some (printed (new_pending_amount r)))
  else x.

Definition payment_update (vid : Z) (r : recomputed) (d : db) : transaction :=
  mkTransaction (next_transaction_id d) vid (NOW d) (printed (paid r))
                (Some "Payment update"%string) (Some (status_text (new_status r))).

(** Serial keys: a transaction id not yet handed out is on no row. *)
Definition fresh_transaction_id (d : db) : Prop :=
  Forall (fun t => transaction_id t <> next_transaction_id d) (transactions d).

Definition inserted_row (r : response) : option transaction :=
  match payload r with
  | transaction_added row _ _ _ => row
  | _ => None
  end.

(** Two rows that agree on what an edit must not touch. *)
Definition same_snapshot (t t' : transaction) : Prop :=
  transaction_id t' = transaction_id t
  /\ tx_vendor_id t' = tx_vendor_id t
  /\ status t' = status t.

(** The recomputation as the specification words it: what was already
    paid is taken against the total the vendor had before the update. *)
Definition recompute_as_specified (total_amount new_paid_amount : value)
           (vendor : vendor) : recomputed :=
  let total :=
    if truthy total_amount then parseFloat total_amount
    else parseFloat_numeric (Sql.total_amount vendor) in
  let alreadyPaid :=
    sub (parseFloat_numeric (Sql.total_amount vendor))
        (parseFloat_column (pending_amount vendor)) in
  let paid :=
    let p := parseFloat new_paid_amount in
    if truthy_num p then p else Num 0 in
  let totalPaid := add alreadyPaid paid in
  let status :=
    if strict_eq totalPaid (Num 0) then Pending
    else if ge totalPaid total then Paid
    else Partial in
  mkRecomputed total alreadyPaid paid totalPaid status
               (max (sub total totalPaid) (Num 0)).

(** What the two checks of lines 24-34 let through. *)
Definition well_formed (b : Req.body) : bool :=
  (negb (falsy_text (Req.vendor_name b))
   && negb (falsy_text (Req.vendor_contact_number b))
   && truthy (Req.total_amount b)
   && negb (isNaN (parseFloat (Req.total_amount b)))
   && negb (lt (parseFloat (Req.total_amount b)) (Num 0)))%bool.

(** The row a handler works on. *)
Definition row_of (s : session) : option Z :=
  match s with
  | Begun v _ _ | Locked v _ _ _ | Inserted v _ _ _ _ _ | Updated v _ => Some v
  | Answered _ => None
  end.

Definition targets (vid : Z) (s : session) : Prop :=
  match row_of s with Some v => v = vid | None => True end.

(** The statements a handler has still to send, its answer included. *)
Definition statements_left (s : session) : nat :=
  match s with
  | Begun _ _ _ => 4
  | Locked _ _ _ _ => 3
  | Inserted _ _ _ _ _ _ => 2
  | Updated _ _ => 1
  | Answered _ => 0
  end.

(** The store once both handlers have answered, the first one run to its
    end before the second, and the other way round. *)
Definition first_then_second (w : world) : db :=
  snd (finish (second w) (snd (finish (first w) (store w)))).

Definition second_then_first (w : world) : db :=
  snd (finish (first w) (snd (finish (second w) (store w)))).

Definition not_begun (s : session) : Prop :=
  match s with Begun _ _ _ => False | _ => True end.

(** A handler that has sent no statement yet, or answered 400 at once. *)
Definition fresh (s : session) : Prop :=
  match s with Begun _ _ _ | Answered _ => True | _ => False end.

(** What every world that two requests against vendor [vid] reach from
    [w0] satisfies: nothing has happened, or one handler went first and,
    as long as it holds the row, the other has not moved. *)
Definition serial (vid : Z) (w0 w : world) : Prop :=
  w = w0
  \/ (second w = second w0 /\ not_begun (first w) /\ targets vid (first w)
      /\ first_then_second w = first_then_second w0)
  \/ (answered (first w) = true /\ first_then_second w = first_then_second w0)
  \/ (first w = first w0 /\ not_begun (second w) /\ targets vid (second w)
      /\ second_then_first w = second_then_first w0)
  \/ (answered (second w) = true /\ second_then_first w = second_then_first w0).

(** The test of lines 88 and 185 on the amount of a request. *)
Definition refused_amount (b : Req.body) : bool :=
  (isNaN (parseFloat (Req.amount b)) || le (parseFloat (Req.amount b)) (Num 0))%bool.

(** What the media store made of the file of a request, if there was one. *)
Definition uploaded (file : option Req.file) : result (option string) :=
  match file with
  | Some f => url <- Req.secure_url f ;; Ok (Some url)
  | None => Ok None
  end.

(** Two vendor rows that differ in their pending amount at most. *)
Definition same_but_pending (x x' : vendor) : Prop :=
  vendor_id x' = vendor_id x
  /\ vendor_name x' = vendor_name x
  /\ vendor_contact_number x' = vendor_contact_number x
  /\ vendor_address x' = vendor_address x
  /\ vendor_bill x' = vendor_bill x
  /\ total_amount x' = total_amount x.

(** The transactions of a vendor, in the order of the table. *)
Definition history (vid : Z) (d : db) : list transaction :=
  filter (fun t => Z.eqb (tx_vendor_id t) vid) (transactions d).

Definition other_vendors (vid : Z) (d : db) : list vendor :=
  filter (fun v => negb (Z.eqb (vendor_id v) vid)) (vendors d).

(** A binary64 number, as the reference implementation of the Standard
    Library has it. *)
Definition of_spec_float (f : spec_float) : num :=
  match f with
  | S754_zero _ => Num 0
  | S754_infinity s => Inf s
  | S754_nan => NaN
  | S754_finite s m e =>
      Num (Qred ((if s then - inject_Z (Zpos m) else inject_Z (Zpos m)) * 2 ^ e))
  end.

(** The quotient of two integers, correctly rounded by the reference
    implementation. *)
Definition reference (n : Z) (d : positive) : spec_float :=
  let z (k : Z) :=
    match k with
    | Z0 => S754_zero false
    | Zpos p => S754_finite false p 0
    | Zneg p => S754_finite true p 0
    end in
  SFdiv 53 1024 (z n) (z (Zpos d)).

(** [round] against the reference implementation, on the quotient of
    [n] by [d]. *)
Definition agrees (n : Z) (d : positive) : bool :=
  same (round (n # d)) (of_spec_float (reference n d)).

(** ** Sample stores and requests *)

Module Sample.

(** [{ amount }] *)
Definition paying (amount : value) : Req.body :=
  Req.mkBody None None None Undefined Undefined amount None None.

(** [{ amount: a }] for a number [a]. *)
Definition payment (a : Q) : Req.body := paying (Number (Num a)).

(** [{ vendor_name: "Acme", vendor_contact_number: "555", total_amount }] *)
Definition new_vendor (total_amount : value) : Req.body :=
  Req.mkBody (Some "Acme"%string) (Some "555"%string) None total_amount
             Undefined Undefined None None.

(** [{ total_amount, new_paid_amount }] *)
Definition vendor_edit (total_amount new_paid_amount : value) : Req.body :=
  Req.mkBody None None None total_amount new_paid_amount Undefined None None.

(** [{ amount: "0.1", note: "cash", transaction_date: "2024-06-01" }],
    with the timestamp the server reads in that date. *)
Definition cash_in_june : Req.body :=
  Req.mkBody None None None Undefined Undefined (Str "0.1") (Some "cash"%string)
             (Some (mkTimestampText "2024-06-01" (Ok "2024-06-01 00:00:00+00"%string))).

Definition empty_store : db := mkDb [] [] 1 1 "2024-05-01".

(** Vendor 1, billed [total], with [pending] still owed. *)
Definition acme (total pending : Q) : vendor :=
  mkVendor 1 (Some "Acme"%string) (Some "555"%string) None None
           (Num total) (Some (Num pending)).

Definition paid_400 : transaction :=
  mkTransaction 1 1 "2024-05-01" (Num 400) None (Some "Partial"%string).

Definition paid_700 : transaction :=
  mkTransaction 2 1 "2024-05-01" (Num 700) None (Some "Paid"%string).

(** The run of the specification after its first payment: total 1000,
    pending 600. *)
Definition owing_600 : db := mkDb [acme 1000 600] [paid_400] 2 2 "2024-05-01".

(** The same run after the second payment of 700. *)
Definition settled : db := mkDb [acme 1000 0] [paid_400; paid_700] 2 3 "2024-05-01".

(** A vendor billed 1 with nothing paid yet. *)
Definition owing_all : db := mkDb [acme 1 1] [] 2 1 "2024-05-01".

(** A vendor billed [total] with nothing paid yet. *)
Definition unpaid (total : Q) : db := mkDb [acme total total] [] 2 1 "2024-05-01".

(** The whole run of the specification, from an empty store: create with
    total 1000, pay 400, pay 700, delete the payment of 700. *)
Definition spec_run : db :=
  let d0 := snd (post_vendor (new_vendor (Str "1000")) None empty_store) in
  let d1 := snd (post_transaction "1" (payment 400) d0) in
  let d2 := snd (post_transaction "1" (payment 700) d1) in
  snd (delete_transaction "1" "2" d2).

End Sample.

(** ** Arithmetic of the comparisons *)

Lemma Qle_bool_false (x y : Q) : Qle_bool x y = false -> y < x.
Proof.
  intros H. apply Qnot_le_lt. intros Hle.
  apply Qle_bool_iff in Hle. congruence.
Qed.

Lemma Qlt_bool_iff (x y : Q) : Qlt_bool x y = true <-> x < y.
Proof.
  unfold Qlt_bool. split.
  - intros H. apply negb_true_iff in H. now apply Qle_bool_false.
  - intros H. apply negb_true_iff.
    destruct (Qle_bool y x) eqn:E; [|reflexivity].
    apply Qle_bool_iff in E. lra.
Qed.

Lemma Qlt_bool_false (x y : Q) : Qlt_bool x y = false -> y <= x.
Proof.
  unfold Qlt_bool. intros H. apply negb_false_iff in H.
  now apply Qle_bool_iff.
Qed.

Lemma Qeq_bool_false (x y : Q) : Qeq_bool x y = false -> ~ x == y.
Proof. intros H. now apply Qeq_bool_neq. Qed.

(** Turn every boolean comparison in sight into the order fact it tests. *)
Ltac order_cases :=
  repeat match goal with
  | |- context [Qlt_bool ?a ?b] =>
      let E := fresh "E" in
      destruct (Qlt_bool a b) eqn:E;
      [apply Qlt_bool_iff in E | apply Qlt_bool_false in E]
  | |- context [Qle_bool ?a ?b] =>
      let E := fresh "E" in
      destruct (Qle_bool a b) eqn:E;
      [apply Qle_bool_iff in E | apply Qle_bool_false in E]
  | |- context [Qeq_bool ?a ?b] =>
      let E := fresh "E" in
      destruct (Qeq_bool a b) eqn:E;
      [apply Qeq_bool_iff in E | apply Qeq_bool_false in E]
  end.

Ltac minmax_cases :=
  unfold clamp, Qmax, Qmin, GenericMinMax.gmax, GenericMinMax.gmin in *;
  repeat match goal with
  | |- context [Qcompare ?a ?b] => destruct (Qcompare_spec a b)
  | H : context [Qcompare ?a ?b] |- _ => destruct (Qcompare_spec a b)
  end.

(** [lia] on exponents and significands, away from the facts about
    rationals. *)
Ltac zlia :=
  repeat match goal with
  | H : Qlt _ _ |- _ => clear H
  | H : Qle _ _ |- _ => clear H
  | H : Qeq _ _ |- _ => clear H
  end; lia.

(** ** Powers of two *)

Lemma pow2_pos (e : Z) : 0 < 2 ^ e.
Proof. apply Qpower_0_lt. reflexivity. Qed.

Lemma pow2_add (a b : Z) : 2 ^ (a + b) == 2 ^ a * 2 ^ b.
Proof. apply Qpower_plus. discriminate. Qed.

Lemma pow2_le (a b : Z) : (a <= b)%Z -> 2 ^ a <= 2 ^ b.
Proof. intros H. apply Qpower_le_compat_l; [exact H | discriminate]. Qed.

Lemma pow2_lt_inv (a b : Z) : 2 ^ a < 2 ^ b -> (a < b)%Z.
Proof. intros H. apply (Qpower_lt_compat_l_inv 2); [exact H | reflexivity]. Qed.

Lemma pow2_Z (n : Z) : (0 <= n)%Z -> inject_Z (2 ^ n) == 2 ^ n.
Proof. intros H. now rewrite Zpower_Qpower. Qed.

Lemma pow2_succ (a : Z) : 2 ^ (a + 1) == 2 * 2 ^ a.
Proof. rewrite pow2_add. change (2 ^ 1) with 2. ring. Qed.

Lemma div_pow2_le (x y : Q) (e : Z) : x <= y -> x / 2 ^ e <= y / 2 ^ e.
Proof.
  intros H. apply Qmult_le_compat_r; [exact H|].
  apply Qlt_le_weak, Qinv_lt_0_compat, pow2_pos.
Qed.

(** ** Rounding to binary64 *)

(** The leading bit of [q] is where [ilog2] says. *)
Lemma ilog2_spec (q : Q) : 0 < q -> 2 ^ ilog2 q <= q /\ q < 2 ^ (ilog2 q + 1).
Proof.
  intros Hq. unfold ilog2.
  destruct q as [n d]. cbn [Qnum Qden].
  assert (Hn : (0 < n)%Z) by (unfold Qlt in Hq; cbn in Hq; lia).
  pose proof (Z.log2_spec n Hn) as [Hn1 Hn2].
  pose proof (Z.log2_spec (Zpos d) eq_refl) as [Hd1 Hd2].
  pose proof (Z.log2_nonneg n) as Hln.
  pose proof (Z.log2_nonneg (Zpos d)) as Hld.
  set (ln := Z.log2 n) in *. set (ld := Z.log2 (Zpos d)) in *.
  assert (Hqd : (n # d) * inject_Z (Zpos d) == inject_Z n).
  { unfold Qeq, Qmult, inject_Z. cbn. lia. }
  rewrite <- Z.add_1_r in Hn2, Hd2.
  rewrite Zle_Qle in Hn1, Hd1. rewrite Zlt_Qlt in Hn2, Hd2.
  rewrite pow2_Z in Hn1, Hn2, Hd1, Hd2 by lia.
  assert (Hup : (n # d) < 2 ^ (ln - ld + 1)).
  { replace (ln - ld + 1)%Z with ((ln + 1) + - ld)%Z by lia.
    rewrite pow2_add, Qpower_opp.
    pose proof (pow2_pos ld) as Hp. pose proof (pow2_pos (ln + 1)) as Hp'.
    apply Qlt_shift_div_l; [exact Hp|].
    apply Qle_lt_trans with ((n # d) * inject_Z (Zpos d)); [|rewrite Hqd; exact Hn2].
    apply Qmult_le_l; [exact Hq | exact Hd1]. }
  assert (Hlo : 2 ^ (ln - ld - 1) <= (n # d)).
  { replace (ln - ld - 1)%Z with (ln + - (ld + 1))%Z by lia.
    rewrite pow2_add, Qpower_opp.
    pose proof (pow2_pos (ld + 1)) as Hp.
    apply Qle_shift_div_r; [exact Hp|].
    apply Qle_trans with ((n # d) * inject_Z (Zpos d)); [rewrite Hqd; exact Hn1|].
    apply Qmult_le_l; [exact Hq | apply Qlt_le_weak; exact Hd2]. }
  destruct (Qle_bool (2 ^ (ln - ld)) (n # d)) eqn:E.
  - apply Qle_bool_iff in E. split; assumption.
  - split; [exact Hlo|].
    replace (ln - ld - 1 + 1)%Z with (ln - ld)%Z by lia.
    apply Qnot_le_lt. intros H. apply Qle_bool_iff in H. congruence.
Qed.

Lemma ilog2_unique (q : Q) (k : Z) : 2 ^ k <= q -> q < 2 ^ (k + 1) -> ilog2 q = k.
Proof.
  intros H1 H2.
  assert (Hq : 0 < q) by (pose proof (pow2_pos k); lra).
  destruct (ilog2_spec q Hq) as [H3 H4].
  assert (ilog2 q < k + 1)%Z by (apply pow2_lt_inv; lra).
  assert (k < ilog2 q + 1)%Z by (apply pow2_lt_inv; lra).
  lia.
Qed.

Lemma ilog2_comp (x y : Q) : 0 < x -> x == y -> ilog2 x = ilog2 y.
Proof.
  intros Hx Hxy. destruct (ilog2_spec x Hx) as [H1 H2].
  symmetry. apply ilog2_unique; rewrite <- Hxy; assumption.
Qed.

Lemma ilog2_mono (x y : Q) : 0 < x -> x <= y -> (ilog2 x <= ilog2 y)%Z.
Proof.
  intros Hx Hxy.
  destruct (ilog2_spec x Hx) as [H1 _].
  destruct (ilog2_spec y) as [_ H2]; [lra|].
  assert (ilog2 x < ilog2 y + 1)%Z by (apply pow2_lt_inv; lra).
  lia.
Qed.

Lemma rne_bounds (x : Q) : (Qfloor x <= rne x <= Qfloor x + 1)%Z.
Proof.
  unfold rne. destruct (Qcompare _ _); [destruct (Z.even _)| |]; lia.
Qed.

Lemma rne_comp (x y : Q) : x == y -> rne x = rne y.
Proof.
  intros H. unfold rne. rewrite (Qfloor_comp x y H).
  assert (E : x - inject_Z (Qfloor y) == y - inject_Z (Qfloor y))
    by (rewrite H; reflexivity).
  rewrite E. reflexivity.
Qed.

Lemma rne_Z (z : Z) : rne (inject_Z z) = z.
Proof.
  unfold rne. rewrite Qfloor_Z.
  destruct (Qcompare_spec (inject_Z z - inject_Z z) (1 # 2)) as [H|H|H];
    [exfalso; lra | reflexivity | exfalso; lra].
Qed.

Lemma rne_mono (x y : Q) : x <= y -> (rne x <= rne y)%Z.
Proof.
  intros H. pose proof (Qfloor_resp_le x y H) as Hf.
  pose proof (rne_bounds x) as Bx. pose proof (rne_bounds y) as By.
  destruct (Z.eq_dec (Qfloor x) (Qfloor y)) as [E|E]; [|lia].
  unfold rne in *. rewrite <- E in *. clear By Bx Hf E.
  destruct (Qcompare_spec (x - inject_Z (Qfloor x)) (1 # 2)),
           (Qcompare_spec (y - inject_Z (Qfloor x)) (1 # 2));
    try destruct (Z.even (Qfloor x)); try lia; exfalso; lra.
Qed.

Lemma ulp_exponent_min (q : Q) : (-1074 <= ulp_exponent q)%Z.
Proof. unfold ulp_exponent. lia. Qed.

Lemma ulp_exponent_comp (x y : Q) : 0 < x -> x == y -> ulp_exponent x = ulp_exponent y.
Proof. intros Hx H. unfold ulp_exponent. now rewrite (ilog2_comp x y Hx H). Qed.

Lemma ulp_exponent_mono (x y : Q) :
  0 < x -> x <= y -> (ulp_exponent x <= ulp_exponent y)%Z.
Proof.
  intros Hx H. unfold ulp_exponent. pose proof (ilog2_mono x y Hx H). zlia.
Qed.

(** The significand: at most 53 bits, and 53 bits exactly above the
    subnormal range. *)
Lemma significand_bounds (q : Q) :
  0 < q ->
  (0 <= rne (q / 2 ^ ulp_exponent q) <= 2 ^ 53)%Z
  /\ ((rne (q / 2 ^ ulp_exponent q) < 2 ^ 52)%Z -> ulp_exponent q = (-1074)%Z).
Proof.
  intros Hq. destruct (ilog2_spec q Hq) as [H1 H2].
  pose proof (pow2_pos (ulp_exponent q)) as Hp.
  assert (H0 : 0 <= q / 2 ^ ulp_exponent q).
  { apply Qle_shift_div_l; [exact Hp | lra]. }
  assert (Hup : q / 2 ^ ulp_exponent q <= inject_Z (2 ^ 53)).
  { rewrite pow2_Z by zlia. apply Qle_shift_div_r; [exact Hp|].
    rewrite <- pow2_add. apply Qlt_le_weak, (Qlt_le_trans _ _ _ H2).
    apply pow2_le. unfold ulp_exponent. zlia. }
  apply rne_mono in H0, Hup. rewrite rne_Z in Hup. change (rne 0) with 0%Z in H0.
  split; [zlia|]. intros Hsub.
  destruct (Z.eq_dec (ulp_exponent q) (-1074)) as [E|E]; [exact E | exfalso].
  assert (He : ulp_exponent q = (ilog2 q - 52)%Z) by (unfold ulp_exponent in *; zlia).
  assert (Hlo : inject_Z (2 ^ 52) <= q / 2 ^ ulp_exponent q).
  { rewrite pow2_Z by zlia. apply Qle_shift_div_l; [exact Hp|].
    rewrite <- pow2_add. apply Qle_trans with (2 ^ ilog2 q); [|exact H1].
    apply pow2_le. zlia. }
  apply rne_mono in Hlo. rewrite rne_Z in Hlo. zlia.
Qed.

Lemma nearest_nonneg (q : Q) : 0 < q -> 0 <= nearest q.
Proof.
  intros Hq. unfold nearest. destruct (significand_bounds q Hq) as [[H _] _].
  pose proof (pow2_pos (ulp_exponent q)).
  apply Qmult_le_0_compat; [|lra].
  rewrite Zle_Qle in H. exact H.
Qed.

Lemma nearest_comp (x y : Q) : 0 < x -> x == y -> nearest x == nearest y.
Proof.
  intros Hx H. unfold nearest. rewrite <- (ulp_exponent_comp x y Hx H).
  rewrite (rne_comp (x / 2 ^ ulp_exponent x) (y / 2 ^ ulp_exponent x));
    [reflexivity | unfold Qdiv; apply Qmult_comp; [exact H | reflexivity]].
Qed.

(** Rounding keeps the order. *)
Lemma nearest_mono (x y : Q) : 0 < x -> x <= y -> nearest x <= nearest y.
Proof.
  intros Hx H. assert (Hy : 0 < y) by lra.
  pose proof (ulp_exponent_mono x y Hx H) as He.
  destruct (significand_bounds x Hx) as [[_ Hmx] _].
  destruct (significand_bounds y Hy) as [[Hmy0 _] Hmy].
  unfold nearest in *.
  set (ex := ulp_exponent x) in *. set (ey := ulp_exponent y) in *.
  destruct (Z.eq_dec ex ey) as [E|E].
  - rewrite <- E in *. pose proof (pow2_pos ex).
    apply Qmult_le_compat_r; [|lra].
    rewrite <- Zle_Qle. apply rne_mono. now apply div_pow2_le.
  - assert (Hn : (2 ^ 52 <= rne (y / 2 ^ ey))%Z).
    { destruct (Z.lt_ge_cases (rne (y / 2 ^ ey)) (2 ^ 52)) as [Hlt|Hge]; [|exact Hge].
      pose proof (Hmy Hlt). pose proof (ulp_exponent_min x). fold ex in H1. zlia. }
    rewrite Zle_Qle in Hmx, Hn. rewrite pow2_Z in Hmx, Hn by zlia.
    pose proof (pow2_pos ex). pose proof (pow2_pos ey).
    apply Qle_trans with (2 ^ 53 * 2 ^ ex).
    { apply Qmult_le_compat_r; [exact Hmx | lra]. }
    apply Qle_trans with (2 ^ 52 * 2 ^ ey).
    { rewrite <- !pow2_add. apply pow2_le. zlia. }
    apply Qmult_le_compat_r; [exact Hn | lra].
Qed.

(** A number of the format is its own nearest number. *)
Lemma nearest_fix (q : Q) : 0 < q -> 0 < nearest q -> nearest (nearest q) == nearest q.
Proof.
  intros Hq Hv. destruct (significand_bounds q Hq) as [[Hm0 Hm] Hsub].
  pose proof (ulp_exponent_min q) as Hmin.
  unfold nearest at 2 3. unfold nearest in Hv.
  set (e := ulp_exponent q) in *. set (m := rne (q / 2 ^ e)) in *.
  pose proof (pow2_pos e) as Hp.
  assert (Hmpos : (0 < m)%Z).
  { destruct (Z.eq_dec m 0) as [E|E]; [|zlia].
    rewrite E in Hv. change (inject_Z 0) with 0 in Hv. lra. }
  pose proof (Z.log2_spec m Hmpos) as [Hk1 Hk2].
  pose proof (Z.log2_nonneg m) as Hk0.
  set (k := Z.log2 m) in *.
  assert (Hk53 : (k <= 53)%Z).
  { destruct (Z.le_gt_cases k 53) as [?|Hgt]; [assumption|].
    assert (2 ^ 54 <= 2 ^ k)%Z by (apply Z.pow_le_mono_r; zlia). zlia. }
  assert (Hlog : ilog2 (inject_Z m * 2 ^ e) = (k + e)%Z).
  { apply ilog2_unique.
    - rewrite pow2_add. apply Qmult_le_compat_r; [|lra].
      rewrite <- pow2_Z by zlia. rewrite <- Zle_Qle. exact Hk1.
    - replace (k + e + 1)%Z with (Z.succ k + e)%Z by zlia.
      rewrite pow2_add. apply Qmult_lt_compat_r; [exact Hp|].
      rewrite <- pow2_Z by zlia. rewrite <- Zlt_Qlt. exact Hk2. }
  unfold nearest, ulp_exponent. rewrite Hlog.
  destruct (Z.eq_dec k 53) as [E53|E53].
  - assert (Em : m = (2 ^ 53)%Z) by (rewrite E53 in Hk1; zlia).
    replace (Z.max (k + e - 52) (-1074)) with (e + 1)%Z by zlia.
    rewrite Em.
    rewrite (rne_comp (inject_Z (2 ^ 53) * 2 ^ e / 2 ^ (e + 1)) (inject_Z (2 ^ 52))).
    + rewrite rne_Z, pow2_succ.
      change (inject_Z (2 ^ 53)) with (2 * inject_Z (2 ^ 52)). ring.
    + rewrite pow2_succ. change (inject_Z (2 ^ 53)) with (2 * inject_Z (2 ^ 52)).
      field. lra.
  - assert (Ee : Z.max (k + e - 52) (-1074) = e).
    { destruct (Z.eq_dec k 52) as [E52|E52]; [zlia|].
      assert (Hlt : (m < 2 ^ 52)%Z).
      { assert (2 ^ Z.succ k <= 2 ^ 52)%Z by (apply Z.pow_le_mono_r; zlia). zlia. }
      rewrite (Hsub Hlt). zlia. }
    rewrite Ee.
    rewrite (rne_comp (inject_Z m * 2 ^ e / 2 ^ e) (inject_Z m)).
    + rewrite rne_Z. reflexivity.
    + field. lra.
Qed.

(** *** Rounded numbers *)

Lemma Num_inj (x y : Q) : Num x = Num y -> x = y.
Proof. congruence. Qed.

Lemma Qred_fix (q : Q) : Qred (Qred q) = Qred q.
Proof. apply Qred_complete, Qred_correct. Qed.

Lemma Qopp_opp (q : Q) : - - q = q.
Proof. destruct q as [n d]. unfold Qopp. cbn. now rewrite Z.opp_involutive. Qed.

Lemma Qcompare_Gt (x y : Q) : y < x -> Qcompare x y = Gt.
Proof. intros H. destruct (Qcompare_spec x y); [lra | lra | reflexivity]. Qed.

Lemma Qcompare_Lt (x y : Q) : x < y -> Qcompare x y = Lt.
Proof. intros H. destruct (Qcompare_spec x y); [lra | reflexivity | lra]. Qed.

Lemma Qcompare_Eq (x y : Q) : x == y -> Qcompare x y = Eq.
Proof. intros H. destruct (Qcompare_spec x y); [reflexivity | lra | lra]. Qed.

Lemma Qle_bool_comp (x y x' y' : Q) :
  x == x' -> y == y' -> Qle_bool x y = Qle_bool x' y'.
Proof.
  intros Hx Hy. destruct (Qle_bool x' y') eqn:E.
  - apply Qle_bool_iff. apply Qle_bool_iff in E. lra.
  - destruct (Qle_bool x y) eqn:E'; [|reflexivity].
    apply Qle_bool_iff in E'. apply Qle_bool_false in E. lra.
Qed.

(** The three shapes of a rounded number, by the sign of the exact one. *)
Lemma round_pos (q : Q) :
  0 < q ->
  round q = if Qle_bool (2 ^ 1024) (nearest q) then Inf false
            else Num (Qred (nearest q)).
Proof. intros H. unfold round. now rewrite (Qcompare_Gt q 0 H). Qed.

Lemma round_neg (q : Q) :
  q < 0 ->
  round q = if Qle_bool (2 ^ 1024) (nearest (- q)) then Inf true
            else Num (Qred (- nearest (- q))).
Proof. intros H. unfold round. now rewrite (Qcompare_Lt q 0 H). Qed.

Lemma round_zero (q : Q) : q == 0 -> round q = Num 0.
Proof. intros H. unfold round. now rewrite (Qcompare_Eq q 0 H). Qed.

Lemma round_comp (x y : Q) : x == y -> round x = round y.
Proof.
  intros H. destruct (Qcompare_spec x 0) as [E|E|E].
  - rewrite (round_zero x E), (round_zero y); [reflexivity | lra].
  - rewrite (round_neg x E), (round_neg y) by lra.
    assert (Hn : nearest (- x) == nearest (- y)) by (apply nearest_comp; lra).
    rewrite (Qle_bool_comp _ (nearest (- x)) _ (nearest (- y)) (Qeq_refl _) Hn).
    destruct (Qle_bool _ _); [reflexivity|].
    f_equal. apply Qred_complete. lra.
  - rewrite (round_pos x E), (round_pos y) by lra.
    assert (Hn : nearest x == nearest y) by (apply nearest_comp; lra).
    rewrite (Qle_bool_comp _ (nearest x) _ (nearest y) (Qeq_refl _) Hn).
    destruct (Qle_bool _ _); [reflexivity|].
    f_equal. now apply Qred_complete.
Qed.

Lemma round_not_NaN (q : Q) : round q <> NaN.
Proof.
  unfold round. destruct (Qcompare q 0); [discriminate | |];
    destruct (Qle_bool _ _); discriminate.
Qed.

(** A rounded number is a fraction in lowest terms. *)
Lemma round_red (x q : Q) : round x = Num q -> Qred q = q.
Proof.
  intros H. destruct (Qcompare_spec x 0) as [E|E|E].
  - rewrite (round_zero x E) in H. apply Num_inj in H. now rewrite <- H.
  - rewrite (round_neg x E) in H. destruct (Qle_bool _ _); [discriminate|].
    apply Num_inj in H. rewrite <- H. apply Qred_fix.
  - rewrite (round_pos x E) in H. destruct (Qle_bool _ _); [discriminate|].
    apply Num_inj in H. rewrite <- H. apply Qred_fix.
Qed.

Lemma red_eq (x y : Q) : Qred x = x -> Qred y = y -> x == y -> x = y.
Proof. intros Hx Hy H. rewrite <- Hx, <- Hy. now apply Qred_complete. Qed.

(** Rounding keeps the sign of the exact result. *)
Lemma round_sign (x q : Q) :
  round x = Num q -> (0 < x -> 0 <= q) /\ (x < 0 -> q <= 0) /\ (x == 0 -> q = 0).
Proof.
  intros H. repeat split; intros Hx.
  - rewrite (round_pos x Hx) in H. destruct (Qle_bool _ _); [discriminate|].
    apply Num_inj in H. rewrite <- H, Qred_correct. now apply nearest_nonneg.
  - rewrite (round_neg x Hx) in H. destruct (Qle_bool _ _); [discriminate|].
    apply Num_inj in H. rewrite <- H, Qred_correct.
    pose proof (nearest_nonneg (- x)). lra.
  - rewrite (round_zero x Hx) in H. apply Num_inj in H. now rewrite <- H.
Qed.

(** Rounding keeps the order: the rounded results of [x <= y] compare
    the same way, infinities included. *)
Lemma round_mono (x y : Q) : x <= y -> le (round x) (round y) = true.
Proof.
  intros H.
  destruct (Qcompare_spec x 0) as [Ex|Ex|Ex].
  - rewrite (round_zero x Ex).
    destruct (Qcompare_spec y 0) as [Ey|Ey|Ey]; [|lra|].
    + now rewrite (round_zero y Ey).
    + rewrite (round_pos y Ey). destruct (Qle_bool _ _); [reflexivity|].
      cbn [le]. apply Qle_bool_iff. rewrite Qred_correct. now apply nearest_nonneg.
  - rewrite (round_neg x Ex).
    pose proof (nearest_nonneg (- x)) as Hnx.
    destruct (Qcompare_spec y 0) as [Ey|Ey|Ey].
    + rewrite (round_zero y Ey). destruct (Qle_bool _ _); [reflexivity|].
      cbn [le]. apply Qle_bool_iff. rewrite Qred_correct. lra.
    + rewrite (round_neg y Ey).
      assert (Hm : nearest (- y) <= nearest (- x)) by (apply nearest_mono; lra).
      destruct (Qle_bool (2 ^ 1024) (nearest (- x))) eqn:Bx;
        destruct (Qle_bool (2 ^ 1024) (nearest (- y))) eqn:By; try reflexivity.
      * apply Qle_bool_iff in By. apply Qle_bool_false in Bx. lra.
      * cbn [le]. apply Qle_bool_iff. rewrite !Qred_correct. lra.
    + rewrite (round_pos y Ey). pose proof (nearest_nonneg y Ey).
      destruct (Qle_bool (2 ^ 1024) (nearest (- x)));
        destruct (Qle_bool (2 ^ 1024) (nearest y)); try reflexivity.
      cbn [le]. apply Qle_bool_iff. rewrite !Qred_correct. lra.
  - assert (Ey : 0 < y) by lra.
    rewrite (round_pos x Ex), (round_pos y Ey).
    assert (Hm : nearest x <= nearest y) by (apply nearest_mono; lra).
    destruct (Qle_bool (2 ^ 1024) (nearest x)) eqn:Bx;
      destruct (Qle_bool (2 ^ 1024) (nearest y)) eqn:By; try reflexivity.
    + apply Qle_bool_iff in Bx. apply Qle_bool_false in By. lra.
    + cbn [le]. apply Qle_bool_iff. rewrite !Qred_correct. lra.
Qed.

(** A binary64 number rounds to itself. *)
Lemma round_fix (x q : Q) : round x = Num q -> round q = Num q.
Proof.
  intros H. pose proof (round_red x q H) as Hred.
  destruct (Qcompare_spec x 0) as [Ex|Ex|Ex].
  - rewrite (round_zero x Ex) in H. apply Num_inj in H. now rewrite <- H.
  - rewrite (round_neg x Ex) in H.
    destruct (Qle_bool (2 ^ 1024) (nearest (- x))) eqn:B; [discriminate|].
    apply Num_inj in H. rename H into Hq. apply Qle_bool_false in B.
    assert (Hx : 0 < - x) by lra. pose proof (nearest_nonneg (- x) Hx) as Hn.
    assert (Hv : q == - nearest (- x)) by (rewrite <- Hq; apply Qred_correct).
    destruct (Qeq_dec (nearest (- x)) 0) as [Z0|Z0].
    + rewrite (round_zero q) by lra. f_equal.
      apply red_eq; [reflexivity | exact Hred | lra].
    + assert (Hpos : 0 < nearest (- x)) by lra.
      rewrite (round_neg q) by lra.
      assert (Hfix : nearest (- q) == nearest (- x)).
      { rewrite (nearest_comp (- q) (nearest (- x))) by lra.
        now apply nearest_fix. }
      rewrite (Qle_bool_comp _ _ _ _ (Qeq_refl (2 ^ 1024)) Hfix).
      destruct (Qle_bool (2 ^ 1024) (nearest (- x))) eqn:B';
        [apply Qle_bool_iff in B'; lra|].
      f_equal. rewrite <- Hq at 2. apply Qred_complete. lra.
  - rewrite (round_pos x Ex) in H.
    destruct (Qle_bool (2 ^ 1024) (nearest x)) eqn:B; [discriminate|].
    apply Num_inj in H. rename H into Hq. apply Qle_bool_false in B.
    pose proof (nearest_nonneg x Ex) as Hn.
    assert (Hv : q == nearest x) by (rewrite <- Hq; apply Qred_correct).
    destruct (Qeq_dec (nearest x) 0) as [Z0|Z0].
    + rewrite (round_zero q) by lra. f_equal.
      apply red_eq; [reflexivity | exact Hred | lra].
    + assert (Hpos : 0 < nearest x) by lra.
      rewrite (round_pos q) by lra.
      assert (Hfix : nearest q == nearest x).
      { rewrite (nearest_comp q (nearest x)) by lra. now apply nearest_fix. }
      rewrite (Qle_bool_comp _ _ _ _ (Qeq_refl (2 ^ 1024)) Hfix).
      destruct (Qle_bool (2 ^ 1024) (nearest x)) eqn:B';
        [apply Qle_bool_iff in B'; lra|].
      f_equal. rewrite <- Hq at 2. now apply Qred_complete.
Qed.

(** The opposite of a binary64 number is one. *)
Lemma round_opp (x q : Q) : round x = Num q -> round (- x) = Num (- q).
Proof.
  intros H. destruct (Qcompare_spec x 0) as [Ex|Ex|Ex].
  - rewrite (round_zero x Ex) in H. apply Num_inj in H. rewrite <- H.
    rewrite round_zero by lra. reflexivity.
  - rewrite (round_neg x Ex) in H.
    destruct (Qle_bool (2 ^ 1024) (nearest (- x))) eqn:B; [discriminate|].
    apply Num_inj in H. rewrite <- H. rewrite round_pos by lra. rewrite B.
    f_equal. rewrite Qred_opp, Qopp_opp. reflexivity.
  - rewrite (round_pos x Ex) in H.
    destruct (Qle_bool (2 ^ 1024) (nearest x)) eqn:B; [discriminate|].
    apply Num_inj in H. rewrite <- H. rewrite round_neg by lra.
    assert (Hn : nearest (- - x) == nearest x) by (apply nearest_comp; lra).
    rewrite (Qle_bool_comp _ _ _ _ (Qeq_refl (2 ^ 1024)) Hn), B.
    f_equal. rewrite Qred_opp. f_equal. now apply Qred_complete.
Qed.

(** *** Printing and reading back *)

Lemma same_Num (n : num) (q : Q) :
  same n (Num q) = true -> exists q', n = Num q' /\ q' == q.
Proof.
  destruct n as [| |q']; cbn; try discriminate.
  intros H. exists q'. split; [reflexivity | now apply Qeq_bool_iff].
Qed.

(** The decimal chosen for a positive binary64 number reads back as it. *)
Lemma shortest_reads_back (q : Q) : round q = Num q -> round (shortest q) = Num q.
Proof.
  intros Hq. unfold shortest.
  destruct (filter (reads_as q) (flat_map (digits_of q) (seq 1 17)))
    as [|c rest] eqn:E; [exact Hq|].
  cbn [hd].
  assert (Hin : In c (c :: rest)) by (left; reflexivity).
  rewrite <- E in Hin. apply filter_In in Hin as [_ Hc].
  apply same_Num in Hc as (q' & Hr & Heq).
  rewrite Hr. f_equal.
  apply red_eq; [exact (round_red _ _ Hr) | exact (round_red _ _ Hq) | exact Heq].
Qed.

(** Round trip: a binary64 number printed by the driver and read by
    [parseFloat] is the number. *)
Lemma to_decimal_reads_back (q : Q) : round q = Num q -> round (to_decimal q) = Num q.
Proof.
  intros Hq. unfold to_decimal.
  destruct (Qcompare_spec q 0) as [E|E|E].
  - rewrite (round_zero q E) in Hq. exact Hq.
  - assert (Hneg : round (- q) = Num (- q)) by now apply round_opp.
    pose proof (shortest_reads_back (- q) Hneg) as Hs.
    rewrite (round_comp (Qred (- shortest (- q))) (- shortest (- q)))
      by apply Qred_correct.
    rewrite (round_opp _ _ Hs). now rewrite Qopp_opp.
  - rewrite (round_comp (Qred (shortest q)) (shortest q)) by apply Qred_correct.
    now apply shortest_reads_back.
Qed.

(** What [parseFloat] returns is a binary64 number. *)
Lemma parseFloat_string_fix (s : string) (q : Q) :
  parseFloat_string s = Num q -> round q = Num q.
Proof.
  unfold parseFloat_string. destruct (sign (skip_spaces s)) as [neg s1].
  destruct (String.prefix "Infinity" s1); [discriminate|].
  destruct (literal s1) as [[v rest]|]; [|discriminate].
  apply round_fix.
Qed.

Lemma parseFloat_fix (v : value) (q : Q) : parseFloat v = Num q -> round q = Num q.
Proof.
  destruct v as [| |b|[| |x]|s]; cbn [parseFloat]; try discriminate.
  - apply round_fix.
  - apply parseFloat_string_fix.
Qed.

Lemma parseFloat_numeric_fix (n : num) (q : Q) :
  parseFloat_numeric n = Num q -> round q = Num q.
Proof. destruct n as [| |x]; cbn; try discriminate. apply round_fix. Qed.

(** The amounts the router stores read back as themselves. *)
Lemma read_back_printed (q : Q) :
  round q = Num q -> parseFloat_numeric (printed (Num q)) = Num q.
Proof. intros H. cbn. now apply to_decimal_reads_back. Qed.

(** ** The arithmetic at work *)

(** [round] agrees with the binary64 division of the Standard Library on
    quotients that round down, up and to even, on the smallest numbers,
    and where the result underflows to 0 or overflows to an infinity. *)
Lemma round_agrees_with_reference :
  forallb (fun '(n, d) => agrees n d)
    [(11%Z, 10%positive); (1%Z, 10%positive); (3%Z, 10%positive);
     (1%Z, 3%positive); ((-7)%Z, 3%positive); (0%Z, 1%positive);
     (9007199254740993%Z, 1%positive); (9007199254740995%Z, 1%positive);
     (10000000000000009%Z, (10 ^ 17)%positive);
     (29999999999999998%Z, (10 ^ 17)%positive);
     (123456789012345678901234567890%Z, 1000000007%positive);
     (1%Z, (10 ^ 400)%positive); (1%Z, (2 ^ 1074)%positive);
     (1%Z, (2 ^ 1075)%positive); (3%Z, (2 ^ 1075)%positive);
     ((10 ^ 400)%Z, 1%positive); ((2 ^ 1024 - 2 ^ 970)%Z, 1%positive);
     ((2 ^ 1024 - 2 ^ 970 - 1)%Z, 1%positive)]
  = true.
Proof. vm_compute; reflexivity. Qed.

(** Differences that are rounded: [1.1 - 1], [0.3 - 0.1], [1e16 - 1] and
    [1.1 - (1.1 - 0.1)], as the language computes and prints them. *)
Lemma rounded_differences :
  same (printed (sub (round 1.1) (Num 1))) (Num 0.10000000000000009) = true
  /\ same (printed (sub (round 0.3) (round 0.1))) (Num 0.19999999999999998) = true
  /\ sub (Num 10000000000000000) (Num 1) = Num 10000000000000000
  /\ same (printed (sub (round 1.1) (sub (round 1.1) (round 0.1))))
          (Num 0.10000000000000009) = true.
Proof. repeat split; vm_compute; reflexivity. Qed.

(** What [parseFloat] and [parseInt] read: an infinity, an underflow to
    0, an integer beyond 2^53 rounded to even, a number printed and read
    back, and an id beyond the range of an integer column. *)
Lemma parsed_texts :
  parseFloat (Str "Infinity") = Inf false
  /\ parseFloat (Str "-Infinity") = Inf true
  /\ parseFloat (Str "1e-400") = Num 0
  /\ parseFloat (Str "1e400") = Inf false
  /\ parseFloat (Str "9007199254740993") = Num 9007199254740992
  /\ parseFloat (Str " 12.50 units") = Num (25 # 2)
  /\ parseFloat (Str "abc") = NaN
  /\ parseFloat (Number (Num 700)) = Num 700
  /\ parseInt "12abc" = Some 12%Z
  /\ parseInt "abc" = None
  /\ parseInt "100000000000000000000" = Some 100000000000000000000%Z.
Proof. repeat split; vm_compute; reflexivity. Qed.

(** ** Running the handlers *)

#[local] Arguments round : simpl never.
#[local] Arguments to_decimal : simpl never.
#[local] Arguments printed : simpl never.
#[local] Arguments parseFloat : simpl never.
#[local] Arguments parseFloat_numeric : simpl never.
#[local] Arguments parseInt : simpl never.
#[local] Arguments integer_of_text : simpl never.
#[local] Arguments int4 : simpl never.

(** Unfold the binding of the placeholders of a statement. *)
Ltac bind_args :=
  cbn [prepare prepared highest fold_right List.length
       Nat.max Nat.eqb seq forallb existsb andb orb bind arg nth pred
       to_numeric to_text not_null id_is].

Lemma find_hd_filter {A : Type} (f : A -> bool) (l : list A) :
  find f l = hd_error (filter f l).
Proof.
  induction l as [|x l IH]; [reflexivity|].
  cbn. destruct (f x); [reflexivity | exact IH].
Qed.

Lemma find_none_filter {A : Type} (f : A -> bool) (l : list A) :
  find f l = None -> filter f l = [].
Proof.
  rewrite find_hd_filter. destruct (filter f l); [reflexivity | discriminate].
Qed.

(** A row update that keeps the key keeps the outcome of a lookup by key. *)
Lemma find_vendor_map (id : Z) (set : vendor -> vendor) (vs : list vendor) :
  (forall v, vendor_id (set v) = vendor_id v) ->
  find (fun v => Z.eqb (vendor_id v) id) (map set vs)
  = option_map set (find (fun v => Z.eqb (vendor_id v) id) vs).
Proof.
  intros Hid. induction vs as [|x vs IH]; [reflexivity|].
  cbn. rewrite Hid. destruct (Z.eqb (vendor_id x) id); [reflexivity | exact IH].
Qed.

Lemma find_vendor_id (id : Z) (d : db) (v : vendor) :
  find_vendor id d = Some v -> Z.eqb (vendor_id v) id = true.
Proof. intros H. apply find_some in H. exact (proj2 H). Qed.

Lemma to_text_or_null (s : option string) : to_text (or_null s) = Ok (stored_text s).
Proof. destruct s as [t|]; [cbn; destruct (truthy_string t)|]; reflexivity. Qed.

Lemma to_integer_key (z : Z) : int4 z = true -> to_integer (PInt z) = Ok (Some z).
Proof. intros H. cbn [to_integer]. now rewrite H. Qed.

Lemma to_integer_out_of_range (z : Z) : int4 z = false -> to_integer (PInt z) = Throw.
Proof. intros H. cbn [to_integer]. now rewrite H. Qed.

(** The date of a request, as [COALESCE($2, NOW())] takes it. *)
Lemma to_timestamptz_date (date : option timestamp_text) (d : db) :
  (o <- to_timestamptz (date_or_null date) ;; Ok (COALESCE o (NOW d)))
  = stored_date date d.
Proof.
  destruct date as [t|]; [|reflexivity]. cbn.
  destruct (truthy_string (sent t)); [|reflexivity].
  cbn. destruct (read t); reflexivity.
Qed.

Lemma SELECT_vendor_run (vid : Z) (d : db) :
  int4 vid = true ->
  SELECT_vendor [PInt vid] d
  = Ok (filter (fun v => Z.eqb (vendor_id v) vid) (vendors d)).
Proof.
  intros H. unfold SELECT_vendor. bind_args. now rewrite (to_integer_key vid H).
Qed.

Lemma SELECT_vendor_out_of_range (vid : Z) (d : db) :
  int4 vid = false -> SELECT_vendor [PInt vid] d = Throw.
Proof.
  intros H. unfold SELECT_vendor. bind_args.
  now rewrite (to_integer_out_of_range vid H).
Qed.

Lemma SELECT_vendor_text (id : string) (d : db) :
  SELECT_vendor [PText id] d
  = (vid <- integer_of_text id ;;
     Ok (filter (fun v => Z.eqb (vendor_id v) vid) (vendors d))).
Proof.
  unfold SELECT_vendor. bind_args. cbn [to_integer].
  destruct (integer_of_text id); reflexivity.
Qed.

Lemma INSERT_transaction_run (vid : Z) (date : option timestamp_text)
      (nt : option string) (amt : num) (st : payment_status) (d : db) :
  int4 vid = true ->
  INSERT_transaction [PInt vid; date_or_null date; PNum amt; or_null nt;
                      PText (status_text st)] d
  = (when <- stored_date date d ;;
     let row := mkTransaction (next_transaction_id d) vid when (printed amt)
                              (stored_text nt) (Some (status_text st)) in
     Ok ([row],
         mkDb (vendors d) (transactions d ++ [row])
              (next_vendor_id d) (next_transaction_id d + 1)%Z (NOW d))).
Proof.
  intros H. unfold INSERT_transaction. bind_args.
  rewrite (to_integer_key vid H). bind_args.
  rewrite <- to_timestamptz_date.
  destruct (to_timestamptz (date_or_null date)) as [o|]; [|reflexivity].
  bind_args. rewrite to_text_or_null. reflexivity.
Qed.

Lemma UPDATE_vendor_pending_run (n : num) (vid : Z) (d : db) :
  int4 vid = true ->
  UPDATE_vendor_pending [PNum n; PInt vid] d
  = Ok (filter (fun v => Z.eqb (vendor_id v) vid)
               (map (pay_row vid (printed n)) (vendors d)),
        with_vendors d (map (pay_row vid (printed n)) (vendors d))).
Proof.
  intros H. unfold UPDATE_vendor_pending. bind_args.
  now rewrite (to_integer_key vid H).
Qed.

Lemma pay_row_id (vid : Z) (n : num) (v : vendor) :
  vendor_id (pay_row vid n v) = vendor_id v.
Proof. unfold pay_row. destruct (Z.eqb (vendor_id v) vid); reflexivity. Qed.

(** The successful path of [post_transaction], written out. *)
Lemma post_transaction_run (s : string) (b : Req.body) (d : db)
      (vid : Z) (v : vendor) (when : string) :
  parseInt s = Some vid -> int4 vid = true ->
  refused_amount b = false ->
  stored_date (Req.transaction_date b) d = Ok when ->
  find_vendor vid d = Some v ->
  let amt := parseFloat (Req.amount b) in
  let total := parseFloat_numeric (total_amount v) in
  let newPending := fst (paid_pending (current_pending v) amt total) in
  let st := snd (paid_pending (current_pending v) amt total) in
  let row := mkTransaction (next_transaction_id d) vid when (printed amt)
                           (stored_text (Req.note b)) (Some (status_text st)) in
  post_transaction s b d
  = (mkResponse 201
       (transaction_added (Some row) (Some (pay_row vid (printed newPending) v)) st
          (overpaid amt (current_pending v))),
     mkDb (map (pay_row vid (printed newPending)) (vendors d)) (transactions d ++ [row])
          (next_vendor_id d) (next_transaction_id d + 1)%Z (NOW d)).
Proof.
  intros Hs Hr Hamt Hdate Hv. cbv zeta.
  unfold post_transaction. rewrite Hs. unfold refused_amount in Hamt. rewrite Hamt.
  rewrite (SELECT_vendor_run vid d Hr). cbn [bind].
  pose proof Hv as Hf. unfold find_vendor in Hf. rewrite find_hd_filter in Hf.
  destruct (filter (fun v0 => Z.eqb (vendor_id v0) vid) (vendors d))
    as [|v0 rest] eqn:Efilter; [discriminate|].
  cbn in Hf. injection Hf as ->.
  destruct (paid_pending (current_pending v) (parseFloat (Req.amount b))
              (parseFloat_numeric (total_amount v))) as [np st] eqn:Epaid.
  rewrite (INSERT_transaction_run vid _ _ _ _ d Hr), Hdate. cbn [bind fst snd].
  rewrite (UPDATE_vendor_pending_run _ vid _ Hr).
  cbn [bind fst snd vendors with_vendors transactions next_vendor_id
       next_transaction_id NOW].
  rewrite <- find_hd_filter.
  rewrite (find_vendor_map vid (pay_row vid (printed np))) by apply pay_row_id.
  fold (find_vendor vid d). rewrite Hv. reflexivity.
Qed.

(** ** The arithmetic of a payment *)

#[local] Arguments sub : simpl never.
#[local] Arguments add : simpl never.

Lemma max_zero (n : num) :
  n <> NaN -> max n (Num 0) = if le n (Num 0) then Num 0 else n.
Proof. destruct n; [congruence | reflexivity | reflexivity]. Qed.

Lemma sub_Num (x y : Q) : sub (Num x) (Num y) = round (x - y).
Proof. reflexivity. Qed.

Lemma le_zero_round (x : Q) : 0 <= x -> le (Num 0) (round x) = true.
Proof.
  intros H. change (Num 0) with (round 0). now apply round_mono.
Qed.

Lemma round_le_zero (x : Q) : x <= 0 -> le (round x) (Num 0) = true.
Proof.
  intros H. change (Num 0) with (round 0). now apply round_mono.
Qed.

(** A number between two zeros is the zero. *)
Lemma round_squeezed (x : Q) :
  le (round x) (Num 0) = true -> le (Num 0) (round x) = true -> round x = Num 0.
Proof.
  destruct (round x) as [| |q] eqn:E; cbn; try discriminate.
  - destruct negative; discriminate.
  - intros H1 H2. apply Qle_bool_iff in H1, H2. f_equal.
    apply red_eq; [exact (round_red _ _ E) | reflexivity | lra].
Qed.

(** The readings of a balanced pair of amounts are a balanced pair. *)
Lemma readings_balanced (p t P T : Q) :
  0 <= p -> p <= t -> round p = Num P -> round t = Num T -> 0 <= P /\ P <= T.
Proof.
  intros H0 Hpt HP HT.
  pose proof (le_zero_round p H0) as H1. pose proof (round_mono p t Hpt) as H2.
  rewrite HP in H1, H2. rewrite HT in H2. cbn in H1, H2.
  apply Qle_bool_iff in H1, H2. split; assumption.
Qed.

(** Lines 214-217 on binary64 numbers: the new pending amount of an
    added payment is the clamp of the rounded difference. *)
Lemma paid_pending_clamp (P A T : Q) :
  0 <= P -> P <= T -> 0 < A -> round T = Num T ->
  fst (paid_pending (Num P) (Num A) (Num T))
  = clamp_number (sub (Num P) (Num A)) (Num 0) (Num T).
Proof.
  intros HP HPT HA HT. unfold paid_pending, clamp_number.
  rewrite sub_Num. rewrite (max_zero _ (round_not_NaN _)).
  destruct (le (round (P - A)) (Num 0)) eqn:E.
  - cbn [fst le]. destruct (Qle_bool 0 T) eqn:E0; [reflexivity|].
    apply Qle_bool_false in E0. lra.
  - assert (Hle : le (round (P - A)) (Num T) = true).
    { rewrite <- HT. apply round_mono. lra. }
    assert (Hfst : forall (c : bool) (x : num),
               fst (if c then (x, Pending) else (x, Partial)) = x)
      by (intros [] ?; reflexivity).
    rewrite Hfst. pose proof (round_not_NaN (P - A)) as Hnan.
    destruct (round (P - A)); [congruence | |]; now rewrite Hle.
Qed.

(** The pending amount a payment leaves, as [pay] words it. *)
Lemma paid_pending_pay (x : num) (A : Q) (total : num) :
  (exists P, x = Num P) ->
  fst (paid_pending x (Num A) total) = pay x (Num A).
Proof.
  intros [P ->]. unfold paid_pending, pay. rewrite sub_Num.
  rewrite (max_zero _ (round_not_NaN _)).
  destruct (le (round (P - A)) (Num 0)); [reflexivity|].
  destruct (lt _ _); reflexivity.
Qed.

(** Line 250 on binary64 numbers. *)
Lemma overpaid_max (A P : Q) :
  overpaid (Num A) (Num P) = max (sub (Num A) (Num P)) (Num 0).
Proof.
  unfold overpaid, gt. cbn [lt]. rewrite sub_Num.
  rewrite (max_zero _ (round_not_NaN _)).
  destruct (Qlt_bool P A) eqn:E.
  - apply Qlt_bool_iff in E.
    destruct (le (round (A - P)) (Num 0)) eqn:L; [|reflexivity].
    apply round_squeezed; [exact L | apply le_zero_round; lra].
  - apply Qlt_bool_false in E. rewrite round_le_zero by lra. reflexivity.
Qed.

(** Lines 216-223: the status of an added payment. *)
Lemma paid_pending_status (P A T : Q) :
  snd (paid_pending (Num P) (Num A) (Num T))
  = if le (sub (Num P) (Num A)) (Num 0) then Paid
    else if lt (abs (sub (sub (Num P) (Num A)) (Num T))) EPSILON then Pending
    else Partial.
Proof.
  unfold paid_pending.
  destruct (le (sub (Num P) (Num A)) (Num 0)); [reflexivity|].
  destruct (lt _ _); reflexivity.
Qed.

Lemma positive_amount_passes (b : Req.body) (A : Q) :
  parseFloat (Req.amount b) = Num A -> 0 < A -> refused_amount b = false.
Proof.
  intros H HA. unfold refused_amount. rewrite H. cbn.
  destruct (Qle_bool A 0) eqn:E; [|reflexivity].
  apply Qle_bool_iff in E. lra.
Qed.

Lemma current_pending_coalesce (v : vendor) :
  current_pending v = parseFloat_numeric (COALESCE (pending_amount v) (total_amount v)).
Proof. unfold current_pending. destruct (pending_amount v); reflexivity. Qed.

(** A payment on a balanced vendor, written out: the answer and the
    store it leaves. *)
Lemma post_transaction_balance
      (s : string) (b : Req.body) (d : db) (vid : Z) (v : vendor) (when : string)
      (p t P T A : Q) :
  parseInt s = Some vid -> int4 vid = true ->
  stored_date (Req.transaction_date b) d = Ok when ->
  parseFloat (Req.amount b) = Num A -> 0 < A ->
  find_vendor vid d = Some v ->
  COALESCE (pending_amount v) (total_amount v) = Num p -> total_amount v = Num t ->
  0 <= p -> p <= t ->
  round p = Num P -> round t = Num T ->
  let newPending := clamp_number (sub (Num P) (Num A)) (Num 0) (Num T) in
  let st := snd (paid_pending (Num P) (Num A) (Num T)) in
  let row := mkTransaction (next_transaction_id d) vid when (printed (Num A))
                           (stored_text (Req.note b)) (Some (status_text st)) in
  post_transaction s b d
  = (mkResponse 201
       (transaction_added (Some row) (Some (pay_row vid (printed newPending) v)) st
          (max (sub (Num A) (Num P)) (Num 0))),
     mkDb (map (pay_row vid (printed newPending)) (vendors d)) (transactions d ++ [row])
          (next_vendor_id d) (next_transaction_id d + 1)%Z (NOW d)).
Proof.
  intros Hs Hr Hdate Hamt HA Hv Hp Ht Hp0 Hpt HP HT. cbv zeta.
  rewrite (post_transaction_run s b d vid v when Hs Hr
             (positive_amount_passes b A Hamt HA) Hdate Hv).
  rewrite current_pending_coalesce, Hp, Ht, Hamt.
  change (parseFloat_numeric (Num p)) with (round p).
  change (parseFloat_numeric (Num t)) with (round t).
  rewrite HP, HT.
  destruct (readings_balanced p t P T Hp0 Hpt HP HT) as [HP0 HPT].
  rewrite (paid_pending_clamp P A T HP0 HPT HA (round_fix _ _ HT)).
  rewrite overpaid_max. reflexivity.
Qed.

(** [Number.EPSILON] and its opposite are binary64 numbers. *)
Lemma round_minus_EPSILON :
  round (- (1 # 4503599627370496)) = Num (- (1 # 4503599627370496)).
Proof. vm_compute; reflexivity. Qed.

(** A difference that needed no rounding, of an amount of
    [Number.EPSILON] or more, is not within [Number.EPSILON] of the
    total. *)
Lemma exact_difference_not_pending (P A T x : Q) :
  P <= T -> x == P - A -> (1 # 4503599627370496) <= A ->
  lt (abs (sub (Num x) (Num T))) EPSILON = false.
Proof.
  intros HPT Hx HA. rewrite sub_Num.
  assert (Hle : le (round (x - T)) (Num (- (1 # 4503599627370496))) = true).
  { rewrite <- round_minus_EPSILON. apply round_mono. lra. }
  pose proof (round_not_NaN (x - T)) as Hnan.
  destruct (round (x - T)) as [|[|]|y]; [congruence | reflexivity | discriminate |].
  cbn in Hle. apply Qle_bool_iff in Hle. cbn [abs lt EPSILON].
  unfold Qlt_bool. apply negb_false_iff, Qle_bool_iff.
  rewrite Qabs_neg by lra. lra.
Qed.

(** What a payment leaves is a number of the router: finite, and read
    back as itself. *)
Lemma pay_value (P A : Q) :
  round P = Num P -> 0 < A ->
  exists x, pay (Num P) (Num A) = Num x /\ round x = Num x.
Proof.
  intros HP HA. unfold pay. rewrite sub_Num, (max_zero _ (round_not_NaN _)).
  destruct (le (round (P - A)) (Num 0)) eqn:E.
  - exists 0. split; reflexivity.
  - assert (Hle : le (round (P - A)) (Num P) = true).
    { rewrite <- HP. apply round_mono. lra. }
    pose proof (round_not_NaN (P - A)) as Hnan.
    destruct (round (P - A)) as [|neg|x] eqn:R; [congruence | |].
    + destruct neg; discriminate.
    + exists x. split; [reflexivity | exact (round_fix _ _ R)].
Qed.

(** The decimal a number of the router prints as has its sign. *)
Lemma to_decimal_nonneg (x : Q) : round x = Num x -> 0 <= x -> 0 <= to_decimal x.
Proof.
  intros Hfix Hx. destruct (Qlt_le_dec (to_decimal x) 0) as [Hneg|H]; [|exact H].
  exfalso. pose proof (round_le_zero (to_decimal x) (Qlt_le_weak _ _ Hneg)) as Hle.
  rewrite (to_decimal_reads_back x Hfix) in Hle. cbn in Hle.
  apply Qle_bool_iff in Hle.
  assert (E : x == 0) by lra.
  unfold to_decimal in Hneg. rewrite (Qcompare_Eq x 0 E) in Hneg. lra.
Qed.

(** ** Removing a payment *)

Lemma restore_row_id (vid : Z) (n : num) (v : vendor) :
  vendor_id (restore_row vid n v) = vendor_id v.
Proof. unfold restore_row. destruct (Z.eqb (vendor_id v) vid); reflexivity. Qed.

Lemma SELECT_transaction_amount_run (tid vid : Z) (d : db) :
  SELECT_transaction_amount [PInt tid; PInt vid] d
  = if (int4 tid && int4 vid)%bool
    then Ok (filter (fun t => Z.eqb (transaction_id t) tid
                              && Z.eqb (tx_vendor_id t) vid)%bool
                    (transactions d))
    else Throw.
Proof.
  unfold SELECT_transaction_amount. bind_args. cbn [to_integer].
  destruct (int4 tid); [|reflexivity]. cbn [bind andb].
  destruct (int4 vid); reflexivity.
Qed.

(** The successful path of [delete_transaction], written out. *)
Lemma delete_transaction_run (sv st : string) (d : db) (vid tid : Z)
      (row : transaction) (rest : list transaction) :
  parseInt sv = Some vid -> parseInt st = Some tid ->
  int4 vid = true -> int4 tid = true ->
  filter (fun t => Z.eqb (transaction_id t) tid && Z.eqb (tx_vendor_id t) vid)%bool
         (transactions d) = row :: rest ->
  delete_transaction sv st d
  = (mkResponse 200 transaction_deleted,
     mkDb (map (restore_row vid (read_back (amount row))) (vendors d))
          (filter (fun t => negb (Z.eqb (transaction_id t) tid)) (transactions d))
          (next_vendor_id d) (next_transaction_id d) (NOW d)).
Proof.
  intros Hsv Hst Hv Ht Hrow. unfold delete_transaction. rewrite Hsv, Hst.
  rewrite SELECT_transaction_amount_run, Hv, Ht. cbn [andb]. rewrite Hrow.
  unfold DELETE_transaction, UPDATE_vendor_restore. bind_args.
  rewrite (to_integer_key tid Ht). bind_args.
  rewrite (to_integer_key vid Hv). reflexivity.
Qed.

(** Every other path of [delete_transaction] leaves the store alone. *)
Lemma delete_transaction_cases (sv st : string) (d : db) :
  (code (fst (delete_transaction sv st d)) <> 200%nat
   /\ snd (delete_transaction sv st d) = d)
  \/ exists vid tid row rest,
       parseInt sv = Some vid /\ parseInt st = Some tid
       /\ int4 vid = true /\ int4 tid = true
       /\ filter (fun t => Z.eqb (transaction_id t) tid
                           && Z.eqb (tx_vendor_id t) vid)%bool
                 (transactions d) = row :: rest.
Proof.
  destruct (parseInt sv) as [vid|] eqn:Hsv;
    [|left; unfold delete_transaction; rewrite Hsv; split; [discriminate | reflexivity]].
  destruct (parseInt st) as [tid|] eqn:Hst;
    [|left; unfold delete_transaction; rewrite Hsv, Hst;
      split; [discriminate | reflexivity]].
  destruct (int4 tid && int4 vid)%bool eqn:Hr.
  - destruct (filter (fun t => Z.eqb (transaction_id t) tid
                               && Z.eqb (tx_vendor_id t) vid)%bool
                     (transactions d)) as [|row rest] eqn:Hrow.
    + left. unfold delete_transaction. rewrite Hsv, Hst.
      rewrite SELECT_transaction_amount_run, Hr, Hrow.
      split; [discriminate | reflexivity].
    + right. apply andb_prop in Hr as [Ht Hv]. now exists vid, tid, row, rest.
  - left. unfold delete_transaction. rewrite Hsv, Hst.
    rewrite SELECT_transaction_amount_run, Hr. split; [discriminate | reflexivity].
Qed.

Lemma filter_fresh (tid : Z) (f : transaction -> bool) (ts : list transaction) :
  Forall (fun t => transaction_id t <> tid) ts ->
  filter (fun t => Z.eqb (transaction_id t) tid && f t)%bool ts = []
  /\ filter (fun t => negb (Z.eqb (transaction_id t) tid)) ts = ts.
Proof.
  induction 1 as [|t ts Ht _ [IH1 IH2]]; [split; reflexivity|].
  cbn. apply Z.eqb_neq in Ht. rewrite Ht. cbn. rewrite IH1, IH2. split; reflexivity.
Qed.

Lemma filter_other_ids (tid : Z) (ts : list transaction) (t : transaction) :
  In t (filter (fun x => negb (Z.eqb (transaction_id x) tid)) ts)
  <-> In t ts /\ transaction_id t <> tid.
Proof.
  rewrite filter_In. split; intros [Hin H]; (split; [exact Hin|]).
  - apply negb_true_iff, Z.eqb_neq in H. exact H.
  - apply negb_true_iff, Z.eqb_neq. exact H.
Qed.

(** The [LEAST(GREATEST(...))] expression of the delete path: exact. *)
Lemma restored_pending_clamp (v : vendor) (p a t : Q) :
  COALESCE (pending_amount v) (total_amount v) = Num p -> total_amount v = Num t ->
  exists q, restored_pending v (Num a) = Num q /\ q == clamp (p + a) 0 t.
Proof.
  intros Hp Ht. unfold restored_pending. rewrite Hp, Ht.
  cbn [numeric_add]. unfold GREATEST, LEAST; cbn [numeric_le].
  order_cases; cbn [numeric_le]; order_cases;
    eexists; (split; [reflexivity|]); rewrite ?Qred_correct in *;
    minmax_cases; lra.
Qed.

(** ** Adding a payment *)

(** C2, as the code has it. For a vendor with pending [p] and total [t],
    [0 <= p <= t], and an amount [a > 0], with a date the server can
    read or none, the add-transaction handler answers 201, stores
    [clamp (p - a) 0 t] as the vendor's pending amount and reports
    [max (a - p) 0] as the overpayment, where both differences are
    binary64 differences of the amounts as [parseFloat] reads them
    ([P], [T] and [A] below), rounded to the nearest number, and the new
    pending amount reaches the column as the decimal it prints as. When
    the difference needs no rounding, this is the clamp of the exact
    difference. *)
Theorem add_transaction_pending_and_overpayment
        (s : string) (b : Req.body) (d : db) (vid : Z) (v : vendor) (when : string)
        (p t P T A : Q) :
  parseInt s = Some vid -> int4 vid = true ->
  stored_date (Req.transaction_date b) d = Ok when ->
  parseFloat (Req.amount b) = Num A -> 0 < A ->
  find_vendor vid d = Some v ->
  pending_amount v = Some (Num p) -> total_amount v = Num t ->
  0 <= p -> p <= t ->
  round p = Num P -> round t = Num T ->
  exists v',
    code (fst (post_transaction s b d)) = 201%nat
    /\ find_vendor vid (snd (post_transaction s b d)) = Some v'
    /\ total_amount v' = Num t
    /\ pending_amount v'
       = Some (printed (clamp_number (sub (Num P) (Num A)) (Num 0) (Num T)))
    /\ reported_overpayment (fst (post_transaction s b d))
       = Some (max (sub (Num A) (Num P)) (Num 0))
    /\ (forall x, sub (Num P) (Num A) = Num x -> x == P - A ->
        exists c, clamp_number (sub (Num P) (Num A)) (Num 0) (Num T) = Num c
                  /\ c == clamp (P - A) 0 T)
    /\ (forall x, sub (Num A) (Num P) = Num x -> x == A - P ->
        exists o, max (sub (Num A) (Num P)) (Num 0) = Num o
                  /\ o == Qmax (A - P) 0).
Proof.
  intros Hs Hr Hdate Hamt HA Hv Hp Ht Hp0 Hpt HP HT.
  assert (Hc : COALESCE (pending_amount v) (total_amount v) = Num p)
    by now rewrite Hp.
  rewrite (post_transaction_balance s b d vid v when p t P T A
             Hs Hr Hdate Hamt HA Hv Hc Ht Hp0 Hpt HP HT).
  cbn [fst snd code reported_overpayment payload].
  exists (pay_row vid (printed (clamp_number (sub (Num P) (Num A)) (Num 0) (Num T))) v).
  split; [reflexivity|]. split.
  { unfold find_vendor. cbn [vendors].
    rewrite find_vendor_map by apply pay_row_id.
    fold (find_vendor vid d). now rewrite Hv. }
  unfold pay_row. rewrite (find_vendor_id vid d v Hv).
  cbn [total_amount pending_amount set_pending_amount].
  split; [exact Ht|]. split; [reflexivity|]. split; [reflexivity|].
  destruct (readings_balanced p t P T Hp0 Hpt HP HT) as [HP0 HPT].
  split; intros x Hx Hexact; rewrite Hx.
  - unfold clamp_number. rewrite (max_zero (Num x)) by discriminate.
    cbn [le]. order_cases; cbn [le]; order_cases;
      eexists; (split; [reflexivity|]); minmax_cases; lra.
  - rewrite (max_zero (Num x)) by discriminate.
    cbn [le]. order_cases; eexists; (split; [reflexivity|]); minmax_cases; lra.
Qed.

Lemma add_transaction_pending_and_overpayment_witness :
  exists v',
    code (fst (post_transaction "1" (Sample.payment 700) Sample.owing_600)) = 201%nat
    /\ find_vendor 1 (snd (post_transaction "1" (Sample.payment 700) Sample.owing_600))
       = Some v'
    /\ total_amount v' = Num 1000
    /\ pending_amount v'
       = Some (printed (clamp_number (sub (Num 600) (Num 700)) (Num 0) (Num 1000)))
    /\ reported_overpayment
         (fst (post_transaction "1" (Sample.payment 700) Sample.owing_600))
       = Some (max (sub (Num 700) (Num 600)) (Num 0))
    /\ (forall x, sub (Num 600) (Num 700) = Num x -> x == 600 - 700 ->
        exists c, clamp_number (sub (Num 600) (Num 700)) (Num 0) (Num 1000) = Num c
                  /\ c == clamp (600 - 700) 0 1000)
    /\ (forall x, sub (Num 700) (Num 600) = Num x -> x == 700 - 600 ->
        exists o, max (sub (Num 700) (Num 600)) (Num 0) = Num o
                  /\ o == Qmax (700 - 600) 0).
Proof.
  apply (add_transaction_pending_and_overpayment
           "1" (Sample.payment 700) Sample.owing_600 1 (Sample.acme 1000 600)
           "2024-05-01" 600 1000 600 1000 700);
    try (vm_compute; reflexivity); lra.
Defined.

(** C2 as stated fails where a difference is rounded: a payment of 1 on a
    bill of 1.1 leaves 0.10000000000000009 pending, not 0.1, and a
    payment of 1.1 on a bill of 1 is reported as overpaid by the number
    that prints as 0.10000000000000009. It also fails for a date the
    server cannot read: the insert raises, the answer is 500 and the
    pending amount stays. *)
Lemma add_transaction_pending_and_overpayment_counterexample :
  option_map pending_amount
    (find_vendor 1 (snd (post_transaction "1" (Sample.paying (Str "1"))
                           (Sample.unpaid 1.1))))
  = Some (Some (Num 0.10000000000000009))
  /\ clamp (1.1 - 1) 0 1.1 == 0.1
  /\ (0.10000000000000009 == 0.1 -> False)
  /\ option_map printed
       (reported_overpayment
          (fst (post_transaction "1" (Sample.paying (Str "1.1")) Sample.owing_all)))
     = Some (Num 0.10000000000000009)
  /\ Qmax (1.1 - 1) 0 == 0.1
  /\ post_transaction "1"
       (Req.mkBody None None None Undefined Undefined (Number (Num 700)) None
                   (Some (mkTimestampText "soon" Throw)))
       Sample.owing_600
     = (server_error, Sample.owing_600).
Proof.
  split; [vm_compute; reflexivity|].
  split; [vm_compute; reflexivity|].
  split; [intros H; vm_compute in H; discriminate|].
  split; [vm_compute; reflexivity|].
  split; vm_compute; reflexivity.
Qed.

(** C10, as the code has it. On a balanced vendor and for an amount
    [a > 0], the status computed by the add-transaction handler, returned
    in the response and written on the inserted row, is Paid when the
    binary64 difference [P - A] is zero or less; otherwise it is Pending
    exactly when that difference is within [Number.EPSILON] of the total,
    and Partial when it is not. It is never Pending when the difference
    needed no rounding and the amount is [Number.EPSILON] or more. *)
Theorem add_transaction_status
        (s : string) (b : Req.body) (d : db) (vid : Z) (v : vendor) (when : string)
        (p t P T A : Q) :
  parseInt s = Some vid -> int4 vid = true ->
  stored_date (Req.transaction_date b) d = Ok when ->
  parseFloat (Req.amount b) = Num A -> 0 < A ->
  find_vendor vid d = Some v ->
  pending_amount v = Some (Num p) -> total_amount v = Num t ->
  0 <= p -> p <= t ->
  round p = Num P -> round t = Num T ->
  exists row st,
    reported_status (fst (post_transaction s b d)) = Some st
    /\ inserted_row (fst (post_transaction s b d)) = Some row
    /\ In row (transactions (snd (post_transaction s b d)))
    /\ status row = Some (status_text st)
    /\ (st = Paid <-> le (sub (Num P) (Num A)) (Num 0) = true)
    /\ (st = Pending
        <-> le (sub (Num P) (Num A)) (Num 0) = false
            /\ lt (abs (sub (sub (Num P) (Num A)) (Num T))) EPSILON = true)
    /\ (forall x, sub (Num P) (Num A) = Num x -> x == P - A ->
        (1 # 4503599627370496) <= A -> st <> Pending).
Proof.
  intros Hs Hr Hdate Hamt HA Hv Hp Ht Hp0 Hpt HP HT.
  assert (Hc : COALESCE (pending_amount v) (total_amount v) = Num p)
    by now rewrite Hp.
  rewrite (post_transaction_balance s b d vid v when p t P T A
             Hs Hr Hdate Hamt HA Hv Hc Ht Hp0 Hpt HP HT).
  rewrite paid_pending_status.
  eexists; eexists. unfold reported_status, inserted_row.
  cbn [fst snd payload transactions].
  split; [reflexivity|]. split; [reflexivity|].
  split; [apply in_or_app; right; left; reflexivity|].
  split; [reflexivity|].
  destruct (readings_balanced p t P T Hp0 Hpt HP HT) as [_ HPT].
  split; [|split].
  - destruct (le (sub (Num P) (Num A)) (Num 0));
      [|destruct (lt (abs (sub (sub (Num P) (Num A)) (Num T))) EPSILON)];
      split; intros H; try reflexivity; discriminate.
  - destruct (le (sub (Num P) (Num A)) (Num 0));
      [|destruct (lt (abs (sub (sub (Num P) (Num A)) (Num T))) EPSILON)];
      split; intros H; try discriminate; try (split; reflexivity);
      destruct H; discriminate.
  - intros x Hx Hexact Heps. rewrite Hx.
    rewrite (exact_difference_not_pending P A T x HPT Hexact Heps).
    destruct (le (Num x) (Num 0)); discriminate.
Qed.

Lemma add_transaction_status_witness :
  exists row st,
    reported_status (fst (post_transaction "1" (Sample.payment 400) Sample.owing_600))
    = Some st
    /\ inserted_row (fst (post_transaction "1" (Sample.payment 400) Sample.owing_600))
       = Some row
    /\ In row (transactions
                 (snd (post_transaction "1" (Sample.payment 400) Sample.owing_600)))
    /\ status row = Some (status_text st)
    /\ (st = Paid <-> le (sub (Num 600) (Num 400)) (Num 0) = true)
    /\ (st = Pending
        <-> le (sub (Num 600) (Num 400)) (Num 0) = false
            /\ lt (abs (sub (sub (Num 600) (Num 400)) (Num 1000))) EPSILON = true)
    /\ (forall x, sub (Num 600) (Num 400) = Num x -> x == 600 - 400 ->
        (1 # 4503599627370496) <= 400 -> st <> Pending).
Proof.
  apply (add_transaction_status
           "1" (Sample.payment 400) Sample.owing_600 1 (Sample.acme 1000 600)
           "2024-05-01" 600 1000 600 1000 400);
    try (vm_compute; reflexivity); lra.
Defined.

(** C10 as stated fails: the branch of line 219 is taken whenever the
    subtraction leaves the pending amount within [Number.EPSILON] of the
    total. A payment of 1 on a vendor that owes its whole bill of 10^16
    is absorbed by the rounding, and a payment of 2^-53 on one that owes
    its whole bill of 1 is smaller than [Number.EPSILON]: in both cases
    the vendor is balanced, the amount is positive, and the answer and
    the inserted row say Pending. *)
Lemma add_transaction_status_counterexample :
  find_vendor 1 (Sample.unpaid 10000000000000000)
  = Some (Sample.acme 10000000000000000 10000000000000000)
  /\ balanced (Sample.acme 10000000000000000 10000000000000000)
  /\ parseFloat (Req.amount (Sample.payment 1)) = Num 1
  /\ reported_status
       (fst (post_transaction "1" (Sample.payment 1) (Sample.unpaid 10000000000000000)))
     = Some Pending
  /\ option_map status
       (inserted_row
          (fst (post_transaction "1" (Sample.payment 1)
                  (Sample.unpaid 10000000000000000))))
     = Some (Some "Pending"%string)
  /\ option_map pending_amount
       (find_vendor 1
          (snd (post_transaction "1" (Sample.payment 1)
                  (Sample.unpaid 10000000000000000))))
     = Some (Some (Num 10000000000000000))
  /\ balanced (Sample.acme 1 1)
  /\ parseFloat (Req.amount (Sample.payment (1 # 9007199254740992)))
     = Num (1 # 9007199254740992)
  /\ reported_status
       (fst (post_transaction "1" (Sample.payment (1 # 9007199254740992))
               Sample.owing_all))
     = Some Pending.
Proof.
  split; [reflexivity|]. split; [cbn; split; lra|].
  split; [vm_compute; reflexivity|].
  split; [vm_compute; reflexivity|].
  split; [vm_compute; reflexivity|].
  split; [vm_compute; reflexivity|].
  split; [cbn; split; lra|].
  split; vm_compute; reflexivity.
Qed.

(** ** Adding a payment, then deleting it *)

(** What a payment leaves of a balanced pending amount is a number. *)
Lemma pay_finite (P A T : Q) :
  0 <= P -> P <= T -> 0 < A -> round T = Num T ->
  clamp_number (sub (Num P) (Num A)) (Num 0) (Num T) = pay (Num P) (Num A)
  /\ exists x, pay (Num P) (Num A) = Num x /\ 0 <= x.
Proof.
  intros HP HPT HA HT. split.
  - rewrite <- (paid_pending_clamp P A T HP HPT HA HT).
    apply paid_pending_pay. now exists P.
  - unfold pay. rewrite sub_Num, (max_zero _ (round_not_NaN _)).
    destruct (le (round (P - A)) (Num 0)) eqn:E.
    + exists 0. split; [reflexivity | lra].
    + assert (Hle : le (round (P - A)) (Num T) = true).
      { rewrite <- HT. apply round_mono. lra. }
      destruct (round (P - A)) as [| [|] |x] eqn:R; try discriminate.
      exists x. split; [reflexivity|].
      cbn in E. apply Qle_bool_false in E. lra.
Qed.

Lemma printed_Num (x : Q) : printed (Num x) = Num (to_decimal x).
Proof. reflexivity. Qed.

(** Adding a payment and deleting that very row, written out. *)
Lemma add_then_delete_run (sv st : string) (b : Req.body) (d : db)
      (vid : Z) (v : vendor) (when : string) (p t P T A : Q) :
  parseInt sv = Some vid -> int4 vid = true ->
  parseInt st = Some (next_transaction_id d) -> int4 (next_transaction_id d) = true ->
  stored_date (Req.transaction_date b) d = Ok when ->
  parseFloat (Req.amount b) = Num A -> 0 < A ->
  find_vendor vid d = Some v ->
  COALESCE (pending_amount v) (total_amount v) = Num p -> total_amount v = Num t ->
  0 <= p -> p <= t ->
  round p = Num P -> round t = Num T ->
  fresh_transaction_id d ->
  let newPending := printed (pay (Num P) (Num A)) in
  let d1 := snd (post_transaction sv b d) in
  let d2 := snd (delete_transaction sv st d1) in
  find_vendor vid d1 = Some (pay_row vid newPending v)
  /\ option_map amount (inserted_row (fst (post_transaction sv b d)))
     = Some (printed (Num A))
  /\ find_vendor vid d2
     = Some (restore_row vid (printed (Num A)) (pay_row vid newPending v))
  /\ transactions d2 = transactions d.
Proof.
  intros Hsv Hrv Hst Hrt Hdate Hamt HA Hv Hp Ht Hp0 Hpt HP HT Hfresh. cbv zeta.
  rewrite (post_transaction_balance sv b d vid v when p t P T A
             Hsv Hrv Hdate Hamt HA Hv Hp Ht Hp0 Hpt HP HT).
  destruct (readings_balanced p t P T Hp0 Hpt HP HT) as [HP0 HPT].
  destruct (pay_finite P A T HP0 HPT HA (round_fix _ _ HT)) as [-> _].
  cbn [fst snd inserted_row payload option_map amount].
  set (np := printed (pay (Num P) (Num A))).
  set (row := mkTransaction _ _ _ _ _ _).
  set (d1 := mkDb _ _ _ _ _).
  pose proof (find_vendor_id vid d v Hv) as Hid.
  destruct (filter_fresh (next_transaction_id d)
              (fun t => Z.eqb (tx_vendor_id t) vid) (transactions d) Hfresh)
    as [Hnone Hkeep].
  assert (Hsel : filter (fun t => Z.eqb (transaction_id t) (next_transaction_id d)
                                  && Z.eqb (tx_vendor_id t) vid)%bool
                        (transactions d1) = [row]).
  { subst d1. cbn [transactions]. rewrite filter_app, Hnone. cbn.
    rewrite !Z.eqb_refl. reflexivity. }
  rewrite (delete_transaction_run sv st d1 vid (next_transaction_id d) row []
             Hsv Hst Hrv Hrt Hsel).
  assert (Hback : read_back (amount row) = printed (Num A)).
  { subst row. cbn [amount]. unfold read_back.
    now rewrite (read_back_printed A (parseFloat_fix _ _ Hamt)). }
  rewrite Hback.
  cbn [snd]. unfold find_vendor. subst d1. cbn [vendors transactions].
  rewrite !find_vendor_map by (intros; rewrite ?restore_row_id, ?pay_row_id; reflexivity).
  fold (find_vendor vid d). rewrite Hv. cbn [option_map].
  repeat split.
  rewrite filter_app, Hkeep. cbn. rewrite Z.eqb_refl. cbn. apply app_nil_r.
Qed.

(** C3, as the code has it. Adding a payment of [a > 0] to a balanced
    vendor and then deleting that same row, with nothing in between, sets
    the pending amount to [clamp (p1 + a1) 0 t], computed exactly, where
    [p1] is the pending amount the add left, the binary64 difference
    floored at 0, and [a1] the amount as the add stored it. This is the
    pending amount [p] from before the add exactly when the two add up
    to it, or exceed the total of a vendor that owed its whole total. *)
Theorem add_then_delete_pending
        (sv st : string) (b : Req.body) (d : db) (vid : Z) (v : vendor) (when : string)
        (p t P T A : Q) :
  parseInt sv = Some vid -> int4 vid = true ->
  parseInt st = Some (next_transaction_id d) -> int4 (next_transaction_id d) = true ->
  stored_date (Req.transaction_date b) d = Ok when ->
  parseFloat (Req.amount b) = Num A -> 0 < A ->
  find_vendor vid d = Some v ->
  pending_amount v = Some (Num p) -> total_amount v = Num t ->
  0 <= p -> p <= t ->
  round p = Num P -> round t = Num T ->
  fresh_transaction_id d ->
  exists p1 a1 p2,
    option_map pending_amount (find_vendor vid (snd (post_transaction sv b d)))
    = Some (Some (Num p1))
    /\ Num p1 = printed (pay (Num P) (Num A))
    /\ option_map amount (inserted_row (fst (post_transaction sv b d)))
       = Some (Num a1)
    /\ Num a1 = printed (Num A)
    /\ option_map pending_amount
         (find_vendor vid
            (snd (delete_transaction sv st (snd (post_transaction sv b d)))))
       = Some (Some (Num p2))
    /\ p2 == clamp (p1 + a1) 0 t
    /\ (p1 + a1 == p -> p2 == p)
    /\ (p2 == p <-> p1 + a1 == p \/ (t < p1 + a1 /\ p == t)).
Proof.
  intros Hsv Hrv Hst Hrt Hdate Hamt HA Hv Hp Ht Hp0 Hpt HP HT Hfresh.
  assert (Hc : COALESCE (pending_amount v) (total_amount v) = Num p)
    by now rewrite Hp.
  destruct (add_then_delete_run sv st b d vid v when p t P T A
              Hsv Hrv Hst Hrt Hdate Hamt HA Hv Hc Ht Hp0 Hpt HP HT Hfresh)
    as (H1 & Ha & H2 & _).
  rewrite H1, Ha, H2. clear H1 Ha H2.
  destruct (readings_balanced p t P T Hp0 Hpt HP HT) as [HP0 HPT].
  destruct (pay_finite P A T HP0 HPT HA (round_fix _ _ HT)) as [_ (x & Hx & Hx0)].
  assert (Hxfix : round x = Num x).
  { destruct (pay_value P A (round_fix _ _ HP) HA) as (x' & Hx' & Hfix).
    rewrite Hx in Hx'. apply Num_inj in Hx'. now rewrite Hx'. }
  pose proof (to_decimal_nonneg x Hxfix Hx0) as Hp1.
  pose proof (to_decimal_nonneg A (parseFloat_fix _ _ Hamt) (Qlt_le_weak _ _ HA))
    as Ha1.
  rewrite Hx, !printed_Num.
  unfold pay_row, restore_row. cbn [vendor_id set_pending_amount].
  rewrite (find_vendor_id vid d v Hv). cbn [vendor_id set_pending_amount pending_amount].
  rewrite (find_vendor_id vid d v Hv).
  destruct (restored_pending_clamp
              (set_pending_amount v (Some (Num (to_decimal x))))
              (to_decimal x) (to_decimal A) t eq_refl Ht)
    as (q & Hq & Hclamp).
  rewrite Hq. cbn [option_map pending_amount set_pending_amount].
  exists (to_decimal x), (to_decimal A), q.
  repeat (split; [reflexivity|]).
  split; [exact Hclamp|].
  split; [intros Hsum; minmax_cases; lra|].
  split.
  - intros Hback. destruct (Qlt_le_dec t (to_decimal x + to_decimal A)) as [Hover|Hin].
    + right. split; [exact Hover|]. minmax_cases; lra.
    + left. minmax_cases; lra.
  - intros [Hsum | [Hover Hall]]; minmax_cases; lra.
Qed.

Lemma add_then_delete_pending_witness :
  exists p1 a1 p2,
    option_map pending_amount
      (find_vendor 1 (snd (post_transaction "1" (Sample.payment 400) Sample.owing_600)))
    = Some (Some (Num p1))
    /\ Num p1 = printed (pay (Num 600) (Num 400))
    /\ option_map amount
         (inserted_row (fst (post_transaction "1" (Sample.payment 400) Sample.owing_600)))
       = Some (Num a1)
    /\ Num a1 = printed (Num 400)
    /\ option_map pending_amount
         (find_vendor 1
            (snd (delete_transaction "1" "2"
                    (snd (post_transaction "1" (Sample.payment 400) Sample.owing_600)))))
       = Some (Some (Num p2))
    /\ p2 == clamp (p1 + a1) 0 1000
    /\ (p1 + a1 == 600 -> p2 == 600)
    /\ (p2 == 600 <-> p1 + a1 == 600 \/ (1000 < p1 + a1 /\ 600 == 1000)).
Proof.
  apply (add_then_delete_pending
           "1" "2" (Sample.payment 400) Sample.owing_600 1 (Sample.acme 1000 600)
           "2024-05-01" 600 1000 600 1000 400);
    try (vm_compute; reflexivity); try lra.
  repeat constructor. cbn. discriminate.
Defined.

(** C3 as stated fails on the run of the specification itself: with total
    1000 and pending 600, the payment of 700 leaves pending 0 and deleting
    it leaves pending 700, not 600. It also fails without overpayment,
    where the subtraction is rounded: with total 2 and pending 1.1, the
    payment of 1 leaves 0.10000000000000009 and deleting it leaves
    1.10000000000000009, not 1.1. *)
Lemma add_then_delete_counterexample :
  option_map pending_amount
    (find_vendor 1 (snd (post_transaction "1" (Sample.payment 700) Sample.owing_600)))
  = Some (Some (Num 0))
  /\ option_map pending_amount
       (find_vendor 1
          (snd (delete_transaction "1" "2"
                  (snd (post_transaction "1" (Sample.payment 700) Sample.owing_600)))))
     = Some (Some (Num 700))
  /\ option_map pending_amount (find_vendor 1 Sample.spec_run) = Some (Some (Num 700))
  /\ (700 == 600 -> False)
  /\ option_map pending_amount
       (find_vendor 1
          (snd (post_transaction "1" (Sample.payment 1)
                  (mkDb [Sample.acme 2 1.1] [] 2 1 "2024-05-01"))))
     = Some (Some (Num 0.10000000000000009))
  /\ option_map pending_amount
       (find_vendor 1
          (snd (delete_transaction "1" "1"
                  (snd (post_transaction "1" (Sample.payment 1)
                          (mkDb [Sample.acme 2 1.1] [] 2 1 "2024-05-01"))))))
     = Some (Some (Num 1.10000000000000009))
  /\ (1.10000000000000009 == 1.1 -> False).
Proof.
  split; [vm_compute; reflexivity|].
  split; [vm_compute; reflexivity|].
  split; [vm_compute; reflexivity|].
  split; [intros H; lra|].
  split; [vm_compute; reflexivity|].
  split; [vm_compute; reflexivity|].
  intros H. vm_compute in H. discriminate.
Qed.

(** ** Listing the vendors *)

Lemma derived_status_comp (p t p' t' : Q) :
  p == p' -> t == t' -> derived_status p t = derived_status p' t'.
Proof.
  intros Hp Ht. unfold derived_status.
  order_cases; try reflexivity; exfalso; lra.
Qed.

(** Lines 315-321 on a pair of binary64 numbers with [P <= T]. *)
Lemma listed_status_derived (P T : Q) :
  P <= T -> listed_status (Num P) (Num T) = derived_status P T.
Proof.
  intros Hpt. unfold listed_status, derived_status; cbn [strict_eq lt].
  order_cases; try reflexivity; exfalso; lra.
Qed.

(** C7, as the code has it. The list-vendors handler annotates every row
    it returns with a status that depends on the pending and total
    amounts of the row only, as [parseFloat] reads them; for every pair
    with [pending <= total] it is the derived status of the specification
    on the two readings: Paid when the pending amount reads 0, Pending
    when it reads the same number as the total, Partial otherwise. For
    amounts that are binary64 numbers, it is the derived status of the
    stored pair. *)
Theorem list_vendors_status
        (scan : list vendor -> list vendor) (d : db) (v : vendor) (p t P T : Q) :
  (forall l, Permutation (scan l) l) ->
  In v (vendors d) ->
  pending_amount v = Some (Num p) -> total_amount v = Num t -> p <= t ->
  round p = Num P -> round t = Num T ->
  fst (get_vendors scan d)
  = mkResponse 200 (vendor_list (map (fun row => (row, listed row)) (scan (vendors d))))
  /\ snd (get_vendors scan d) = d
  /\ listed v = derived_status P T
  /\ (exists l, payload (fst (get_vendors scan d)) = vendor_list l
                /\ In (v, derived_status P T) l)
  /\ (P == p -> T == t -> listed v = derived_status p t).
Proof.
  intros Hscan Hin Hp Ht Hpt HP HT.
  assert (HPT : P <= T).
  { pose proof (round_mono p t Hpt) as H. rewrite HP, HT in H.
    now apply Qle_bool_iff in H. }
  assert (Hst : listed v = derived_status P T).
  { unfold listed. rewrite Hp, Ht. cbn [parseFloat_column].
    change (parseFloat_numeric (Num p)) with (round p).
    change (parseFloat_numeric (Num t)) with (round t).
    rewrite HP, HT. now apply listed_status_derived. }
  split; [reflexivity|]. split; [reflexivity|]. split; [exact Hst|].
  split.
  - eexists. split; [reflexivity|].
    rewrite <- Hst. apply in_map_iff. exists v. split; [reflexivity|].
    apply (Permutation_in v (Permutation_sym (Hscan (vendors d)))). exact Hin.
  - intros Ep Et. rewrite Hst. now apply derived_status_comp.
Qed.

Lemma list_vendors_status_witness :
  fst (get_vendors (fun l => l) Sample.owing_600)
  = mkResponse 200
      (vendor_list (map (fun row => (row, listed row)) (vendors Sample.owing_600)))
  /\ snd (get_vendors (fun l => l) Sample.owing_600) = Sample.owing_600
  /\ listed (Sample.acme 1000 600) = derived_status 600 1000
  /\ (exists l, payload (fst (get_vendors (fun l => l) Sample.owing_600)) = vendor_list l
                /\ In (Sample.acme 1000 600, derived_status 600 1000) l)
  /\ (600 == 600 -> 1000 == 1000
      -> listed (Sample.acme 1000 600) = derived_status 600 1000).
Proof.
  apply (list_vendors_status (fun l => l) Sample.owing_600 (Sample.acme 1000 600)
           600 1000 600 1000);
    [intros l; apply Permutation_refl | left; reflexivity | reflexivity | reflexivity
     | lra | vm_compute; reflexivity | vm_compute; reflexivity].
Defined.

(** C7 as stated fails in three ways. Off the invariant: a row with
    pending 700 and total 500 is listed as Pending, where the rule of the
    specification says Partial. On amounts that are not binary64 numbers:
    a row with pending 9007199254740992 and total 9007199254740993 is
    listed as Pending, both amounts reading as 2^53, where the rule says
    Partial. And outside the list: the vendor created with total 0 is
    answered as Pending, where the rule says Paid. *)
Lemma list_vendors_status_counterexample :
  fst (get_vendors (fun l => l) (mkDb [Sample.acme 500 700] [] 2 1 "2024-05-01"))
  = mkResponse 200 (vendor_list [(Sample.acme 500 700, Pending)])
  /\ derived_status 700 500 = Partial
  /\ fst (get_vendors (fun l => l)
            (mkDb [Sample.acme 9007199254740993 9007199254740992] [] 2 1 "2024-05-01"))
     = mkResponse 200
         (vendor_list [(Sample.acme 9007199254740993 9007199254740992, Pending)])
  /\ derived_status 9007199254740992 9007199254740993 = Partial
  /\ fst (post_vendor (Sample.new_vendor (Str "0")) None Sample.empty_store)
     = mkResponse 201
         (vendor_added
            (Some (mkVendor 1 (Some "Acme"%string) (Some "555"%string) None None
                            (Num 0) (Some (Num 0))))
            Pending)
  /\ derived_status 0 0 = Paid.
Proof. repeat split; vm_compute; reflexivity. Qed.

(** ** Editing a payment *)

(** The statement of lines 139-147 mentions [$5] and never [$4]: the type
    of its fourth parameter cannot be determined, whatever is bound. *)
Lemma UPDATE_transaction_throws (args : list param) (d : db) :
  UPDATE_transaction args d = Throw.
Proof.
  unfold UPDATE_transaction, prepare, prepared.
  cbn [highest fold_right Nat.max seq forallb existsb Nat.eqb orb andb].
  rewrite andb_false_r. reflexivity.
Qed.

(** So no run of the handler commits: the store is the one it started
    from and the answer is never 200. *)
Lemma put_transaction_rolls_back (s : string) (b : Req.body) (d : db) :
  snd (put_transaction s b d) = d
  /\ code (fst (put_transaction s b d)) <> 200%nat.
Proof.
  unfold put_transaction.
  destruct (parseInt s) as [tid|]; [|split; [reflexivity | discriminate]].
  destruct (isNaN _ || le _ _)%bool; [split; [reflexivity | discriminate]|].
  destruct (SELECT_transaction_FOR_UPDATE [PInt tid] d) as [[|tx ?]|];
    cbn [bind]; try (split; [reflexivity | discriminate]).
  destruct (SELECT_vendor [PInt (tx_vendor_id tx)] d) as [[|vendor ?]|];
    cbn [bind]; rewrite ?UPDATE_transaction_throws; cbn [bind];
    (split; [reflexivity | discriminate]).
Qed.

(** What the [SET] list of the statement would write: on every row of the
    table, the id, the vendor and the status stay. *)
Lemma SET_transaction_keeps_status
      (amt : num) (date nt : option string) (id : option Z) (ts : list transaction) :
  Forall2 same_snapshot ts
    (map (fun t => if id_is id (transaction_id t)
                   then SET_transaction amt date nt t else t) ts).
Proof.
  induction ts as [|t ts IH]; cbn [map]; constructor; [|exact IH].
  destruct (id_is id (transaction_id t)); repeat split.
Qed.

(** Lines 133-135 on binary64 numbers whose sum and difference need no
    rounding: the intended pending amount of an edit. *)
Lemma edited_pending_clamp (p old a t : Q) :
  add (Num p) (Num old) = Num (p + old) ->
  sub (Num (p + old)) (Num a) = Num (p + old - a) ->
  exists q, edited_pending (Num p) (Num old) (Num a) (Num t) = Num q
            /\ q == clamp (p + old - a) 0 t.
Proof.
  intros Hadd Hsub. unfold edited_pending, gt. rewrite Hadd, Hsub. cbn [lt].
  order_cases; cbn [lt]; order_cases;
    eexists; (split; [reflexivity|]); minmax_cases; lra.
Qed.

(** C5. The edit of a payment from 700 to 300 on the settled vendor of the
    sample run (total 1000, pending 0): the transaction and its vendor
    exist and the amount is positive, the arithmetic of lines 133-135
    gives [clamp (0 + 700 - 300) 0 1000 = 400], and the handler answers
    500 with the store unchanged, the pending amount still 0. *)
Theorem update_transaction_fails :
  find_transaction 2 Sample.settled = Some Sample.paid_700
  /\ find_vendor 1 Sample.settled = Some (Sample.acme 1000 0)
  /\ edited_pending (Num 0) (Num 700) (Num 300) (Num 1000) = Num 400
  /\ clamp (0 + 700 - 300) 0 1000 == 400
  /\ put_transaction "2" (Sample.payment 300) Sample.settled
     = (server_error, Sample.settled).
Proof.
  split; [reflexivity|]. split; [reflexivity|].
  split; [vm_compute; reflexivity|].
  split; [reflexivity|]. vm_compute; reflexivity.
Qed.


(** ** Updating a vendor *)

(** When the request carries no total, the two agree. *)
Lemma recompute_without_total (t : value) (n : value) (v : vendor) :
  truthy t = false -> recompute t n v = recompute_as_specified t n v.
Proof.
  intros Ht. unfold recompute, recompute_as_specified. rewrite Ht. reflexivity.
Qed.

Lemma to_text_or_stored (s stored : option string) :
  to_text (or_stored s stored) = Ok (merged_text s stored).
Proof.
  destruct s as [t|]; cbn; [destruct (truthy_string t)|];
    destruct stored; reflexivity.
Qed.

Lemma to_text_text_param (s : option string) : to_text (text_param s) = Ok s.
Proof. destruct s; reflexivity. Qed.

Lemma edited_row_id (vid : Z) (b : Req.body) (file : option Req.file)
      (r : recomputed) (v x : vendor) :
  vendor_id (edited_row vid b file r v x) = vendor_id x.
Proof. unfold edited_row. destruct (Z.eqb (vendor_id x) vid); reflexivity. Qed.

(** The path of [put_vendor] for a vendor that exists, written out: the
    vendor row is rewritten with the recomputed amounts, and a payment row
    is added exactly when the payment of the request is positive. *)
Lemma put_vendor_run (id : string) (b : Req.body) (file : option Req.file)
      (d : db) (vid : Z) (v : vendor) :
  integer_of_text id = Ok vid ->
  find_vendor vid d = Some v ->
  let r := recompute (Req.total_amount b) (defaulted (Req.new_paid_amount b)) v in
  put_vendor id b file d
  = (mkResponse 200
       (vendor_updated (Some (edited_row vid b file r v v)) (totalPaid r)
                       (new_status r)),
     if gt (paid r) (Num 0) then
       mkDb (map (edited_row vid b file r v) (vendors d))
            (transactions d ++ [payment_update vid r d])
            (next_vendor_id d) (next_transaction_id d + 1)%Z (NOW d)
     else
       mkDb (map (edited_row vid b file r v) (vendors d)) (transactions d)
            (next_vendor_id d) (next_transaction_id d) (NOW d)).
Proof.
  intros Hid Hv. cbv zeta. unfold put_vendor.
  rewrite SELECT_vendor_text, Hid. cbn [bind].
  pose proof Hv as Hf. unfold find_vendor in Hf. rewrite find_hd_filter in Hf.
  destruct (filter (fun v0 => Z.eqb (vendor_id v0) vid) (vendors d))
    as [|v0 rest] eqn:Efilter; [discriminate|].
  cbn in Hf. injection Hf as ->.
  set (r := recompute _ _ _).
  assert (Hbill : to_text (match file with
                           | Some f => PText (Req.path f)
                           | None => text_param (vendor_bill v)
                           end)
                  = Ok (match file with
                        | Some f => Some (Req.path f)
                        | None => vendor_bill v
                        end)).
  { destruct file; [reflexivity | apply to_text_text_param]. }
  unfold UPDATE_vendor. bind_args. cbn [to_integer].
  rewrite !to_text_or_stored, Hbill, Hid. cbn [bind id_is].
  change (fun v0 : vendor =>
            if Z.eqb (vendor_id v0) vid
            then mkVendor (vendor_id v0)
                   (merged_text (Req.vendor_name b) (vendor_name v))
                   (merged_text (Req.vendor_contact_number b) (vendor_contact_number v))
                   (merged_text (Req.vendor_address b) (vendor_address v))
                   (match file with
                    | Some f => Some (Req.path f)
                    | None => vendor_bill v
                    end) (printed (total r)) (Some (printed (new_pending_amount r)))
            else v0)
    with (edited_row vid b file r v).
  rewrite <- find_hd_filter.
  rewrite (find_vendor_map vid (edited_row vid b file r v)) by apply edited_row_id.
  fold (find_vendor vid d). rewrite Hv. cbn [option_map].
  destruct (gt (paid r) (Num 0)) eqn:Hpaid; [|reflexivity].
  unfold INSERT_payment. bind_args. cbn [to_integer].
  rewrite Hid. reflexivity.
Qed.

(** C4. Vendor 1 has total 1000 and pending 600, so 400 is paid; the
    request sets the total to 500 and pays nothing. As specified, 400 is
    already paid and the pending amount becomes [max (500 - 400) 0 = 100].
    The handler takes what is already paid against the new total: it
    finds -100, reports it as the paid amount, and leaves 600 pending. *)
Theorem update_vendor_already_paid :
  find_vendor 1 Sample.owing_600 = Some (Sample.acme 1000 600)
  /\ alreadyPaid (recompute_as_specified (Str "500") (Number (Num 0))
                    (Sample.acme 1000 600)) = Num 400
  /\ new_pending_amount (recompute_as_specified (Str "500") (Number (Num 0))
                           (Sample.acme 1000 600)) = Num 100
  /\ alreadyPaid (recompute (Str "500") (Number (Num 0)) (Sample.acme 1000 600))
     = Num (-100)
  /\ new_pending_amount (recompute (Str "500") (Number (Num 0))
                           (Sample.acme 1000 600)) = Num 600
  /\ put_vendor "1" (Sample.vendor_edit (Str "500") Undefined) None Sample.owing_600
     = (mkResponse 200
          (vendor_updated (Some (Sample.acme 500 600)) (Num (-100)) Partial),
        mkDb [Sample.acme 500 600] [Sample.paid_400] 2 2 "2024-05-01").
Proof. repeat split; vm_compute; reflexivity. Qed.

(** ** Creating a vendor *)

(** A request that fails one of the checks is answered 400 and nothing is
    stored. *)
Lemma post_vendor_rejects (b : Req.body) (file : option Req.file) (d : db) :
  well_formed b = false ->
  code (fst (post_vendor b file d)) = 400%nat /\ snd (post_vendor b file d) = d.
Proof.
  unfold well_formed, post_vendor. intros H.
  destruct (falsy_text (Req.vendor_name b)); [split; reflexivity|].
  destruct (falsy_text (Req.vendor_contact_number b)); [split; reflexivity|].
  destruct (truthy (Req.total_amount b)); [|split; reflexivity].
  cbn [negb orb andb] in *.
  destruct (isNaN (parseFloat (Req.total_amount b))); [split; reflexivity|].
  cbn [negb orb andb] in *.
  destruct (lt (parseFloat (Req.total_amount b)) (Num 0)); [split; reflexivity|].
  discriminate.
Qed.

Lemma well_formed_checks (b : Req.body) :
  well_formed b = true ->
  (falsy_text (Req.vendor_name b) || falsy_text (Req.vendor_contact_number b)
   || negb (truthy (Req.total_amount b)))%bool = false
  /\ (isNaN (parseFloat (Req.total_amount b))
      || lt (parseFloat (Req.total_amount b)) (Num 0))%bool = false.
Proof.
  unfold well_formed.
  destruct (falsy_text (Req.vendor_name b)),
    (falsy_text (Req.vendor_contact_number b)),
    (truthy (Req.total_amount b)),
    (isNaN (parseFloat (Req.total_amount b))),
    (lt (parseFloat (Req.total_amount b)) (Num 0));
    cbn; intros H; try discriminate; split; reflexivity.
Qed.

(** The successful path of [post_vendor], written out. *)
Lemma post_vendor_run (b : Req.body) (file : option Req.file) (d : db)
        (bill : option string) :
  well_formed b = true -> uploaded file = Ok bill ->
  let total := printed (parseFloat (Req.total_amount b)) in
  let row := mkVendor (next_vendor_id d) (Req.vendor_name b)
                      (Req.vendor_contact_number b) (Req.vendor_address b)
                      bill total (Some total) in
  post_vendor b file d
  = (mkResponse 201 (vendor_added (Some row) Pending),
     mkDb (vendors d ++ [row]) (transactions d) (next_vendor_id d + 1)%Z
          (next_transaction_id d) (NOW d)).
Proof.
  intros Hwf Hup. destruct (well_formed_checks b Hwf) as [H1 H2]. cbv zeta.
  unfold post_vendor. rewrite H1, H2.
  assert (Hbill : match file with
                  | Some f => url <- Req.secure_url f ;; Ok (PText url)
                  | None => Ok PNull
                  end = Ok (text_param bill)).
  { destruct file as [[path [url|]]|]; cbn in *; try discriminate;
      injection Hup as <-; reflexivity. }
  rewrite Hbill. unfold INSERT_vendor. bind_args.
  rewrite !to_text_text_param. reflexivity.
Qed.

(** The total [-5], sent as a number or as text, is rejected. *)
Lemma post_vendor_minus_five (file : option Req.file) (d : db) :
  post_vendor (Sample.new_vendor (Number (Num (-5)))) file d
  = (mkResponse 400 (error "Invalid total_amount"), d)
  /\ post_vendor (Sample.new_vendor (Str "-5")) file d
     = (mkResponse 400 (error "Invalid total_amount"), d).
Proof. split; vm_compute; reflexivity. Qed.

(** C6. A JSON request with a name, a contact and the total 0 is answered
    400, as if the total were missing, and nothing is stored: the number 0
    is falsy in the first check of the handler. The second check admits a
    total of zero, and the same total sent as the text "0" is accepted and
    stored with pending 0. *)
Theorem create_vendor_rejects_zero_total :
  post_vendor (Sample.new_vendor (Number (Num 0))) None Sample.empty_store
  = (mkResponse 400 (error "Name, contact, and total amount are required"),
     Sample.empty_store)
  /\ (isNaN (parseFloat (Number (Num 0)))
      || lt (parseFloat (Number (Num 0))) (Num 0))%bool = false
  /\ post_vendor (Sample.new_vendor (Str "0")) None Sample.empty_store
     = (mkResponse 201
          (vendor_added
             (Some (mkVendor 1 (Some "Acme"%string) (Some "555"%string) None None
                             (Num 0) (Some (Num 0))))
             Pending),
        mkDb [mkVendor 1 (Some "Acme"%string) (Some "555"%string) None None
                       (Num 0) (Some (Num 0))]
             [] 2 1 "2024-05-01").
Proof. repeat split; vm_compute; reflexivity. Qed.

(** ** The balance invariant *)

(** Editing a payment changes nothing, so it keeps every vendor balanced. *)
Lemma put_transaction_keeps_balanced (s : string) (b : Req.body) (d : db) :
  Forall balanced (vendors d) ->
  Forall balanced (vendors (snd (put_transaction s b d))).
Proof. now rewrite (proj1 (put_transaction_rolls_back s b d)). Qed.

(** Deleting a payment keeps every vendor balanced, whatever amount the
    deleted row carried: the statement bounds the sum by 0 and the total. *)
Lemma restore_row_balanced (vid : Z) (amt : num) (v : vendor) :
  balanced v -> balanced (restore_row vid amt v).
Proof.
  unfold restore_row. intros Hb. destruct (Z.eqb (vendor_id v) vid); [|exact Hb].
  unfold balanced in Hb.
  destruct (pending_amount v) as [[| |p]|] eqn:Hp; try contradiction.
  destruct (total_amount v) as [| |t] eqn:Ht; try contradiction.
  unfold balanced, restored_pending. cbn [pending_amount set_pending_amount total_amount].
  rewrite Hp, Ht. cbn [COALESCE].
  destruct amt as [|s|a]; cbn [numeric_add]; unfold GREATEST, LEAST; cbn [numeric_le].
  - cbn. lra.
  - destruct s; cbn [negb numeric_le]; order_cases; cbn [numeric_le];
      order_cases; lra.
  - order_cases; cbn [numeric_le]; order_cases; rewrite ?Qred_correct in *; lra.
Qed.

Lemma delete_transaction_keeps_balanced (sv st : string) (d : db) :
  Forall balanced (vendors d) ->
  Forall balanced (vendors (snd (delete_transaction sv st d))).
Proof.
  intros Hbal.
  destruct (delete_transaction_cases sv st d)
    as [[_ ->] | (vid & tid & row & rest & Hsv & Hst & Hv & Ht & Hrow)];
    [exact Hbal|].
  rewrite (delete_transaction_run sv st d vid tid row rest Hsv Hst Hv Ht Hrow).
  cbn [snd vendors]. apply Forall_forall. intros v' Hin.
  apply in_map_iff in Hin as (x & <- & Hx).
  apply restore_row_balanced. exact (proj1 (Forall_forall _ _) Hbal x Hx).
Qed.

(** C1. The invariant [0 <= pending <= total] holds of vendor 1 of the
    sample store (total 1000, pending 600); the update-vendor handler,
    asked to set the total to 500 with no new payment, answers 200 and
    stores total 500 with pending 600, which breaks it. The paths that
    edit and delete a payment bound the pending amount by the total
    (lines 135 and 291); this one only bounds it by 0. *)
Theorem update_vendor_breaks_invariant :
  find_vendor 1 Sample.owing_600 = Some (Sample.acme 1000 600)
  /\ balanced (Sample.acme 1000 600)
  /\ code (fst (put_vendor "1" (Sample.vendor_edit (Str "500") Undefined) None
                  Sample.owing_600)) = 200%nat
  /\ find_vendor 1
       (snd (put_vendor "1" (Sample.vendor_edit (Str "500") Undefined) None
               Sample.owing_600))
     = Some (Sample.acme 500 600)
  /\ (balanced (Sample.acme 500 600) -> False).
Proof.
  split; [reflexivity|]. split; [cbn; split; lra|].
  split; [vm_compute; reflexivity|]. split; [vm_compute; reflexivity|].
  cbn. intros [_ H]. lra.
Qed.

(** ** Serialisation of two add-transaction requests *)

(** Run on its own, the stepwise handler is the handler. *)
Lemma finish_accept (s : string) (b : Req.body) (d : db) :
  finish (accept s b) d
  = (Answered (fst (post_transaction s b d)), snd (post_transaction s b d)).
Proof.
  unfold accept, post_transaction.
  destruct (parseInt s) as [vid|]; [|reflexivity].
  destruct (isNaN _ || le _ _)%bool; [reflexivity|].
  unfold finish. cbn [advance].
  destruct (int4 vid) eqn:Hr;
    [|rewrite (SELECT_vendor_out_of_range vid d Hr); reflexivity].
  rewrite (SELECT_vendor_run vid d Hr). cbn [bind].
  destruct (filter _ (vendors d)) as [|vendor rest]; [reflexivity|].
  cbn [advance].
  destruct (paid_pending _ _ _) as [newPending status].
  rewrite (INSERT_transaction_run vid _ _ _ _ d Hr).
  destruct (stored_date (Req.transaction_date b) d) as [when|]; [|reflexivity].
  cbn [bind fst snd advance].
  rewrite !(UPDATE_vendor_pending_run _ vid _ Hr). cbn [bind fst snd advance].
  reflexivity.
Qed.

Lemma advance_not_begun (s : session) (d : db) : not_begun (fst (advance s d)).
Proof.
  destruct s; cbn [advance].
  - destruct (SELECT_vendor _ d) as [[|v l]|]; exact I.
  - destruct (paid_pending _ _ _).
    destruct (INSERT_transaction _ d) as [[rows d1]|]; exact I.
  - destruct (UPDATE_vendor_pending _ d) as [[rows d1]|]; exact I.
  - exact I.
  - exact I.
Qed.

Lemma advance_targets (vid : Z) (s : session) (d : db) :
  targets vid s -> targets vid (fst (advance s d)).
Proof.
  unfold targets. destruct s; cbn [advance row_of]; intros H.
  - destruct (SELECT_vendor _ d) as [[|v l]|]; [exact I | exact H | exact I].
  - destruct (paid_pending _ _ _).
    destruct (INSERT_transaction _ d) as [[rows d1]|]; [exact H | exact I].
  - destruct (UPDATE_vendor_pending _ d) as [[rows d1]|]; [exact H | exact I].
  - exact I.
  - exact I.
Qed.

Lemma advance_statements_left (s : session) (d : db) :
  (statements_left (fst (advance s d)) <= pred (statements_left s))%nat.
Proof.
  destruct s; cbn [advance].
  - destruct (SELECT_vendor _ d) as [[|v l]|]; cbn; lia.
  - destruct (paid_pending _ _ _).
    destruct (INSERT_transaction _ d) as [[rows d1]|]; cbn; lia.
  - destruct (UPDATE_vendor_pending _ d) as [[rows d1]|]; cbn; lia.
  - cbn; lia.
  - cbn; lia.
Qed.

(** After four statements a handler has answered. *)
Lemma finish_answered (s : session) (d : db) :
  answered (fst (finish s d)) = true.
Proof.
  unfold finish.
  pose proof (advance_statements_left s d) as H1.
  destruct (advance s d) as [s1 d1]. cbn [fst] in H1.
  pose proof (advance_statements_left s1 d1) as H2.
  destruct (advance s1 d1) as [s2 d2]. cbn [fst] in H2.
  pose proof (advance_statements_left s2 d2) as H3.
  destruct (advance s2 d2) as [s3 d3]. cbn [fst] in H3.
  pose proof (advance_statements_left s3 d3) as H4.
  destruct (advance s3 d3) as [s4 d4]. cbn [fst] in *.
  assert (Hs : (statements_left s <= 4)%nat) by (destruct s; cbn; lia).
  destruct s4; cbn in *; (reflexivity || lia).
Qed.

Lemma finish_of_answered (s : session) (d : db) :
  answered s = true -> finish s d = (s, d).
Proof. destruct s; try discriminate. reflexivity. Qed.

(** A step taken now or as the first of the four: the same answer. *)
Lemma finish_advance (s : session) (d : db) :
  finish (fst (advance s d)) (snd (advance s d)) = finish s d.
Proof.
  pose proof (finish_answered s d) as H. unfold finish in *.
  destruct (advance s d) as [s1 d1]. cbn [fst snd].
  destruct (advance s1 d1) as [s2 d2].
  destruct (advance s2 d2) as [s3 d3].
  destruct (advance s3 d3) as [s4 d4].
  cbn [fst] in H. destruct s4; try discriminate. reflexivity.
Qed.

Section TwoRequests.

Variable vid : Z.
Variable w0 : world.
Hypothesis first_fresh : fresh (first w0).
Hypothesis second_fresh : fresh (second w0).
Hypothesis first_targets : targets vid (first w0).
Hypothesis second_targets : targets vid (second w0).

(** A handler that has not started cannot start while the other one holds
    the row. *)
Lemma blocked_on_same_row (me other : session) :
  fresh me -> targets vid me -> targets vid other -> not_begun other ->
  answered other = false -> enabled me other = false.
Proof.
  unfold targets. destruct me; cbn; try contradiction; try reflexivity.
  destruct other; cbn; try contradiction; try discriminate;
    intros _ -> -> _ _; rewrite Z.eqb_refl; reflexivity.
Qed.

Lemma enabled_not_answered (me other : session) :
  enabled me other = true -> answered me = false.
Proof. destruct me; cbn; congruence. Qed.

(** One handler moves; the two orders read with the mover first and
    second. *)
Lemma mover_first (me other : session) (d : db) :
  snd (finish other (snd (finish (fst (advance me d)) (snd (advance me d)))))
  = snd (finish other (snd (finish me d))).
Proof. now rewrite finish_advance. Qed.

Lemma mover_second (me other : session) (d : db) :
  answered other = true ->
  snd (finish (fst (advance me d))
         (snd (finish other (snd (advance me d)))))
  = snd (finish me (snd (finish other d))).
Proof.
  intros Ha. rewrite !(finish_of_answered other _ Ha). cbn [snd].
  now rewrite finish_advance.
Qed.

Lemma step_serial (who : bool) (w : world) :
  serial vid w0 w -> serial vid w0 (step who w).
Proof.
  unfold step, serial. intros Hw.
  destruct who.
  - (* the first handler moves *)
    destruct (enabled (first w) (second w)) eqn:En; [|exact Hw].
    pose proof (mover_first (first w) (second w) (store w)) as Hfst.
    pose proof (mover_second (first w) (second w) (store w)) as Hsnd.
    pose proof (advance_not_begun (first w) (store w)) as Hnb.
    pose proof (advance_targets vid (first w) (store w)) as Htg.
    destruct (advance (first w) (store w)) as [s d]. cbn [fst snd] in *.
    unfold first_then_second, second_then_first in *. cbn [first second store].
    destruct Hw as [-> | [(H2 & Hn & Ht & Heq) | [(Ha & Heq) |
                   [(H1 & Hn & Ht & Heq) | (Ha & Heq)]]]].
    + right; left. repeat split; [exact Hnb | now apply Htg | exact Hfst].
    + right; left.
      repeat split; [exact H2 | exact Hnb | now apply Htg | congruence].
    + apply enabled_not_answered in En. congruence.
    + destruct (answered (second w)) eqn:Ha.
      * right; right; right; right. split; [reflexivity|].
        rewrite Hsnd by reflexivity. exact Heq.
      * rewrite blocked_on_same_row in En;
          [discriminate | now rewrite H1 | now rewrite H1 | assumption..].
    + right; right; right; right. split; [exact Ha|].
      rewrite Hsnd by exact Ha. exact Heq.
  - (* the second handler moves *)
    destruct (enabled (second w) (first w)) eqn:En; [|exact Hw].
    pose proof (mover_first (second w) (first w) (store w)) as Hfst.
    pose proof (mover_second (second w) (first w) (store w)) as Hsnd.
    pose proof (advance_not_begun (second w) (store w)) as Hnb.
    pose proof (advance_targets vid (second w) (store w)) as Htg.
    destruct (advance (second w) (store w)) as [s d]. cbn [fst snd] in *.
    unfold first_then_second, second_then_first in *. cbn [first second store].
    destruct Hw as [-> | [(H2 & Hn & Ht & Heq) | [(Ha & Heq) |
                   [(H1 & Hn & Ht & Heq) | (Ha & Heq)]]]].
    + right; right; right; left.
      repeat split; [exact Hnb | now apply Htg | exact Hfst].
    + destruct (answered (first w)) eqn:Ha.
      * right; right; left. split; [reflexivity|].
        rewrite Hsnd by reflexivity. exact Heq.
      * rewrite blocked_on_same_row in En;
          [discriminate | now rewrite H2 | now rewrite H2 | assumption..].
    + right; right; left. split; [exact Ha|].
      rewrite Hsnd by exact Ha. exact Heq.
    + right; right; right; left.
      repeat split; [exact H1 | exact Hnb | now apply Htg | congruence].
    + apply enabled_not_answered in En. congruence.
Qed.

Lemma run_serial (schedule : list bool) (w : world) :
  serial vid w0 w -> serial vid w0 (run schedule w).
Proof.
  revert w. induction schedule as [|who rest IH]; intros w Hw; cbn [run].
  - exact Hw.
  - apply IH. now apply step_serial.
Qed.

(** Once both have answered, the store is one of the two serial ones. *)
Lemma serial_finished (w : world) :
  serial vid w0 w -> finished w = true ->
  store w = first_then_second w0 \/ store w = second_then_first w0.
Proof.
  unfold finished. intros Hw Hfin. apply andb_prop in Hfin as [Ha1 Ha2].
  assert (H12 : first_then_second w = store w).
  { unfold first_then_second.
    now rewrite (finish_of_answered _ _ Ha1), (finish_of_answered _ _ Ha2). }
  assert (H21 : second_then_first w = store w).
  { unfold second_then_first.
    now rewrite (finish_of_answered _ _ Ha2), (finish_of_answered _ _ Ha1). }
  destruct Hw as [-> | [(_ & _ & _ & Heq) | [(_ & Heq) |
                 [(_ & _ & _ & Heq) | (_ & Heq)]]]].
  - left. now rewrite H12.
  - left. congruence.
  - left. congruence.
  - right. congruence.
  - right. congruence.
Qed.

End TwoRequests.

Lemma accept_fresh (s : string) (b : Req.body) : fresh (accept s b).
Proof.
  unfold accept. destruct (parseInt s); [|exact I].
  destruct (isNaN _ || le _ _)%bool; exact I.
Qed.

Lemma accept_targets (s : string) (b : Req.body) (vid : Z) :
  parseInt s = Some vid -> targets vid (accept s b).
Proof.
  unfold accept, targets. intros ->.
  destruct (isNaN _ || le _ _)%bool; [exact I | reflexivity].
Qed.

(** Every schedule after which two requests against one vendor have
    answered leaves the store of one of the two serial runs. *)
Lemma two_requests_serial (s1 s2 : string) (b1 b2 : Req.body) (d : db) (vid : Z)
      (schedule : list bool) :
  parseInt s1 = Some vid -> parseInt s2 = Some vid ->
  finished (run schedule (mkWorld d (accept s1 b1) (accept s2 b2))) = true ->
  store (run schedule (mkWorld d (accept s1 b1) (accept s2 b2)))
  = snd (post_transaction s2 b2 (snd (post_transaction s1 b1 d)))
  \/ store (run schedule (mkWorld d (accept s1 b1) (accept s2 b2)))
     = snd (post_transaction s1 b1 (snd (post_transaction s2 b2 d))).
Proof.
  intros H1 H2 Hfin.
  set (w0 := mkWorld d (accept s1 b1) (accept s2 b2)) in *.
  assert (Hserial : serial vid w0 (run schedule w0)).
  { apply (run_serial vid w0 (accept_fresh s1 b1) (accept_fresh s2 b2)
             (accept_targets s1 b1 vid H1) (accept_targets s2 b2 vid H2)).
    left. reflexivity. }
  destruct (serial_finished vid w0 _ Hserial Hfin) as [H | H]; [left | right];
    rewrite H; unfold first_then_second, second_then_first, w0;
    cbn [first second store]; rewrite !finish_accept; reflexivity.
Qed.

(** The pending amount two payments leave, one run after the other. *)
Lemma two_payments (s1 s2 : string) (b1 b2 : Req.body) (d : db) (vid : Z)
      (v : vendor) (P A1 A2 : Q) (when1 when2 : string) :
  parseInt s1 = Some vid -> parseInt s2 = Some vid -> int4 vid = true ->
  find_vendor vid d = Some v -> current_pending v = Num P ->
  parseFloat (Req.amount b1) = Num A1 -> 0 < A1 ->
  parseFloat (Req.amount b2) = Num A2 -> 0 < A2 ->
  stored_date (Req.transaction_date b1) d = Ok when1 ->
  stored_date (Req.transaction_date b2) d = Ok when2 ->
  option_map pending_amount
    (find_vendor vid (snd (post_transaction s2 b2 (snd (post_transaction s1 b1 d)))))
  = Some (Some (printed (pay (pay (Num P) (Num A1)) (Num A2)))).
Proof.
  intros Hs1 Hs2 Hr Hv HP Hb1 HA1 Hb2 HA2 Hw1 Hw2.
  assert (HPfix : round P = Num P).
  { unfold current_pending in HP.
    destruct (pending_amount v); exact (parseFloat_numeric_fix _ _ HP). }
  destruct (pay_value P A1 HPfix HA1) as (x & Hx & Hxfix).
  rewrite (post_transaction_run s1 b1 d vid v when1 Hs1 Hr
             (positive_amount_passes b1 A1 Hb1 HA1) Hw1 Hv).
  cbn [snd]. rewrite HP, Hb1, (paid_pending_pay (Num P) A1 _) by (now exists P).
  rewrite Hx.
  set (d1 := mkDb _ _ _ _ _).
  assert (Hv1 : find_vendor vid d1 = Some (pay_row vid (printed (Num x)) v)).
  { unfold find_vendor, d1. cbn [vendors].
    rewrite find_vendor_map by apply pay_row_id.
    fold (find_vendor vid d). now rewrite Hv. }
  assert (HP1 : current_pending (pay_row vid (printed (Num x)) v) = Num x).
  { unfold pay_row. rewrite (find_vendor_id vid d v Hv).
    unfold current_pending. cbn [pending_amount set_pending_amount].
    now apply read_back_printed. }
  rewrite (post_transaction_run s2 b2 d1 vid _ when2 Hs2 Hr
             (positive_amount_passes b2 A2 Hb2 HA2) Hw2 Hv1).
  cbn [snd]. rewrite HP1, Hb2, (paid_pending_pay (Num x) A2 _) by (now exists x).
  unfold find_vendor. cbn [vendors].
  rewrite find_vendor_map by apply pay_row_id.
  fold (find_vendor vid d1). rewrite Hv1. cbn [option_map].
  unfold pay_row at 1. rewrite pay_row_id, (find_vendor_id vid d v Hv).
  reflexivity.
Qed.

(** C9. Two add-transaction requests against the same vendor, their
    statements interleaved in any order, a handler waiting whenever its
    [SELECT ... FOR UPDATE] asks for the vendor row while the other holds
    its lock. Once both have answered, the store is the one that running
    the two handlers one after the other leaves, in one of the two orders,
    and the pending amount of the vendor is what the two payments leave of
    the pending amount read at the start, the one taken off and then the
    other, each difference rounded and bounded below by 0: no payment is
    lost. With total 1000 and pending 1000, payments of 300 and 400 leave
    300 on every schedule after which both have answered, and there is
    such a schedule, with the statements of the two handlers alternating. *)
Theorem concurrent_adds_serialize :
  (forall (s1 s2 : string) (b1 b2 : Req.body) (d : db) (vid : Z) (v : vendor)
          (P A1 A2 : Q) (when1 when2 : string) (schedule : list bool),
      parseInt s1 = Some vid -> parseInt s2 = Some vid -> int4 vid = true ->
      find_vendor vid d = Some v -> current_pending v = Num P ->
      parseFloat (Req.amount b1) = Num A1 -> 0 < A1 ->
      parseFloat (Req.amount b2) = Num A2 -> 0 < A2 ->
      stored_date (Req.transaction_date b1) d = Ok when1 ->
      stored_date (Req.transaction_date b2) d = Ok when2 ->
      finished (run schedule (mkWorld d (accept s1 b1) (accept s2 b2))) = true ->
      (store (run schedule (mkWorld d (accept s1 b1) (accept s2 b2)))
       = snd (post_transaction s2 b2 (snd (post_transaction s1 b1 d)))
       /\ option_map pending_amount
            (find_vendor vid
               (store (run schedule (mkWorld d (accept s1 b1) (accept s2 b2)))))
          = Some (Some (printed (pay (pay (Num P) (Num A1)) (Num A2)))))
      \/ (store (run schedule (mkWorld d (accept s1 b1) (accept s2 b2)))
          = snd (post_transaction s1 b1 (snd (post_transaction s2 b2 d)))
          /\ option_map pending_amount
               (find_vendor vid
                  (store (run schedule (mkWorld d (accept s1 b1) (accept s2 b2)))))
             = Some (Some (printed (pay (pay (Num P) (Num A2)) (Num A1))))))
  /\ (forall schedule : list bool,
        finished (run schedule
                    (mkWorld (Sample.unpaid 1000)
                             (accept "1" (Sample.payment 300))
                             (accept "1" (Sample.payment 400)))) = true ->
        option_map pending_amount
          (find_vendor 1
             (store (run schedule
                       (mkWorld (Sample.unpaid 1000)
                                (accept "1" (Sample.payment 300))
                                (accept "1" (Sample.payment 400))))))
        = Some (Some (Num 300)))
  /\ finished (run [true; false; true; false; true; true; false; false; false; false]
                 (mkWorld (Sample.unpaid 1000)
                          (accept "1" (Sample.payment 300))
                          (accept "1" (Sample.payment 400)))) = true.
Proof.
  split; [|split].
  - intros s1 s2 b1 b2 d vid v P A1 A2 when1 when2 schedule
           Hs1 Hs2 Hr Hv HP Hb1 HA1 Hb2 HA2 Hw1 Hw2 Hfin.
    destruct (two_requests_serial s1 s2 b1 b2 d vid schedule Hs1 Hs2 Hfin)
      as [H | H]; [left | right]; (split; [exact H|]); rewrite H.
    + exact (two_payments s1 s2 b1 b2 d vid v P A1 A2 when1 when2
               Hs1 Hs2 Hr Hv HP Hb1 HA1 Hb2 HA2 Hw1 Hw2).
    + exact (two_payments s2 s1 b2 b1 d vid v P A2 A1 when2 when1
               Hs2 Hs1 Hr Hv HP Hb2 HA2 Hb1 HA1 Hw2 Hw1).
  - intros schedule Hfin.
    destruct (two_requests_serial
                "1" "1" (Sample.payment 300) (Sample.payment 400)
                (Sample.unpaid 1000) 1 schedule eq_refl eq_refl Hfin) as [-> | ->];
      vm_compute; reflexivity.
  - vm_compute; reflexivity.
Qed.

Lemma concurrent_adds_serialize_witness :
  (store (run [true; false; true; false; true; true; false; false; false; false]
            (mkWorld (Sample.unpaid 1000)
                     (accept "1" (Sample.payment 300))
                     (accept "1" (Sample.payment 400))))
   = snd (post_transaction "1" (Sample.payment 400)
            (snd (post_transaction "1" (Sample.payment 300) (Sample.unpaid 1000))))
   /\ option_map pending_amount
        (find_vendor 1
           (store (run [true; false; true; false; true; true; false; false; false;
                        false]
                     (mkWorld (Sample.unpaid 1000)
                              (accept "1" (Sample.payment 300))
                              (accept "1" (Sample.payment 400))))))
      = Some (Some (printed (pay (pay (Num 1000) (Num 300)) (Num 400)))))
  \/ (store (run [true; false; true; false; true; true; false; false; false; false]
               (mkWorld (Sample.unpaid 1000)
                        (accept "1" (Sample.payment 300))
                        (accept "1" (Sample.payment 400))))
      = snd (post_transaction "1" (Sample.payment 300)
               (snd (post_transaction "1" (Sample.payment 400) (Sample.unpaid 1000))))
      /\ option_map pending_amount
           (find_vendor 1
              (store (run [true; false; true; false; true; true; false; false; false;
                           false]
                        (mkWorld (Sample.unpaid 1000)
                                 (accept "1" (Sample.payment 300))
                                 (accept "1" (Sample.payment 400))))))
         = Some (Some (printed (pay (pay (Num 1000) (Num 400)) (Num 300))))).
Proof.
  apply (proj1 concurrent_adds_serialize
           "1"%string "1"%string (Sample.payment 300) (Sample.payment 400)
           (Sample.unpaid 1000) 1%Z (Sample.acme 1000 1000) 1000 300 400
           "2024-05-01"%string "2024-05-01"%string
           [true; false; true; false; true; true; false; false; false; false]);
    try (vm_compute; reflexivity); lra.
Defined.

(** A handler whose partner holds no row takes its turn. *)
Lemma turn_of_first (d : db) (f s : session) :
  locked_row s = None ->
  step true (mkWorld d f s)
  = mkWorld (snd (advance f d)) (fst (advance f d)) s.
Proof.
  intros Hfree. unfold step. cbn [first second store].
  destruct f; cbn [enabled asks_for]; rewrite ?Hfree;
    try (destruct (advance _ d); reflexivity); reflexivity.
Qed.

Lemma turn_of_second (d : db) (f s : session) :
  locked_row f = None ->
  step false (mkWorld d f s)
  = mkWorld (snd (advance s d)) f (fst (advance s d)).
Proof.
  intros Hfree. unfold step. cbn [first second store].
  destruct s; cbn [enabled asks_for]; rewrite ?Hfree;
    try (destruct (advance _ d); reflexivity); reflexivity.
Qed.

Lemma answered_holds_nothing (s : session) :
  answered s = true -> locked_row s = None.
Proof. destruct s; try discriminate. reflexivity. Qed.

Lemma fresh_holds_nothing (s : session) : fresh s -> locked_row s = None.
Proof. destruct s; try contradiction; reflexivity. Qed.

(** There is no deadlock: given four turns each, one after the other, both
    handlers answer. *)
Lemma serial_schedule_finishes (w : world) :
  fresh (second w) ->
  finished (run [true; true; true; true; false; false; false; false] w) = true.
Proof.
  destruct w as [d f s]. cbn [first second]. intros Hs.
  apply fresh_holds_nothing in Hs.
  pose proof (finish_answered f d) as Ha. unfold finish in Ha.
  cbn [run]. rewrite !(turn_of_first _ _ s Hs).
  destruct (advance f d) as [f1 d1]. cbn [fst snd] in *.
  destruct (advance f1 d1) as [f2 d2]. cbn [fst snd] in *.
  destruct (advance f2 d2) as [f3 d3]. cbn [fst snd] in *.
  destruct (advance f3 d3) as [f4 d4]. cbn [fst snd] in *.
  pose proof (answered_holds_nothing f4 Ha) as Hfree.
  pose proof (finish_answered s d4) as Hb. unfold finish in Hb.
  rewrite !(turn_of_second _ f4 _ Hfree).
  destruct (advance s d4) as [s1 e1]. cbn [fst snd] in *.
  destruct (advance s1 e1) as [s2 e2]. cbn [fst snd] in *.
  destruct (advance s2 e2) as [s3 e3]. cbn [fst snd] in *.
  destruct (advance s3 e3) as [s4 e4]. cbn [fst snd] in *.
  unfold finished. cbn [first second]. now rewrite Ha, Hb.
Qed.

(** The wait is what rules the lost update out. Were the second handler
    let through while the first holds the row, both would read pending
    1000, and the second write, 1000 - 400, would erase the first. *)
Lemma lost_update_without_the_wait :
  let d := Sample.unpaid 1000 in
  let '(f1, d1) := advance (accept "1" (Sample.payment 300)) d in
  let '(s1, d2) := advance (accept "1" (Sample.payment 400)) d1 in
  let '(f2, d3) := advance f1 d2 in
  let '(f3, d4) := advance f2 d3 in
  let '(f4, d5) := advance f3 d4 in
  let '(s2, d6) := advance s1 d5 in
  let '(s3, d7) := advance s2 d6 in
  let '(s4, d8) := advance s3 d7 in
  enabled (accept "1" (Sample.payment 400)) f1 = false
  /\ answered f4 = true /\ answered s4 = true
  /\ option_map pending_amount (find_vendor 1 d8) = Some (Some (Num 600)).
Proof. vm_compute. repeat split. Qed.

(** ** Further lemmas on the handlers *)


Lemma printed_not_NaN (n : num) : isNaN (printed n) = isNaN n.
Proof. destruct n; reflexivity. Qed.

Lemma pay_row_frame (vid : Z) (n : num) (vs : list vendor) :
  Forall2 (fun x x' => same_but_pending x x' /\ (vendor_id x <> vid -> x' = x))
          vs (map (pay_row vid n) vs).
Proof.
  induction vs as [|x vs IH]; cbn [map]; constructor; [|exact IH].
  unfold pay_row. destruct (Z.eqb (vendor_id x) vid) eqn:E.
  - split; [repeat split|]. apply Z.eqb_eq in E. intros H. contradiction.
  - split; [repeat split | reflexivity].
Qed.

Lemma restore_row_frame (vid : Z) (n : num) (vs : list vendor) :
  Forall2 (fun x x' => same_but_pending x x' /\ (vendor_id x <> vid -> x' = x))
          vs (map (restore_row vid n) vs).
Proof.
  induction vs as [|x vs IH]; cbn [map]; constructor; [|exact IH].
  unfold restore_row. destruct (Z.eqb (vendor_id x) vid) eqn:E.
  - split; [repeat split|]. apply Z.eqb_eq in E. intros H. contradiction.
  - split; [repeat split | reflexivity].
Qed.

Lemma edited_row_frame (vid : Z) (b : Req.body) (file : option Req.file)
      (r : recomputed) (v : vendor) (vs : list vendor) :
  Forall2 (fun x x' => vendor_id x' = vendor_id x /\ (vendor_id x <> vid -> x' = x))
          vs (map (edited_row vid b file r v) vs).
Proof.
  induction vs as [|x vs IH]; cbn [map]; constructor; [|exact IH].
  unfold edited_row. destruct (Z.eqb (vendor_id x) vid) eqn:E.
  - split; [reflexivity|]. apply Z.eqb_eq in E. intros H. contradiction.
  - split; reflexivity.
Qed.

Lemma same_but_pending_refl (vs : list vendor) : Forall2 same_but_pending vs vs.
Proof. induction vs; constructor; [repeat split | assumption]. Qed.

Lemma merged_text_cases (s stored : option string) :
  merged_text s stored = if falsy_text s then stored else s.
Proof.
  destruct s as [x|]; cbn; [|reflexivity]. destruct (truthy_string x); reflexivity.
Qed.

Lemma find_app_fresh (vid : Z) (vs : list vendor) (row : vendor) :
  Forall (fun v => vendor_id v <> vid) vs -> vendor_id row = vid ->
  find (fun v => Z.eqb (vendor_id v) vid) (vs ++ [row]) = Some row
  /\ filter (fun v => negb (Z.eqb (vendor_id v) vid)) (vs ++ [row]) = vs.
Proof.
  intros Hfresh Hrow. induction Hfresh as [|x vs Hx _ [IH1 IH2]]; cbn.
  - rewrite Hrow, Z.eqb_refl. split; reflexivity.
  - apply Z.eqb_neq in Hx. rewrite Hx. cbn. rewrite IH2. split; [exact IH1 | reflexivity].
Qed.

Lemma db_eta (d : db) :
  with_vendors d (vendors d) = d.
Proof. destruct d; reflexivity. Qed.

Lemma get_vendor_run (scan : list transaction -> list transaction)
      (id : string) (d : db) :
  get_vendor scan id d
  = match integer_of_text id with
    | Throw => (mkVendorResponse 500 (error_body "Server error"), d)
    | Ok vid =>
        match find_vendor vid d with
        | None => (mkVendorResponse 404 (error_body "Vendor not found"), d)
        | Some v =>
            (mkVendorResponse 200 (vendor_with_transactions v (scan (history vid d))), d)
        end
    end.
Proof.
  unfold get_vendor. rewrite SELECT_vendor_text.
  destruct (integer_of_text id) as [vid|] eqn:Hid; [|reflexivity]. cbn [bind].
  unfold find_vendor. rewrite find_hd_filter.
  destruct (filter _ (vendors d)) as [|v rest]; [reflexivity|]. cbn [hd_error].
  unfold SELECT_transactions_of_vendor. bind_args. cbn [to_integer].
  rewrite Hid. reflexivity.
Qed.

Lemma delete_vendor_run (id : string) (d : db) :
  delete_vendor id d
  = match integer_of_text id with
    | Throw => (mkVendorResponse 500 (message_body "Server error"), d)
    | Ok vid =>
        match find_vendor vid d with
        | None =>
            (mkVendorResponse 404 (message_body "Vendor not found"),
             with_vendors d (other_vendors vid d))
        | Some v =>
            (mkVendorResponse 200 (vendor_deleted (Some v)),
             with_vendors d (other_vendors vid d))
        end
    end.
Proof.
  unfold delete_vendor, DELETE_vendor. bind_args. cbn [to_integer].
  destruct (integer_of_text id) as [vid|]; [|reflexivity]. cbn [bind id_is].
  unfold find_vendor, other_vendors. rewrite find_hd_filter.
  destruct (filter (fun v => Z.eqb (vendor_id v) vid) (vendors d)) as [|v rest];
    reflexivity.
Qed.

Lemma other_vendors_lookup (vid : Z) (d : db) :
  find_vendor vid (with_vendors d (other_vendors vid d)) = None.
Proof.
  unfold find_vendor, other_vendors. cbn [vendors with_vendors].
  destruct (find _ _) as [x|] eqn:E; [|reflexivity].
  apply find_some in E as [Hin Hx]. apply filter_In in Hin as [_ Hne].
  rewrite Hx in Hne. discriminate.
Qed.

Lemma other_vendors_none (vid : Z) (d : db) :
  find_vendor vid d = None -> other_vendors vid d = vendors d.
Proof.
  unfold find_vendor, other_vendors. intros H.
  induction (vendors d) as [|x l IH]; [reflexivity|].
  cbn in *. destruct (Z.eqb (vendor_id x) vid); [discriminate|].
  cbn. f_equal. now apply IH.
Qed.

(** The status of the list for a row whose pending amount is its total,
    both as the router stored them. *)
Lemma listed_unpaid (n : num) :
  (forall q, n = Num q -> round q = Num q) -> isNaN n = false ->
  listed_status (parseFloat_numeric (printed n)) (parseFloat_numeric (printed n))
  = if strict_eq n (Num 0) then Paid else Pending.
Proof.
  intros Hfix Hnan. destruct n as [|[|]|x]; [discriminate | reflexivity | reflexivity |].
  change (parseFloat_numeric (printed (Num x))) with (round (to_decimal x)).
  rewrite (to_decimal_reads_back x (Hfix x eq_refl)).
  unfold listed_status. cbn [strict_eq lt].
  destruct (Qeq_bool x 0); [reflexivity|].
  destruct (Qlt_bool x x) eqn:E; [|reflexivity].
  apply Qlt_bool_iff in E. lra.
Qed.

(** ** What each handler answers *)




(** X4. The update-vendor handler does not check the id of the URL: an id
    that the server does not read as an integer of the column, because it
    is no integer or is out of range, makes the first statement fail and
    the answer is 500; the answer is 404 when no vendor has the id and 200
    otherwise, and unless it is 200 the store is as it was. *)
Theorem put_vendor_answer (id : string) (b : Req.body) (file : option Req.file)
        (d : db) :
  code (fst (put_vendor id b file d))
  = match integer_of_text id with
    | Throw => 500%nat
    | Ok vid =>
        match find_vendor vid d with
        | None => 404%nat
        | Some _ => 200%nat
        end
    end
  /\ (code (fst (put_vendor id b file d)) <> 200%nat ->
      snd (put_vendor id b file d) = d).
Proof.
  destruct (integer_of_text id) as [vid|] eqn:Hid.
  - destruct (find_vendor vid d) as [v|] eqn:Hv.
    + rewrite (put_vendor_run id b file d vid v Hid Hv). cbn [fst snd code].
      split; [reflexivity | congruence].
    + unfold put_vendor. rewrite SELECT_vendor_text, Hid. cbn [bind].
      rewrite (find_none_filter _ _ Hv). split; reflexivity.
  - unfold put_vendor. rewrite SELECT_vendor_text, Hid. split; reflexivity.
Qed.

(** X15. Reading one vendor never changes the store. The id of the URL is
    not checked: one that the server does not read as an integer of the
    column makes the query fail and the answer is 500. The answer is 404
    when no vendor has the id; otherwise it is 200 with the vendor row
    and exactly the transactions that refer to the vendor, in the order
    in which the server returns them. *)
Theorem get_vendor_answer (scan : list transaction -> list transaction)
        (id : string) (d : db) :
  (forall l, Permutation (scan l) l) ->
  snd (get_vendor scan id d) = d
  /\ match integer_of_text id with
     | Throw => vendor_code (fst (get_vendor scan id d)) = 500%nat
     | Ok vid =>
         match find_vendor vid d with
         | None => vendor_code (fst (get_vendor scan id d)) = 404%nat
         | Some v =>
             exists rows,
               fst (get_vendor scan id d)
               = mkVendorResponse 200 (vendor_with_transactions v rows)
               /\ Permutation rows (history vid d)
               /\ (forall t, In t rows <-> In t (transactions d) /\ tx_vendor_id t = vid)
         end
     end.
Proof.
  intros Hscan. rewrite get_vendor_run.
  destruct (integer_of_text id) as [vid|]; [|split; reflexivity].
  destruct (find_vendor vid d) as [v|]; [|split; reflexivity].
  split; [reflexivity|]. exists (scan (history vid d)).
  split; [reflexivity|]. split; [apply Hscan|].
  intros t. split.
  - intros H. apply (Permutation_in t (Hscan _)) in H.
    unfold history in H. now rewrite filter_In, Z.eqb_eq in H.
  - intros H. apply (Permutation_in t (Permutation_sym (Hscan _))).
    unfold history. now rewrite filter_In, Z.eqb_eq.
Qed.

Lemma get_vendor_answer_witness :
  snd (get_vendor (@rev transaction) "1" Sample.settled) = Sample.settled
  /\ match integer_of_text "1" with
     | Throw =>
         vendor_code (fst (get_vendor (@rev transaction) "1" Sample.settled)) = 500%nat
     | Ok vid =>
         match find_vendor vid Sample.settled with
         | None =>
             vendor_code (fst (get_vendor (@rev transaction) "1" Sample.settled))
             = 404%nat
         | Some v =>
             exists rows,
               fst (get_vendor (@rev transaction) "1" Sample.settled)
               = mkVendorResponse 200 (vendor_with_transactions v rows)
               /\ Permutation rows (history vid Sample.settled)
               /\ (forall t, In t rows
                             <-> In t (transactions Sample.settled)
                                 /\ tx_vendor_id t = vid)
         end
     end.
Proof.
  apply (get_vendor_answer (@rev transaction) "1" Sample.settled).
  intros l. apply Permutation_sym, Permutation_rev.
Defined.

(** X18. Removing a vendor never validates the id of the URL and answers
    its failures as [{ message }]: an id that the server does not read as
    an integer of the column makes the statement fail and the answer is
    500, an id no vendor has is answered 404, and in both cases the store
    is as it was; an id a vendor has is never answered 404. *)
Theorem delete_vendor_refuses (id : string) (d : db) :
  match integer_of_text id with
  | Throw =>
      delete_vendor id d = (mkVendorResponse 500 (message_body "Server error"), d)
  | Ok vid =>
      match find_vendor vid d with
      | None =>
          delete_vendor id d
          = (mkVendorResponse 404 (message_body "Vendor not found"), d)
      | Some _ => vendor_code (fst (delete_vendor id d)) <> 404%nat
      end
  end.
Proof.
  rewrite delete_vendor_run.
  destruct (integer_of_text id) as [vid|]; [|reflexivity].
  destruct (find_vendor vid d) eqn:Hv; [cbn; discriminate|].
  rewrite (other_vendors_none vid d Hv), db_eta. reflexivity.
Qed.

(** ** What the handlers store *)

(** X6. A well-formed creation whose file, if any, the media store takes
    appends one row to [vendors] and leaves the rest of the store alone:
    the row has the next serial id, the name, contact and address of the
    request, the URL of the uploaded file (or no bill), and for its total
    and its pending amount the binary64 number [parseFloat] reads in the
    request, sent as its shortest decimal text; that number is not NaN
    and not negative. *)
Theorem post_vendor_stores (b : Req.body) (file : option Req.file) (d : db)
        (bill : option string) :
  well_formed b = true -> uploaded file = Ok bill ->
  exists total,
    total = printed (parseFloat (Req.total_amount b))
    /\ isNaN total = false
    /\ lt (parseFloat (Req.total_amount b)) (Num 0) = false
    /\ post_vendor b file d
       = (mkResponse 201
            (vendor_added
               (Some (mkVendor (next_vendor_id d) (Req.vendor_name b)
                               (Req.vendor_contact_number b) (Req.vendor_address b)
                               bill total (Some total)))
               Pending),
          mkDb (vendors d
                ++ [mkVendor (next_vendor_id d) (Req.vendor_name b)
                             (Req.vendor_contact_number b) (Req.vendor_address b)
                             bill total (Some total)])
               (transactions d) (next_vendor_id d + 1)%Z
               (next_transaction_id d) (NOW d)).
Proof.
  intros Hwf Hup. eexists. split; [reflexivity|].
  destruct (well_formed_checks b Hwf) as [_ H2].
  apply orb_false_elim in H2 as [Hnan Hneg].
  split; [now rewrite printed_not_NaN|]. split; [exact Hneg|].
  exact (post_vendor_run b file d bill Hwf Hup).
Qed.

Lemma post_vendor_stores_witness :
  exists total,
    total = printed (parseFloat (Req.total_amount
                                   (Sample.new_vendor (Str "9007199254740993"))))
    /\ isNaN total = false
    /\ lt (parseFloat (Req.total_amount (Sample.new_vendor (Str "9007199254740993"))))
          (Num 0) = false
    /\ post_vendor (Sample.new_vendor (Str "9007199254740993"))
         (Some (Req.mkFile "temp/abc" (Ok "https://media/bill.png"%string)))
         Sample.owing_600
       = (mkResponse 201
            (vendor_added
               (Some (mkVendor 2 (Some "Acme"%string) (Some "555"%string) None
                               (Some "https://media/bill.png"%string)
                               total (Some total)))
               Pending),
          mkDb (vendors Sample.owing_600
                ++ [mkVendor 2 (Some "Acme"%string) (Some "555"%string) None
                             (Some "https://media/bill.png"%string)
                             total (Some total)])
               (transactions Sample.owing_600) 3 2 "2024-05-01").
Proof.
  apply (post_vendor_stores (Sample.new_vendor (Str "9007199254740993"))
           (Some (Req.mkFile "temp/abc" (Ok "https://media/bill.png"%string)))
           Sample.owing_600 (Some "https://media/bill.png"%string));
    vm_compute; reflexivity.
Defined.

(** X7. A payment that is accepted adds exactly one row to
    [transactions], with the next serial id, the vendor, the amount as
    [parseFloat] read it, the note of the request, the date the server
    read in the request (its clock when none is given) and the status
    that is answered; it leaves every vendor row as it was but for the
    pending amount of the vendor paid. Accepted means: an id of the range
    of the column that a vendor has, a positive amount, and a date the
    server can read. *)
Theorem post_transaction_appends
        (s : string) (b : Req.body) (d : db) (vid : Z) (a : Q) (v : vendor)
        (when : string) :
  parseInt s = Some vid -> int4 vid = true ->
  parseFloat (Req.amount b) = Num a -> 0 < a ->
  stored_date (Req.transaction_date b) d = Ok when ->
  find_vendor vid d = Some v ->
  exists st,
    code (fst (post_transaction s b d)) = 201%nat
    /\ reported_status (fst (post_transaction s b d)) = Some st
    /\ transactions (snd (post_transaction s b d))
       = transactions d
         ++ [mkTransaction (next_transaction_id d) vid when (printed (Num a))
               (stored_text (Req.note b)) (Some (status_text st))]
    /\ next_transaction_id (snd (post_transaction s b d))
       = (next_transaction_id d + 1)%Z
    /\ Forall2 (fun x x' => same_but_pending x x' /\ (vendor_id x <> vid -> x' = x))
               (vendors d) (vendors (snd (post_transaction s b d))).
Proof.
  intros Hs Hr Ha Hpos Hdate Hv.
  rewrite (post_transaction_run s b d vid v when Hs Hr
             (positive_amount_passes b a Ha Hpos) Hdate Hv).
  rewrite Ha.
  eexists. cbn [fst snd code transactions next_transaction_id vendors].
  split; [reflexivity|]. split; [reflexivity|]. split; [reflexivity|].
  split; [reflexivity|]. apply pay_row_frame.
Qed.

Lemma post_transaction_appends_witness :
  exists st,
    code (fst (post_transaction "1"
                 Sample.cash_in_june
                 Sample.owing_600)) = 201%nat
    /\ reported_status
         (fst (post_transaction "1"
                 Sample.cash_in_june
                 Sample.owing_600)) = Some st
    /\ transactions
         (snd (post_transaction "1"
                 Sample.cash_in_june
                 Sample.owing_600))
       = transactions Sample.owing_600
         ++ [mkTransaction 2 1 "2024-06-01 00:00:00+00"
               (printed (Num (3602879701896397 # 36028797018963968)))
               (Some "cash"%string) (Some (status_text st))]
    /\ next_transaction_id
         (snd (post_transaction "1"
                 Sample.cash_in_june
                 Sample.owing_600))
       = 3%Z
    /\ Forall2 (fun x x' => same_but_pending x x' /\ (vendor_id x <> 1%Z -> x' = x))
               (vendors Sample.owing_600)
               (vendors
                  (snd (post_transaction "1"
                          Sample.cash_in_june
                          Sample.owing_600))).
Proof.
  apply (post_transaction_appends "1"
           Sample.cash_in_june
           Sample.owing_600 1 (3602879701896397 # 36028797018963968)
           (Sample.acme 1000 600) "2024-06-01 00:00:00+00");
    vm_compute; reflexivity.
Defined.

(** X22. A vendor whose pending amount is NULL is taken to owe its whole
    total: an accepted payment stores what the payment leaves of the
    total as [parseFloat] reads it, the difference rounded to binary64
    and bounded below by 0, and reports as overpayment what the total
    leaves of the payment. *)
Theorem post_transaction_null_pending
        (s : string) (b : Req.body) (d : db) (vid : Z) (v : vendor) (t T a : Q)
        (when : string) :
  parseInt s = Some vid -> int4 vid = true ->
  parseFloat (Req.amount b) = Num a -> 0 < a ->
  stored_date (Req.transaction_date b) d = Ok when ->
  find_vendor vid d = Some v ->
  pending_amount v = None -> total_amount v = Num t -> round t = Num T ->
  find_vendor vid (snd (post_transaction s b d))
  = Some (set_pending_amount v (Some (printed (pay (Num T) (Num a)))))
  /\ reported_overpayment (fst (post_transaction s b d))
     = Some (max (sub (Num a) (Num T)) (Num 0)).
Proof.
  intros Hs Hr Ha Hpos Hdate Hv Hp Ht HT.
  rewrite (post_transaction_run s b d vid v when Hs Hr
             (positive_amount_passes b a Ha Hpos) Hdate Hv).
  assert (Hcur : current_pending v = Num T).
  { unfold current_pending. rewrite Hp, Ht. exact HT. }
  rewrite Hcur, Ha, (paid_pending_pay (Num T) a _) by (now exists T).
  rewrite overpaid_max.
  cbn [fst snd]. unfold find_vendor, reported_overpayment. cbn [vendors payload].
  rewrite find_vendor_map by apply pay_row_id.
  fold (find_vendor vid d). rewrite Hv. cbn [option_map].
  unfold pay_row. rewrite (find_vendor_id vid d v Hv). split; reflexivity.
Qed.

Lemma post_transaction_null_pending_witness :
  find_vendor 1
    (snd (post_transaction "1" (Sample.payment 1)
            (mkDb [mkVendor 1 (Some "Acme"%string) (Some "555"%string) None None
                            (Num 1.1) None]
                  [] 2 1 "2024-05-01")))
  = Some (set_pending_amount
            (mkVendor 1 (Some "Acme"%string) (Some "555"%string) None None
                      (Num 1.1) None)
            (Some (printed (pay (Num (2476979795053773 # 2251799813685248)) (Num 1)))))
  /\ reported_overpayment
       (fst (post_transaction "1" (Sample.payment 1)
               (mkDb [mkVendor 1 (Some "Acme"%string) (Some "555"%string) None None
                               (Num 1.1) None]
                     [] 2 1 "2024-05-01")))
     = Some (max (sub (Num 1) (Num (2476979795053773 # 2251799813685248))) (Num 0)).
Proof.
  apply (post_transaction_null_pending "1" (Sample.payment 1)
           (mkDb [mkVendor 1 (Some "Acme"%string) (Some "555"%string) None None
                           (Num 1.1) None]
                 [] 2 1 "2024-05-01")
           1
           (mkVendor 1 (Some "Acme"%string) (Some "555"%string) None None
                     (Num 1.1) None)
           1.1 (2476979795053773 # 2251799813685248) 1 "2024-05-01");
    vm_compute; reflexivity.
Defined.

(** The pending amount of that run: 1.1 less 1 is stored as
    0.10000000000000009. *)
Lemma null_pending_rounds :
  printed (pay (Num (2476979795053773 # 2251799813685248)) (Num 1))
  = Num 0.10000000000000009.
Proof. vm_compute; reflexivity. Qed.

(** X13. An update of a vendor that exists keeps its id and every other
    vendor row; a name, contact or address that the request leaves out or
    sends empty keeps the stored value, and one that it sends replaces it.
    The bill becomes the local path the upload middleware gave the file,
    when the request has one (nothing is sent to the media store on this
    path), and is kept otherwise. *)
Theorem put_vendor_merges
        (id : string) (b : Req.body) (file : option Req.file) (d : db)
        (vid : Z) (v : vendor) :
  integer_of_text id = Ok vid -> find_vendor vid d = Some v ->
  exists v',
    find_vendor vid (snd (put_vendor id b file d)) = Some v'
    /\ vendor_id v' = vendor_id v
    /\ vendor_name v'
       = (if falsy_text (Req.vendor_name b) then vendor_name v
          else Req.vendor_name b)
    /\ vendor_contact_number v'
       = (if falsy_text (Req.vendor_contact_number b) then vendor_contact_number v
          else Req.vendor_contact_number b)
    /\ vendor_address v'
       = (if falsy_text (Req.vendor_address b) then vendor_address v
          else Req.vendor_address b)
    /\ vendor_bill v'
       = match file with
         | Some f => Some (Req.path f)
         | None => vendor_bill v
         end
    /\ Forall2 (fun x x' => vendor_id x' = vendor_id x /\ (vendor_id x <> vid -> x' = x))
               (vendors d) (vendors (snd (put_vendor id b file d))).
Proof.
  intros Hid Hv. rewrite (put_vendor_run id b file d vid v Hid Hv).
  set (r := recompute _ _ _).
  exists (edited_row vid b file r v v).
  assert (Hvendors : vendors (snd (mkResponse 200
                        (vendor_updated (Some (edited_row vid b file r v v))
                           (totalPaid r) (new_status r)),
                      if gt (paid r) (Num 0)
                      then mkDb (map (edited_row vid b file r v) (vendors d))
                             (transactions d ++ [payment_update vid r d])
                             (next_vendor_id d) (next_transaction_id d + 1)%Z (NOW d)
                      else mkDb (map (edited_row vid b file r v) (vendors d))
                             (transactions d) (next_vendor_id d)
                             (next_transaction_id d) (NOW d)))
                    = map (edited_row vid b file r v) (vendors d)).
  { cbn [snd]. destruct (gt (paid r) (Num 0)); reflexivity. }
  unfold find_vendor at 1. rewrite !Hvendors.
  rewrite find_vendor_map by apply edited_row_id.
  fold (find_vendor vid d). rewrite Hv. cbn [option_map].
  split; [reflexivity|].
  unfold edited_row at 1 2 3 4 5. rewrite (find_vendor_id vid d v Hv).
  cbn [vendor_id vendor_name vendor_contact_number vendor_address vendor_bill].
  rewrite !merged_text_cases.
  repeat (split; [reflexivity|]). apply edited_row_frame.
Qed.

Lemma put_vendor_merges_witness :
  exists v',
    find_vendor 1
      (snd (put_vendor "1"
              (Req.mkBody (Some "Acme Ltd"%string) (Some ""%string) None
                          Undefined Undefined Undefined None None)
              (Some (Req.mkFile "temp/9f3a" Throw)) Sample.owing_600))
    = Some v'
    /\ vendor_id v' = vendor_id (Sample.acme 1000 600)
    /\ vendor_name v' = Some "Acme Ltd"%string
    /\ vendor_contact_number v' = vendor_contact_number (Sample.acme 1000 600)
    /\ vendor_address v' = vendor_address (Sample.acme 1000 600)
    /\ vendor_bill v' = Some "temp/9f3a"%string
    /\ Forall2 (fun x x' => vendor_id x' = vendor_id x /\ (vendor_id x <> 1%Z -> x' = x))
               (vendors Sample.owing_600)
               (vendors
                  (snd (put_vendor "1"
                          (Req.mkBody (Some "Acme Ltd"%string) (Some ""%string) None
                                      Undefined Undefined Undefined None None)
                          (Some (Req.mkFile "temp/9f3a" Throw)) Sample.owing_600))).
Proof.
  apply (put_vendor_merges "1"
           (Req.mkBody (Some "Acme Ltd"%string) (Some ""%string) None
                       Undefined Undefined Undefined None None)
           (Some (Req.mkFile "temp/9f3a" Throw)) Sample.owing_600 1
           (Sample.acme 1000 600));
    vm_compute; reflexivity.
Defined.

(** X9. Deleting a transaction that exists under the vendor of the URL
    answers 200, removes every row with that transaction id and no other,
    and sets the vendor's pending amount to what it was (its total, when
    the column is NULL) plus the amount of the row, bounded by 0 and the
    total; the total stays. The sum and the bounds are exact. The amount
    is the amount of the row as the handler reads it and sends it back,
    which is the amount as stored for every amount the router stores. *)
Theorem delete_transaction_restores
        (sv st : string) (d : db) (vid tid : Z) (row : transaction) (v : vendor)
        (p t a : Q) :
  parseInt sv = Some vid -> parseInt st = Some tid ->
  int4 vid = true -> int4 tid = true ->
  find (fun x => Z.eqb (transaction_id x) tid && Z.eqb (tx_vendor_id x) vid)%bool
       (transactions d) = Some row ->
  read_back (amount row) = Num a ->
  find_vendor vid d = Some v ->
  COALESCE (pending_amount v) (total_amount v) = Num p -> total_amount v = Num t ->
  exists q,
    code (fst (delete_transaction sv st d)) = 200%nat
    /\ find_transaction tid (snd (delete_transaction sv st d)) = None
    /\ (forall x, In x (transactions (snd (delete_transaction sv st d)))
                  <-> In x (transactions d) /\ transaction_id x <> tid)
    /\ find_vendor vid (snd (delete_transaction sv st d))
       = Some (set_pending_amount v (Some (Num q)))
    /\ q == clamp (p + a) 0 t.
Proof.
  intros Hsv Hst Hrv Hrt Hrow Ha Hv Hp Ht.
  rewrite find_hd_filter in Hrow.
  destruct (filter (fun x => Z.eqb (transaction_id x) tid
                             && Z.eqb (tx_vendor_id x) vid)%bool
                   (transactions d)) as [|r rest] eqn:Hf; [discriminate|].
  injection Hrow as ->.
  rewrite (delete_transaction_run sv st d vid tid row rest Hsv Hst Hrv Hrt Hf).
  cbn [fst snd code transactions]. rewrite Ha.
  destruct (restored_pending_clamp v p a t Hp Ht) as (q & Hq & Hclamp). exists q.
  split; [reflexivity|]. split.
  { unfold find_transaction. cbn [transactions].
    destruct (find _ _) as [x|] eqn:E; [|reflexivity].
    apply find_some in E as [Hin Hx]. apply filter_other_ids in Hin as [_ Hne].
    apply Z.eqb_eq in Hx. contradiction. }
  split; [intros x; apply filter_other_ids|].
  split; [|exact Hclamp].
  unfold find_vendor. cbn [vendors].
  rewrite find_vendor_map by apply restore_row_id.
  fold (find_vendor vid d). rewrite Hv. cbn [option_map].
  unfold restore_row. rewrite (find_vendor_id vid d v Hv), Hq. reflexivity.
Qed.

Lemma delete_transaction_restores_witness :
  exists q,
    code (fst (delete_transaction "1" "2" Sample.settled)) = 200%nat
    /\ find_transaction 2 (snd (delete_transaction "1" "2" Sample.settled)) = None
    /\ (forall x, In x (transactions (snd (delete_transaction "1" "2" Sample.settled)))
                  <-> In x (transactions Sample.settled) /\ transaction_id x <> 2%Z)
    /\ find_vendor 1 (snd (delete_transaction "1" "2" Sample.settled))
       = Some (set_pending_amount (Sample.acme 1000 0) (Some (Num q)))
    /\ q == clamp (0 + 700) 0 1000.
Proof.
  apply (delete_transaction_restores
           "1" "2" Sample.settled 1 2 Sample.paid_700 (Sample.acme 1000 0)
           0 1000 700);
    vm_compute; reflexivity.
Defined.

(** X20. Deleting a transaction twice: once the first removal has been
    answered 200, the same request is answered 404 and changes nothing. *)
Theorem delete_transaction_twice (sv st : string) (d : db) :
  code (fst (delete_transaction sv st d)) = 200%nat ->
  delete_transaction sv st (snd (delete_transaction sv st d))
  = (mkResponse 404 (error "Transaction not found"), snd (delete_transaction sv st d)).
Proof.
  intros Hok.
  destruct (delete_transaction_cases sv st d)
    as [[Hne _] | (vid & tid & row & rest & Hsv & Hst & Hv & Ht & Hrow)];
    [contradiction|].
  rewrite (delete_transaction_run sv st d vid tid row rest Hsv Hst Hv Ht Hrow).
  cbn [snd]. set (d' := mkDb _ _ _ _ _).
  unfold delete_transaction. rewrite Hsv, Hst.
  rewrite SELECT_transaction_amount_run, Hv, Ht. cbn [andb].
  assert (Hnone : filter (fun t => Z.eqb (transaction_id t) tid
                                   && Z.eqb (tx_vendor_id t) vid)%bool
                         (transactions d') = []).
  { subst d'. cbn [transactions].
    destruct (filter _ (filter _ (transactions d))) as [|x l] eqn:E; [reflexivity|].
    assert (Hin : In x (x :: l)) by (left; reflexivity).
    rewrite <- E in Hin. apply filter_In in Hin as [Hin Hx].
    apply filter_other_ids in Hin as [_ Hne].
    apply andb_prop in Hx as [Hx _]. apply Z.eqb_eq in Hx. contradiction. }
  rewrite Hnone. reflexivity.
Qed.

Lemma delete_transaction_twice_witness :
  delete_transaction "1" "2" (snd (delete_transaction "1" "2" Sample.settled))
  = (mkResponse 404 (error "Transaction not found"),
     snd (delete_transaction "1" "2" Sample.settled)).
Proof.
  apply (delete_transaction_twice "1" "2" Sample.settled). vm_compute; reflexivity.
Defined.

(** X21. Whatever it answers, the delete-transaction handler adds no
    transaction, hands out no serial id, and changes nothing of any vendor
    row except a pending amount. *)
Theorem delete_transaction_frame (sv st : string) (d : db) :
  incl (transactions (snd (delete_transaction sv st d))) (transactions d)
  /\ next_transaction_id (snd (delete_transaction sv st d)) = next_transaction_id d
  /\ next_vendor_id (snd (delete_transaction sv st d)) = next_vendor_id d
  /\ Forall2 same_but_pending (vendors d) (vendors (snd (delete_transaction sv st d))).
Proof.
  assert (Hsame : incl (transactions d) (transactions d)
                  /\ next_transaction_id d = next_transaction_id d
                  /\ next_vendor_id d = next_vendor_id d
                  /\ Forall2 same_but_pending (vendors d) (vendors d)).
  { repeat split; [apply incl_refl | apply same_but_pending_refl]. }
  destruct (delete_transaction_cases sv st d)
    as [[_ ->] | (vid & tid & row & rest & Hsv & Hst & Hv & Ht & Hrow)];
    [exact Hsame|].
  rewrite (delete_transaction_run sv st d vid tid row rest Hsv Hst Hv Ht Hrow).
  cbn [snd transactions next_transaction_id next_vendor_id vendors].
  split; [intros x Hx; apply filter_In in Hx; tauto|].
  split; [reflexivity|]. split; [reflexivity|].
  apply (Forall2_impl _ (fun x x' H => proj1 H)
           (restore_row_frame vid (read_back (amount row)) (vendors d))).
Qed.

(** ** Reading after writing *)

(** X10. The status a vendor is created with and the status it is listed
    with differ for a total of zero: the creation answers Pending, and the
    list that follows shows the new row as Paid when its total reads 0
    and as Pending otherwise; the rows that were there are listed as
    before, in whatever order the server returns them. *)
Theorem created_then_listed
        (scan : list vendor -> list vendor)
        (b : Req.body) (file : option Req.file) (d : db) (bill : option string) :
  (forall l, Permutation (scan l) l) ->
  well_formed b = true -> uploaded file = Ok bill ->
  exists row l l',
    payload (fst (post_vendor b file d)) = vendor_added (Some row) Pending
    /\ payload (fst (get_vendors scan d)) = vendor_list l
    /\ payload (fst (get_vendors scan (snd (post_vendor b file d)))) = vendor_list l'
    /\ Permutation l'
         (l ++ [(row, if strict_eq (parseFloat (Req.total_amount b)) (Num 0)
                      then Paid else Pending)]).
Proof.
  intros Hscan Hwf Hup.
  rewrite (post_vendor_run b file d bill Hwf Hup).
  destruct (well_formed_checks b Hwf) as [_ H2].
  apply orb_false_elim in H2 as [Hnan _].
  eexists _, _, _. split; [reflexivity|]. split; [reflexivity|].
  split; [reflexivity|].
  cbn [snd vendors].
  rewrite <- (listed_unpaid (parseFloat (Req.total_amount b))
                (parseFloat_fix (Req.total_amount b)) Hnan).
  set (row := mkVendor _ _ _ _ _ _ _).
  set (f := fun vendor : vendor =>
              (vendor, listed_status (parseFloat_column (pending_amount vendor))
                                     (parseFloat_numeric (total_amount vendor)))).
  change (Permutation (map f (scan (vendors d ++ [row])))
                      (map f (scan (vendors d)) ++ [f row])).
  apply Permutation_trans with (map f (vendors d ++ [row])).
  - apply Permutation_map, Hscan.
  - rewrite map_app. apply Permutation_app_tail, Permutation_map, Permutation_sym, Hscan.
Qed.

Lemma created_then_listed_witness :
  exists row l l',
    payload (fst (post_vendor (Sample.new_vendor (Str "0")) None Sample.owing_600))
    = vendor_added (Some row) Pending
    /\ payload (fst (get_vendors (@rev vendor) Sample.owing_600)) = vendor_list l
    /\ payload (fst (get_vendors (@rev vendor)
                       (snd (post_vendor (Sample.new_vendor (Str "0")) None
                               Sample.owing_600))))
       = vendor_list l'
    /\ Permutation l'
         (l ++ [(row, if strict_eq (parseFloat (Req.total_amount
                                                  (Sample.new_vendor (Str "0"))))
                                   (Num 0)
                      then Paid else Pending)]).
Proof.
  apply (created_then_listed (@rev vendor) (Sample.new_vendor (Str "0")) None
           Sample.owing_600 None);
    try (vm_compute; reflexivity).
  intros l. apply Permutation_sym, Permutation_rev.
Defined.

(** X16. After an accepted payment, reading the vendor shows the row with
    its new pending amount and the history it had with one row more, the
    payment just made. *)
Theorem paid_then_read
        (scan : list transaction -> list transaction)
        (s : string) (b : Req.body) (d : db) (vid : Z) (a : Q) (v : vendor)
        (when : string) :
  (forall l, Permutation (scan l) l) ->
  parseInt s = Some vid -> integer_of_text s = Ok vid ->
  parseFloat (Req.amount b) = Num a -> 0 < a ->
  stored_date (Req.transaction_date b) d = Ok when ->
  find_vendor vid d = Some v ->
  exists v' row rows,
    find_vendor vid (snd (post_transaction s b d)) = Some v'
    /\ inserted_row (fst (post_transaction s b d)) = Some row
    /\ amount row = printed (Num a) /\ tx_vendor_id row = vid
    /\ fst (get_vendor scan s (snd (post_transaction s b d)))
       = mkVendorResponse 200 (vendor_with_transactions v' rows)
    /\ Permutation rows (history vid d ++ [row]).
Proof.
  intros Hscan Hs Hid Ha Hpos Hdate Hv.
  assert (Hr : int4 vid = true).
  { unfold integer_of_text in Hid.
    destruct (sign (skip_spaces s)) as [neg s1].
    destruct (digits s1 0%Z 0%nat) as [[n k] rest].
    destruct k; [discriminate|].
    destruct (skip_spaces rest); [|discriminate].
    destruct (int4 (if neg then (- n)%Z else n)) eqn:E; [|discriminate].
    injection Hid as <-. exact E. }
  rewrite get_vendor_run, Hid.
  rewrite (post_transaction_run s b d vid v when Hs Hr
             (positive_amount_passes b a Ha Hpos) Hdate Hv).
  rewrite Ha. cbn [fst snd]. unfold inserted_row. cbn [payload].
  set (np := printed (fst (paid_pending _ _ _))).
  set (row := mkTransaction _ _ _ _ _ _).
  assert (Hfind : find_vendor vid
                    (mkDb (map (pay_row vid np) (vendors d)) (transactions d ++ [row])
                       (next_vendor_id d) (next_transaction_id d + 1)%Z (NOW d))
                  = Some (pay_row vid np v)).
  { unfold find_vendor. cbn [vendors].
    rewrite find_vendor_map by apply pay_row_id.
    fold (find_vendor vid d). now rewrite Hv. }
  rewrite Hfind. eexists _, _, _. split; [reflexivity|]. split; [reflexivity|].
  split; [reflexivity|]. split; [reflexivity|]. split; [reflexivity|].
  unfold history at 1. cbn [transactions]. rewrite filter_app.
  cbn [filter]. unfold row at 1. cbn [tx_vendor_id]. rewrite Z.eqb_refl.
  apply Hscan.
Qed.

Lemma paid_then_read_witness :
  exists v' row rows,
    find_vendor 1 (snd (post_transaction "1" (Sample.payment 700) Sample.owing_600))
    = Some v'
    /\ inserted_row (fst (post_transaction "1" (Sample.payment 700) Sample.owing_600))
       = Some row
    /\ amount row = printed (Num 700) /\ tx_vendor_id row = 1%Z
    /\ fst (get_vendor (@rev transaction) "1"
              (snd (post_transaction "1" (Sample.payment 700) Sample.owing_600)))
       = mkVendorResponse 200 (vendor_with_transactions v' rows)
    /\ Permutation rows (history 1 Sample.owing_600 ++ [row]).
Proof.
  apply (paid_then_read (@rev transaction) "1" (Sample.payment 700) Sample.owing_600
           1 700 (Sample.acme 1000 600) "2024-05-01");
    try (vm_compute; reflexivity).
  intros l. apply Permutation_sym, Permutation_rev.
Defined.

(** X17. Removing a vendor that exists and has no transactions answers 200
    with the row that was found; afterwards no vendor has that id, the
    other vendors and the transactions are as they were, and reading the
    vendor answers 404. *)
Theorem delete_vendor_removes
        (scan : list transaction -> list transaction)
        (id : string) (d : db) (vid : Z) (v : vendor) :
  integer_of_text id = Ok vid -> find_vendor vid d = Some v ->
  history vid d = [] ->
  fst (delete_vendor id d) = mkVendorResponse 200 (vendor_deleted (Some v))
  /\ find_vendor vid (snd (delete_vendor id d)) = None
  /\ (forall x, In x (vendors (snd (delete_vendor id d)))
                <-> In x (vendors d) /\ vendor_id x <> vid)
  /\ transactions (snd (delete_vendor id d)) = transactions d
  /\ vendor_code (fst (get_vendor scan id (snd (delete_vendor id d)))) = 404%nat.
Proof.
  intros Hid Hv _. rewrite delete_vendor_run, Hid, Hv. cbn [fst snd].
  split; [reflexivity|]. split; [apply other_vendors_lookup|].
  split.
  { intros x. unfold other_vendors. cbn [vendors with_vendors].
    rewrite filter_In, negb_true_iff, Z.eqb_neq. reflexivity. }
  split; [reflexivity|].
  rewrite get_vendor_run, Hid, other_vendors_lookup. reflexivity.
Qed.

Lemma delete_vendor_removes_witness :
  fst (delete_vendor "7" (mkDb [Sample.acme 1000 600; mkVendor 7 (Some "Bolt"%string)
                                  (Some "556"%string) None None (Num 50) (Some (Num 50))]
                               [Sample.paid_400] 8 2 "2024-05-01"))
  = mkVendorResponse 200
      (vendor_deleted
         (Some (mkVendor 7 (Some "Bolt"%string) (Some "556"%string) None None
                         (Num 50) (Some (Num 50)))))
  /\ find_vendor 7
       (snd (delete_vendor "7"
               (mkDb [Sample.acme 1000 600; mkVendor 7 (Some "Bolt"%string)
                        (Some "556"%string) None None (Num 50) (Some (Num 50))]
                     [Sample.paid_400] 8 2 "2024-05-01"))) = None
  /\ (forall x,
        In x (vendors
                (snd (delete_vendor "7"
                        (mkDb [Sample.acme 1000 600; mkVendor 7 (Some "Bolt"%string)
                                 (Some "556"%string) None None (Num 50) (Some (Num 50))]
                              [Sample.paid_400] 8 2 "2024-05-01"))))
        <-> In x [Sample.acme 1000 600; mkVendor 7 (Some "Bolt"%string)
                    (Some "556"%string) None None (Num 50) (Some (Num 50))]
            /\ vendor_id x <> 7%Z)
  /\ transactions
       (snd (delete_vendor "7"
               (mkDb [Sample.acme 1000 600; mkVendor 7 (Some "Bolt"%string)
                        (Some "556"%string) None None (Num 50) (Some (Num 50))]
                     [Sample.paid_400] 8 2 "2024-05-01")))
     = [Sample.paid_400]
  /\ vendor_code
       (fst (get_vendor (fun l => l) "7"
               (snd (delete_vendor "7"
                       (mkDb [Sample.acme 1000 600; mkVendor 7 (Some "Bolt"%string)
                                (Some "556"%string) None None (Num 50) (Some (Num 50))]
                             [Sample.paid_400] 8 2 "2024-05-01")))))
     = 404%nat.
Proof.
  apply (delete_vendor_removes (fun l => l) "7"
           (mkDb [Sample.acme 1000 600; mkVendor 7 (Some "Bolt"%string)
                    (Some "556"%string) None None (Num 50) (Some (Num 50))]
                 [Sample.paid_400] 8 2 "2024-05-01")
           7
           (mkVendor 7 (Some "Bolt"%string) (Some "556"%string) None None
                     (Num 50) (Some (Num 50))));
    vm_compute; reflexivity.
Defined.

(** X19. Creating a vendor and removing it again brings the two tables
    back to what they were: only the serial counter of [vendors] has
    moved, and the removal answers with the row that was created. It
    takes a counter that is ahead of the ids in use. *)
Theorem created_then_removed (b : Req.body) (file : option Req.file) (d : db)
        (bill : option string) (id : string) :
  well_formed b = true -> uploaded file = Ok bill ->
  integer_of_text id = Ok (next_vendor_id d) ->
  Forall (fun v => vendor_id v <> next_vendor_id d) (vendors d) ->
  history (next_vendor_id d) d = [] ->
  exists row,
    payload (fst (post_vendor b file d)) = vendor_added (Some row) Pending
    /\ delete_vendor id (snd (post_vendor b file d))
       = (mkVendorResponse 200 (vendor_deleted (Some row)),
          mkDb (vendors d) (transactions d) (next_vendor_id d + 1)%Z
               (next_transaction_id d) (NOW d)).
Proof.
  intros Hwf Hup Hid Hfresh _.
  rewrite (post_vendor_run b file d bill Hwf Hup).
  eexists. cbn [fst snd payload]. split; [reflexivity|].
  rewrite delete_vendor_run, Hid.
  set (row := mkVendor _ _ _ _ _ _ _).
  destruct (find_app_fresh (next_vendor_id d) (vendors d) row Hfresh eq_refl)
    as [Hfind Hothers].
  unfold find_vendor, other_vendors. cbn [vendors with_vendors transactions
    next_vendor_id next_transaction_id NOW].
  rewrite Hfind, Hothers. reflexivity.
Qed.

Lemma created_then_removed_witness :
  exists row,
    payload (fst (post_vendor (Sample.new_vendor (Str "80")) None Sample.owing_600))
    = vendor_added (Some row) Pending
    /\ delete_vendor "2"
         (snd (post_vendor (Sample.new_vendor (Str "80")) None Sample.owing_600))
       = (mkVendorResponse 200 (vendor_deleted (Some row)),
          mkDb (vendors Sample.owing_600) (transactions Sample.owing_600) 3 2
               "2024-05-01").
Proof.
  apply (created_then_removed (Sample.new_vendor (Str "80")) None Sample.owing_600
           None "2");
    try (vm_compute; reflexivity).
  repeat constructor. cbn. discriminate.
Defined.
